(** * DB_Management: the [DatabaseManager] class of [main.py]

    A shallow embedding of the methods of [main.py] that carry logic of
    their own -- [hash_password], [generate_dummy_data],
    [modify_database_structure], [create_triggers] and
    [process_order_transaction] -- and of the SQLite triggers whose text
    [create_triggers] installs, followed by the properties proved of
    them.

    Conventions of the model.
    - A table is the list of its rows in insertion order, together with
      its sqlite_sequence entry.
    - INTEGER columns and Python ints are [Z].  The program stores row
      ids counted from 1, stock drawn from [0, 500] and small literal
      quantities; SQLite's 64-bit limit is never approached and is not
      modelled.
    - REAL columns (price, total_amount) hold Python floats.  They are
      kept abstract behind the class [Num]: no algebraic law of the
      addition or of the multiplication is assumed anywhere.
    - The timestamp columns (created_at, order_date, timestamp) are filled
      from the wall clock; only the random day offset of order_date is
      kept, as the number of days before the moment of generation.
    - The [random] module is a stream [rand] of raw numbers, one per call;
      a statement about every [rand] is a statement about every run.
    - A method is a function from the database file to the value (or the
      exception) the call produces and the file it leaves.  Inside, the
      statements run on a connection that separates what it sees from
      what is committed.
    - [print] calls write to the terminal only and are left out.
    - Python's [sqlite3] leaves [PRAGMA foreign_keys] off, so the FOREIGN
      KEY clauses of the schema are not enforced and nothing cascades. *)

From Stdlib Require Import ZArith List String Ascii Bool Lia.
From Stdlib Require Import DecimalString DecimalNat.
Import ListNotations.
Open Scope string_scope.
Open Scope list_scope.
Open Scope Z_scope.

(** ** hashlib.sha256 (FIPS 180-4) on bytes held as [Z] *)

Module SHA256.

Definition word := Z.
Definition mask32 : Z := 4294967295.

Definition add32 (x y : word) : word := Z.land (x + y) mask32.
Definition rotr (n : Z) (x : word) : word :=
  Z.land (Z.lor (Z.shiftr x n) (Z.shiftl x (32 - n))) mask32.
Definition shr (n : Z) (x : word) : word := Z.shiftr x n.
Definition not32 (x : word) : word := Z.lxor x mask32.

Definition Ch (x y z : word) : word :=
  Z.lxor (Z.land x y) (Z.land (not32 x) z).
Definition Maj (x y z : word) : word :=
  Z.lxor (Z.lxor (Z.land x y) (Z.land x z)) (Z.land y z).
Definition Sigma0 (x : word) : word :=
  Z.lxor (Z.lxor (rotr 2 x) (rotr 13 x)) (rotr 22 x).
Definition Sigma1 (x : word) : word :=
  Z.lxor (Z.lxor (rotr 6 x) (rotr 11 x)) (rotr 25 x).
Definition sigma0 (x : word) : word :=
  Z.lxor (Z.lxor (rotr 7 x) (rotr 18 x)) (shr 3 x).
Definition sigma1 (x : word) : word :=
  Z.lxor (Z.lxor (rotr 17 x) (rotr 19 x)) (shr 10 x).

(** The constants are defined the way the standard defines them, from
    the first 64 primes: K holds the first 32 bits of the fractional
    parts of their cube roots, H0 those of the square roots of the first
    eight. *)
Definition is_prime (n : nat) : bool :=
  forallb (fun d => negb (n mod d =? 0)%nat) (seq 2 (n - 2)).

Definition primes : list Z :=
  Eval vm_compute in map Z.of_nat (filter is_prime (seq 2 310)).

(** The integer cube root, one bit at a time from bit [bits - 1] down. *)
Fixpoint cube_root (bits : nat) (n r : Z) : Z :=
  match bits with
  | O => r
  | S b =>
      let r' := r + 2 ^ Z.of_nat b in
      cube_root b n (if r' * r' * r' <=? n then r' else r)
  end.

Definition K : list word :=
  Eval vm_compute in
    map (fun p => Z.land (cube_root 40 (p * 2 ^ 96) 0) mask32) primes.

(** The eight chaining words a, b, c, d, e, f, g, h. *)
Record hstate := mkH {
  ha : word; hb : word; hc : word; hd : word;
  he : word; hf : word; hg : word; hh : word }.

Definition hstate_of_list (l : list word) : hstate :=
  match l with
  | [a; b; c; d; e; f; g; h] => mkH a b c d e f g h
  | _ => mkH 0 0 0 0 0 0 0 0
  end.

Definition H0 : hstate :=
  Eval vm_compute in
    hstate_of_list
      (map (fun p => Z.land (Z.sqrt (p * 2 ^ 64)) mask32) (firstn 8 primes)).

(** Padding: a 1 bit, zero bits up to 56 mod 64 bytes, then the length of
    the message in bits as a big-endian 64-bit integer. *)
Definition be_bytes (n : nat) (x : Z) : list Z :=
  map (fun i => Z.land (Z.shiftr x (8 * Z.of_nat i)) 255) (rev (seq 0 n)).

Definition pad (msg : list Z) : list Z :=
  let len := Z.of_nat (List.length msg) in
  let zeros := Z.to_nat ((55 - len) mod 64) in
  msg ++ [128] ++ repeat 0 zeros ++ be_bytes 8 (8 * len).

Definition be_word (b0 b1 b2 b3 : Z) : word :=
  Z.lor (Z.lor (Z.shiftl b0 24) (Z.shiftl b1 16)) (Z.lor (Z.shiftl b2 8) b3).

Fixpoint words_of_bytes (bs : list Z) : list word :=
  match bs with
  | b0 :: b1 :: b2 :: b3 :: rest => be_word b0 b1 b2 b3 :: words_of_bytes rest
  | _ => []
  end.

(** The message schedule, most recent word first: the head of [recent]
    is W(t-1). *)
Fixpoint extend (n : nat) (recent : list word) : list word :=
  match n with
  | O => recent
  | S n' =>
      let w := add32 (add32 (sigma1 (nth 1 recent 0)) (nth 6 recent 0))
                     (add32 (sigma0 (nth 14 recent 0)) (nth 15 recent 0)) in
      extend n' (w :: recent)
  end.

Definition schedule (block : list word) : list word :=
  rev (extend 48 (rev block)).

Definition round (s : hstate) (kw : word * word) : hstate :=
  let (k, w) := kw in
  let t1 := add32 (add32 (add32 (hh s) (Sigma1 (he s)))
                         (add32 (Ch (he s) (hf s) (hg s)) k)) w in
  let t2 := add32 (Sigma0 (ha s)) (Maj (ha s) (hb s) (hc s)) in
  mkH (add32 t1 t2) (ha s) (hb s) (hc s) (add32 (hd s) t1) (he s) (hf s) (hg s).

Definition compress (h : hstate) (block : list word) : hstate :=
  let s := fold_left round (combine K (schedule block)) h in
  mkH (add32 (ha h) (ha s)) (add32 (hb h) (hb s))
      (add32 (hc h) (hc s)) (add32 (hd h) (hd s))
      (add32 (he h) (he s)) (add32 (hf h) (hf s))
      (add32 (hg h) (hg s)) (add32 (hh h) (hh s)).

(** Blocks of sixteen words; [fuel] bounds the number of blocks. *)
Fixpoint blocks (fuel : nat) (h : hstate) (ws : list word) : hstate :=
  match fuel with
  | O => h
  | S fuel' =>
      match ws with
      | [] => h
      | _ => blocks fuel' (compress h (firstn 16 ws)) (skipn 16 ws)
      end
  end.

Definition digest_words (msg : list Z) : list word :=
  let ws := words_of_bytes (pad msg) in
  let h := blocks (List.length ws) H0 ws in
  [ha h; hb h; hc h; hd h; he h; hf h; hg h; hh h].

(** The digest as 32 bytes. *)
Definition sha256 (msg : list Z) : list Z :=
  flat_map (be_bytes 4) (digest_words msg).

Definition hex_digit (d : Z) : ascii :=
  if d <? 10 then ascii_of_N (Z.to_N (48 + d))
  else ascii_of_N (Z.to_N (87 + d)).

(** [hexdigest]: two lowercase hexadecimal digits per byte. *)
Fixpoint hexdigest (bs : list Z) : string :=
  match bs with
  | [] => EmptyString
  | b :: rest =>
      String (hex_digit (Z.shiftr b 4))
        (String (hex_digit (Z.land b 15)) (hexdigest rest))
  end.

End SHA256.

(** ** Python values *)

(** A Python [str] is a sequence of code points. *)
Definition pystr := list Z.

Definition pystr_of_string (s : string) : pystr :=
  map (fun a => Z.of_N (N_of_ascii a)) (list_ascii_of_string s).

(** The exceptions the modelled code can raise. *)
Inductive exn : Type :=
| ValueError (msg : string) (product_id : Z)
| TypeError (msg : string)
| IndexError (msg : string)
| UnicodeEncodeError
| OperationalError (msg : string)
| IntegrityError (msg : string).

Inductive res (A : Type) : Type :=
| Ok (a : A)
| Raise (e : exn).
Arguments Ok {A} a.
Arguments Raise {A} e.

(** [str.encode()]: UTF-8; a lone surrogate cannot be encoded.  Numbers
    outside 0 .. 0x10FFFF are no code points and are refused as well. *)
Definition encode_char (c : Z) : option (list Z) :=
  if c <? 0 then None
  else if c <? 0x80 then Some [c]
  else if c <? 0x800 then
    Some [Z.lor 0xC0 (Z.shiftr c 6); Z.lor 0x80 (Z.land c 0x3F)]
  else if c <? 0x10000 then
    if (0xD800 <=? c) && (c <=? 0xDFFF) then None
    else Some [Z.lor 0xE0 (Z.shiftr c 12);
               Z.lor 0x80 (Z.land (Z.shiftr c 6) 0x3F);
               Z.lor 0x80 (Z.land c 0x3F)]
  else if c <? 0x110000 then
    Some [Z.lor 0xF0 (Z.shiftr c 18);
          Z.lor 0x80 (Z.land (Z.shiftr c 12) 0x3F);
          Z.lor 0x80 (Z.land (Z.shiftr c 6) 0x3F);
          Z.lor 0x80 (Z.land c 0x3F)]
  else None.

Fixpoint encode (s : pystr) : res (list Z) :=
  match s with
  | [] => Ok []
  | c :: rest =>
      match encode_char c, encode rest with
      | Some bs, Ok bs' => Ok (bs ++ bs')
      | _, _ => Raise UnicodeEncodeError
      end
  end.

(** [hash_password]: [hashlib.sha256(password.encode()).hexdigest()]. *)
Definition hash_password (password : pystr) : res string :=
  match encode password with
  | Ok bytes => Ok (SHA256.hexdigest (SHA256.sha256 bytes))
  | Raise e => Raise e
  end.

(** ** Numbers of the REAL columns *)

(** Python floats, kept abstract.  [nzero] is the int [0] the running
    totals start from, [nadd] is [+], [nscale x q] is [x * q] for an int
    [q], and [uniform_price d] is [round(random.uniform(10, 1000), 2)]
    as decided by the raw random draw [d]. *)
Class Num (R : Type) : Type := {
  nzero : R;
  nadd : R -> R -> R;
  nscale : R -> Z -> R;
  uniform_price : nat -> R
}.

(** Prices in whole cents: an instance to run the model on. *)
#[export] Instance Num_cents : Num Z := {
  nzero := 0;
  nadd := Z.add;
  nscale := Z.mul;
  uniform_price := fun d => 1000 + Z.of_nat d mod 99001
}.

(** ** Rows and tables *)

Inductive user_status : Type := Active | Inactive | Suspended.
Inductive order_status : Type := Pending | Completed | Cancelled.

Definition user_status_eqb (a b : user_status) : bool :=
  match a, b with
  | Active, Active | Inactive, Inactive | Suspended, Suspended => true
  | _, _ => false
  end.

Record user : Type := mkUser {
  u_id : Z;
  u_username : string;
  u_email : string;
  u_password_hash : string;
  u_status : user_status
}.

Record product (R : Type) : Type := mkProduct {
  p_id : Z;
  p_name : string;
  p_category : string;
  p_price : R;
  p_stock : Z
}.
Arguments mkProduct {R}.
Arguments p_id {R}.
Arguments p_name {R}.
Arguments p_category {R}.
Arguments p_price {R}.
Arguments p_stock {R}.

Record order (R : Type) : Type := mkOrder {
  o_id : Z;
  o_user_id : Z;
  o_total_amount : R;
  o_days_ago : Z;
  o_status : order_status
}.
Arguments mkOrder {R}.
Arguments o_id {R}.
Arguments o_user_id {R}.
Arguments o_total_amount {R}.
Arguments o_days_ago {R}.
Arguments o_status {R}.

Record order_item (R : Type) : Type := mkOrderItem {
  oi_id : Z;
  oi_order_id : Z;
  oi_product_id : Z;
  oi_quantity : Z;
  oi_price : R
}.
Arguments mkOrderItem {R}.
Arguments oi_id {R}.
Arguments oi_order_id {R}.
Arguments oi_product_id {R}.
Arguments oi_quantity {R}.
Arguments oi_price {R}.

(** The [details] column of audit_log: the JSON object the writer builds. *)
Inductive audit_details (R : Type) : Type :=
| OrderCreated (order_id : Z) (total : R)
| StatusChange (old_status new_status : user_status).
Arguments OrderCreated {R}.
Arguments StatusChange {R}.

Record audit_entry (R : Type) : Type := mkAudit {
  a_id : Z;
  a_table_name : string;
  a_action : string;
  a_user_id : Z;
  a_details : audit_details R
}.
Arguments mkAudit {R}.
Arguments a_id {R}.
Arguments a_table_name {R}.
Arguments a_action {R}.
Arguments a_user_id {R}.
Arguments a_details {R}.

(** A table with an INTEGER PRIMARY KEY AUTOINCREMENT: its rows and its
    entry in sqlite_sequence, the largest id ever handed out. *)
Record table (A : Type) : Type := mkTable {
  rows : list A;
  autoinc : Z
}.
Arguments mkTable {A}.
Arguments rows {A}.
Arguments autoinc {A}.

Definition max_id {A} (id : A -> Z) (l : list A) : Z :=
  fold_right (fun r m => Z.max (id r) m) 0 l.

(** The id an INSERT hands out: one more than every id in the table and
    than the recorded sequence value. *)
Definition next_id {A} (id : A -> Z) (t : table A) : Z :=
  Z.max (autoinc t) (max_id id (rows t)) + 1.

(** INSERT of the row [mk i], where [i] is the fresh id. *)
Definition insert_row {A} (id : A -> Z) (mk : Z -> A) (t : table A) : table A :=
  let i := next_id id t in
  mkTable (rows t ++ [mk i]) i.

(** DELETE of every row; sqlite_sequence keeps its value. *)
Definition delete_all {A} (t : table A) : table A := mkTable [] (autoinc t).

(** The whole database file. *)
Record DB (R : Type) : Type := mkDB {
  users : table user;
  products : table (product R);
  orders : table (order R);
  order_items : table (order_item R);
  audit_log : table (audit_entry R);
  users_columns : list string;
  views : list string;
  triggers : list string
}.
Arguments mkDB {R}.
Arguments users {R}.
Arguments products {R}.
Arguments orders {R}.
Arguments order_items {R}.
Arguments audit_log {R}.
Arguments users_columns {R}.
Arguments views {R}.
Arguments triggers {R}.

(** What [setup_database] leaves on a new file: the five tables, empty.
    On an existing file every CREATE ... IF NOT EXISTS finds its object
    and the call changes nothing. *)
Definition fresh_database {R} : DB R :=
  mkDB (mkTable [] 0) (mkTable [] 0) (mkTable [] 0) (mkTable [] 0)
       (mkTable [] 0)
       ["id"; "username"; "email"; "password_hash"; "created_at"; "status"]
       [] [].

Definition has_name (n : string) (l : list string) : bool :=
  existsb (String.eqb n) l.

(** CREATE ... IF NOT EXISTS on a list of object names. *)
Definition add_if_absent (n : string) (l : list string) : list string :=
  if has_name n l then l else l ++ [n].

(** ** Connections and the monad of the methods

    A connection sees [cur]; other connections, and every later one, see
    [disk].  [in_tx] is sqlite3's in_transaction flag, [temp] holds the
    TEMP tables of the connection.  [draws] belongs to the process rather
    than to the connection: it counts the numbers the [random] module has
    handed out so far. *)
Record conn (R : Type) : Type := mkConn {
  disk : DB R;
  cur : DB R;
  in_tx : bool;
  temp : list string;
  draws : nat
}.
Arguments mkConn {R}.
Arguments disk {R}.
Arguments cur {R}.
Arguments in_tx {R}.
Arguments temp {R}.
Arguments draws {R}.

Definition M (R A : Type) : Type := conn R -> res A * conn R.

Definition ret {R A} (a : A) : M R A := fun c => (Ok a, c).

Definition bind {R A B} (m : M R A) (k : A -> M R B) : M R B :=
  fun c =>
    match m c with
    | (Ok a, c') => k a c'
    | (Raise e, c') => (Raise e, c')
    end.

Definition raise {R A} (e : exn) : M R A := fun c => (Raise e, c).

(** [try: m except Exception as e: h e]. *)
Definition try_except {R A} (m : M R A) (h : exn -> M R A) : M R A :=
  fun c =>
    match m c with
    | (Ok a, c') => (Ok a, c')
    | (Raise e, c') => h e c'
    end.

Declare Scope monad_scope.
Delimit Scope monad_scope with monad.
Notation "x <- m ;; k" := (bind m (fun x => k))
  (at level 61, m at next level, right associativity) : monad_scope.
Notation "m ;; k" := (bind m (fun _ => k))
  (at level 61, right associativity) : monad_scope.
Open Scope monad_scope.

(** [for x in l: body x]. *)
Fixpoint for_each {R A} (l : list A) (body : A -> M R unit) : M R unit :=
  match l with
  | [] => ret tt
  | x :: rest => body x ;; for_each rest body
  end.

(** [for i in range(n): body i]. *)
Definition for_range {R} (n : nat) (body : nat -> M R unit) : M R unit :=
  for_each (seq 0 n) body.

(** A loop that carries an accumulator, as the running totals do. *)
Fixpoint fold_each {R A S} (l : list A) (body : S -> A -> M R S) (s : S)
  : M R S :=
  match l with
  | [] => ret s
  | x :: rest => s' <- body s x ;; fold_each rest body s'
  end.

(** [with self.get_connection() as conn: body]: the connection is opened
    on the file and closed on the way out, whatever happened; what was
    not committed is lost with it. *)
Definition with_connection {R A} (seed : nat) (body : M R A) (db : DB R)
  : res A * DB R :=
  let (r, c) := body (mkConn db db false [] seed) in (r, disk c).

Section Program.

Context {R : Type} `{Num R}.

(** The source of randomness: the n-th raw number the [random] module
    hands out.  Every run of the program is the run under some [rand]. *)
Variable rand : nat -> nat.

(** *** Statements *)

Definition set_users (t : table user) (d : DB R) : DB R :=
  mkDB t (products d) (orders d) (order_items d) (audit_log d)
       (users_columns d) (views d) (triggers d).
Definition set_products (t : table (product R)) (d : DB R) : DB R :=
  mkDB (users d) t (orders d) (order_items d) (audit_log d)
       (users_columns d) (views d) (triggers d).
Definition set_orders (t : table (order R)) (d : DB R) : DB R :=
  mkDB (users d) (products d) t (order_items d) (audit_log d)
       (users_columns d) (views d) (triggers d).
Definition set_order_items (t : table (order_item R)) (d : DB R) : DB R :=
  mkDB (users d) (products d) (orders d) t (audit_log d)
       (users_columns d) (views d) (triggers d).
Definition set_audit_log (t : table (audit_entry R)) (d : DB R) : DB R :=
  mkDB (users d) (products d) (orders d) (order_items d) t
       (users_columns d) (views d) (triggers d).
Definition set_users_columns (l : list string) (d : DB R) : DB R :=
  mkDB (users d) (products d) (orders d) (order_items d) (audit_log d)
       l (views d) (triggers d).
Definition set_views (l : list string) (d : DB R) : DB R :=
  mkDB (users d) (products d) (orders d) (order_items d) (audit_log d)
       (users_columns d) l (triggers d).
Definition set_triggers (l : list string) (d : DB R) : DB R :=
  mkDB (users d) (products d) (orders d) (order_items d) (audit_log d)
       (users_columns d) (views d) l.

(** SELECT: reads what the connection sees. *)
Definition query {A} (f : DB R -> A) : M R A := fun c => (Ok (f (cur c)), c).

(** INSERT, UPDATE, DELETE: sqlite3 opens a transaction first when none
    is open. *)
Definition dml (f : DB R -> DB R) : M R unit :=
  fun c => (Ok tt, mkConn (disk c) (f (cur c)) true (temp c) (draws c)).

(** A statement that fails: the implicit BEGIN has happened, the
    statement itself is undone. *)
Definition dml_fail {A} (e : exn) : M R A :=
  fun c => (Raise e, mkConn (disk c) (cur c) true (temp c) (draws c)).

(** CREATE, ALTER: no implicit BEGIN; outside a transaction the statement
    is committed at once. *)
Definition ddl (f : DB R -> DB R) : M R unit :=
  fun c =>
    let d := f (cur c) in
    (Ok tt, mkConn (if in_tx c then disk c else d) d (in_tx c) (temp c)
                   (draws c)).

Definition begin_transaction : M R unit :=
  fun c =>
    if in_tx c
    then (Raise (OperationalError
                   "cannot start a transaction within a transaction"), c)
    else (Ok tt, mkConn (disk c) (cur c) true (temp c) (draws c)).

Definition commit : M R unit :=
  fun c =>
    if in_tx c
    then (Ok tt, mkConn (cur c) (cur c) false (temp c) (draws c))
    else (Ok tt, c).

Definition rollback : M R unit :=
  fun c =>
    if in_tx c
    then (Ok tt, mkConn (disk c) (disk c) false (temp c) (draws c))
    else (Ok tt, c).

(** Trigger names, as [create_triggers] spells them. *)
Definition audit_user_changes : string := "audit_user_changes".
Definition update_product_stock : string := "update_product_stock".
Definition prevent_order_deletion : string := "prevent_order_deletion".

(** [SELECT COUNT( * ) FROM order_items WHERE order_id = oid]. *)
Definition items_of (d : DB R) (oid : Z) : list (order_item R) :=
  filter (fun it => oi_order_id it =? oid) (rows (order_items d)).

(** The body of prevent_order_deletion for OLD = [o]: true when it
    raises. *)
Definition deletion_aborts (d : DB R) (o : order R) : bool :=
  has_name prevent_order_deletion (triggers d)
  && (0 <? Z.of_nat (List.length (items_of d (o_id o)))).

(** [DELETE FROM orders WHERE sel].  RAISE(ABORT) undoes the whole
    statement and surfaces as an IntegrityError. *)
Definition sql_delete_orders (sel : order R -> bool) : M R unit :=
  fun c =>
    if existsb (fun o => sel o && deletion_aborts (cur c) o)
               (rows (orders (cur c)))
    then dml_fail (IntegrityError "Cannot delete order with items") c
    else dml (fun d =>
                set_orders (mkTable (filter (fun o => negb (sel o))
                                            (rows (orders d)))
                                    (autoinc (orders d))) d) c.

(** [INSERT INTO users (username, email, password_hash, status)]; both
    username and email are UNIQUE, and the index of email is checked
    before that of username. *)
Definition sql_insert_user (username email password_hash : string)
    (status : user_status) : M R unit :=
  fun c =>
    let us := rows (users (cur c)) in
    if existsb (fun u => String.eqb (u_email u) email) us
    then dml_fail (IntegrityError "UNIQUE constraint failed: users.email") c
    else if existsb (fun u => String.eqb (u_username u) username) us
    then dml_fail (IntegrityError "UNIQUE constraint failed: users.username") c
    else dml (fun d =>
                set_users
                  (insert_row u_id
                     (fun i => mkUser i username email password_hash status)
                     (users d)) d) c.

(** [INSERT INTO products (name, category, price, stock)]. *)
Definition sql_insert_product (name category : string) (price : R)
    (stock : Z) : M R unit :=
  dml (fun d =>
         set_products
           (insert_row p_id (fun i => mkProduct i name category price stock)
                       (products d)) d).

(** [INSERT INTO orders]; the result is [cursor.lastrowid]. *)
Definition sql_insert_order (user_id : Z) (total_amount : R) (days_ago : Z)
    (status : order_status) : M R Z :=
  fun c =>
    let i := next_id o_id (orders (cur c)) in
    match dml (fun d =>
                 set_orders
                   (insert_row o_id
                      (fun i => mkOrder i user_id total_amount days_ago status)
                      (orders d)) d) c with
    | (_, c') => (Ok i, c')
    end.

(** The body of update_product_stock for NEW = (product_id, quantity). *)
Definition stock_trigger (product_id quantity : Z) (p : product R)
  : product R :=
  if (p_id p =? product_id) && (quantity <=? p_stock p)
  then mkProduct (p_id p) (p_name p) (p_category p) (p_price p)
                 (p_stock p - quantity)
  else p.

Definition map_rows {A} (f : A -> A) (t : table A) : table A :=
  mkTable (map f (rows t)) (autoinc t).

(** [INSERT INTO order_items (order_id, product_id, quantity, price)],
    followed by update_product_stock when that trigger exists. *)
Definition sql_insert_order_item (order_id product_id quantity : Z)
    (price : R) : M R unit :=
  dml (fun d =>
         let d' :=
           set_order_items
             (insert_row oi_id
                (fun i => mkOrderItem i order_id product_id quantity price)
                (order_items d)) d in
         if has_name update_product_stock (triggers d')
         then set_products
                (map_rows (stock_trigger product_id quantity) (products d')) d'
         else d').

(** [UPDATE orders SET total_amount = ? WHERE id = ?], on one row and
    as a statement. *)
Definition set_total (total : R) (order_id : Z) (o : order R) : order R :=
  if o_id o =? order_id
  then mkOrder (o_id o) (o_user_id o) total (o_days_ago o) (o_status o)
  else o.

Definition sql_update_order_total (total : R) (order_id : Z) : M R unit :=
  dml (fun d =>
         set_orders (map_rows (set_total total order_id) (orders d)) d).

(** [UPDATE products SET stock = stock - ? WHERE id = ?], on one row
    and as a statement. *)
Definition take_stock (quantity product_id : Z) (p : product R)
  : product R :=
  if p_id p =? product_id
  then mkProduct (p_id p) (p_name p) (p_category p) (p_price p)
                 (p_stock p - quantity)
  else p.

Definition sql_update_stock (quantity product_id : Z) : M R unit :=
  dml (fun d =>
         set_products
           (map_rows (take_stock quantity product_id) (products d)) d).

(** [SELECT ... FROM products WHERE id = ?] then [fetchone()]. *)
Definition find_product (d : DB R) (product_id : Z) : option (product R) :=
  find (fun p => p_id p =? product_id) (rows (products d)).

Definition select_product (product_id : Z) : M R (option (product R)) :=
  query (fun d => find_product d product_id).

(** [INSERT INTO audit_log (table_name, action, user_id, details)]. *)
Definition sql_insert_audit (table_name action : string) (user_id : Z)
    (details : audit_details R) : M R unit :=
  dml (fun d =>
         set_audit_log
           (insert_row a_id
              (fun i => mkAudit i table_name action user_id details)
              (audit_log d)) d).

(** [SELECT id FROM users WHERE status = 'active']. *)
Definition active_user_ids (d : DB R) : list Z :=
  map u_id (filter (fun u => user_status_eqb (u_status u) Active)
                   (rows (users d))).

(** [SELECT id, price FROM products]. *)
Definition product_prices (d : DB R) : list (Z * R) :=
  map (fun p => (p_id p, p_price p)) (rows (products d)).

(** *** The [random] module *)

Definition draw : M R nat :=
  fun c => (Ok (rand (draws c)),
            mkConn (disk c) (cur c) (in_tx c) (temp c) (S (draws c))).

(** [random.choice(l)]. *)
Definition random_choice {A} (l : list A) : M R A :=
  match l with
  | [] => raise (IndexError "Cannot choose from an empty sequence")
  | x :: _ => d <- draw ;; ret (nth (d mod List.length l)%nat l x)
  end.

(** [random.randint(a, b)], for a <= b. *)
Definition random_randint (a b : Z) : M R Z :=
  d <- draw ;; ret (a + Z.of_nat d mod (b - a + 1)).

(** [round(random.uniform(10, 1000), 2)]. *)
Definition random_price : M R R :=
  d <- draw ;; ret (uniform_price d).

Definition ascii_lowercase : list ascii :=
  list_ascii_of_string "abcdefghijklmnopqrstuvwxyz".

(** [_random_string(length)]:
    [''.join(random.choices(string.ascii_lowercase, k=length))]. *)
Fixpoint _random_string (length : nat) : M R string :=
  match length with
  | O => ret EmptyString
  | S n =>
      ch <- random_choice ascii_lowercase ;;
      rest <- _random_string n ;;
      ret (String ch rest)
  end.

(** [str(i)] for a non-negative int. *)
Definition str (i : nat) : string := NilEmpty.string_of_uint (Nat.to_uint i).

Definition lift {A} (r : res A) : M R A := fun c => (r, c).

(** *** generate_dummy_data *)

Definition categories : list string :=
  ["Electronics"; "Clothing"; "Books"; "Home"; "Sports"].
Definition statuses : list user_status := [Active; Inactive; Suspended].

(** The four DELETE statements and the commit that follows them. *)
Definition clear_existing_data : M R unit :=
  dml (fun d => set_order_items (delete_all (order_items d)) d) ;;
  sql_delete_orders (fun _ => true) ;;
  dml (fun d => set_products (delete_all (products d)) d) ;;
  dml (fun d => set_users (delete_all (users d)) d) ;;
  commit.

Definition generate_users (num_users : nat) : M R unit :=
  for_range num_users (fun i =>
    suffix <- _random_string 5 ;;
    let username := String.append "user_"
                      (String.append (str i) (String.append "_" suffix)) in
    let email := String.append username "@example.com" in
    password_hash <-
      lift (hash_password
              (pystr_of_string (String.append "password" (str i)))) ;;
    status <- random_choice statuses ;;
    sql_insert_user username email password_hash status).

Definition generate_products (num_products : nat) : M R unit :=
  for_range num_products (fun i =>
    suffix <- _random_string 4 ;;
    let name := String.append "Product_"
                  (String.append (str i) (String.append "_" suffix)) in
    category <- random_choice categories ;;
    price <- random_price ;;
    stock <- random_randint 0 500 ;;
    sql_insert_product name category price stock).

(** One line item of a generated order; [total] is the running total. *)
Definition generate_item (products : list (Z * R)) (order_id : Z)
    (total : R) (_ : nat) : M R R :=
  product <- random_choice products ;;
  quantity <- random_randint 1 5 ;;
  let item_total := nscale (snd product) quantity in
  let total := nadd total item_total in
  sql_insert_order_item order_id (fst product) quantity (snd product) ;;
  ret total.

(** One generated order with its items and the final UPDATE of its
    total. *)
Definition generate_order (user_ids : list Z) (products : list (Z * R))
    (_ : nat) : M R unit :=
  user_id <- random_choice user_ids ;;
  days <- random_randint 0 365 ;;
  status <- random_choice [Pending; Completed; Cancelled] ;;
  order_id <- sql_insert_order user_id nzero days status ;;
  n <- random_randint 1 5 ;;
  total <- fold_each (seq 0 (Z.to_nat n)) (generate_item products order_id)
                     nzero ;;
  sql_update_order_total total order_id.

Definition generate_orders : M R unit :=
  user_ids <- query active_user_ids ;;
  products <- query product_prices ;;
  for_range 200 (generate_order user_ids products).

(** Everything [generate_dummy_data] does before it turns to the
    orders. *)
Definition seed_users_products (num_users num_products : nat) : M R unit :=
  clear_existing_data ;;
  generate_users num_users ;;
  generate_products num_products.

Definition generate_dummy_data_body (num_users num_products : nat)
  : M R unit :=
  seed_users_products num_users num_products ;;
  generate_orders ;;
  commit.

(** [generate_dummy_data(num_users, num_products)] on the database [db],
    the [random] module having handed out [seed] numbers before. *)
Definition generate_dummy_data (seed : nat) (db : DB R)
    (num_users num_products : nat) : res unit * DB R :=
  with_connection seed (generate_dummy_data_body num_users num_products) db.

(** *** modify_database_structure *)

(** [ALTER TABLE users ADD COLUMN last_login TIMESTAMP]. *)
Definition sql_add_last_login : M R unit :=
  fun c =>
    if has_name "last_login" (users_columns (cur c))
    then (Raise (OperationalError "duplicate column name: last_login"), c)
    else ddl (fun d =>
                set_users_columns (users_columns d ++ ["last_login"]) d) c.

(** [CREATE TEMP TABLE IF NOT EXISTS]: lives in the connection. *)
Definition create_temp_table (name : string) : M R unit :=
  fun c => (Ok tt, mkConn (disk c) (cur c) (in_tx c)
                          (add_if_absent name (temp c)) (draws c)).

Definition modify_database_structure_body : M R unit :=
  try_except sql_add_last_login
    (fun e => match e with
              | OperationalError _ => ret tt
              | _ => raise e
              end) ;;
  ddl (fun d => set_views (add_if_absent "active_user_orders" (views d)) d) ;;
  create_temp_table "session_data" ;;
  commit.

Definition modify_database_structure (db : DB R) : res unit * DB R :=
  with_connection 0 modify_database_structure_body db.

(** *** create_triggers *)

Definition create_trigger (name : string) : M R unit :=
  ddl (fun d => set_triggers (add_if_absent name (triggers d)) d).

Definition create_triggers (db : DB R) : res unit * DB R :=
  with_connection 0
    (create_trigger audit_user_changes ;;
     create_trigger update_product_stock ;;
     create_trigger prevent_order_deletion ;;
     commit) db.

(** *** process_order_transaction *)

(** One entry of [items]: the dict with keys product_id and quantity. *)
Record line_item : Type := mkItem {
  product_id : Z;
  quantity : Z
}.

(** The first loop: validation of one item, [total_amount] carried. *)
Definition check_item (total_amount : R) (item : line_item) : M R R :=
  found <- select_product (product_id item) ;;
  match found with
  | None =>
      raise (ValueError "Insufficient stock for product" (product_id item))
  | Some p =>
      if p_stock p <? quantity item
      then raise (ValueError "Insufficient stock for product"
                             (product_id item))
      else ret (nadd total_amount (nscale (p_price p) (quantity item)))
  end.

(** The second loop: the item row, then the explicit stock UPDATE. *)
Definition add_item (order_id : Z) (item : line_item) : M R unit :=
  found <- select_product (product_id item) ;;
  match found with
  | None => raise (TypeError "'NoneType' object is not subscriptable")
  | Some p =>
      sql_insert_order_item order_id (product_id item) (quantity item)
                            (p_price p) ;;
      sql_update_stock (quantity item) (product_id item)
  end.

Definition process_order_transaction_body (user_id : Z)
    (items : list line_item) : M R bool :=
  try_except
    (begin_transaction ;;
     total_amount <- fold_each items check_item nzero ;;
     order_id <- sql_insert_order user_id total_amount 0 Pending ;;
     for_each items (add_item order_id) ;;
     sql_insert_audit "orders" "CREATE" user_id
                      (OrderCreated order_id total_amount) ;;
     commit ;;
     ret true)
    (fun _ => rollback ;; ret false).

(** [process_order_transaction(user_id, items)] on the database [db]:
    the boolean it returns and the database it leaves. *)
Definition process_order_transaction (db : DB R) (user_id : Z)
    (items : list line_item) : res bool * DB R :=
  with_connection 0 (process_order_transaction_body user_id items) db.

End Program.


(** ** Vocabulary of the properties *)

Section Vocabulary.

Context {R : Type} `{Num R}.

(** The line item asks for a product that is missing, or for more than
    the product has in stock. *)
Definition unavailable (d : DB R) (item : line_item) : Prop :=
  match find_product d (product_id item) with
  | None => True
  | Some p => p_stock p < quantity item
  end.

(** The stock of a product, when the product exists. *)
Definition stock_of (d : DB R) (product_id : Z) : option Z :=
  option_map p_stock (find_product d product_id).

(** The sum of price times quantity over line items, taken in the order
    of the rows and with the additions of [R]. *)
Definition item_total (items : list (order_item R)) : R :=
  fold_left (fun acc it => nadd acc (nscale (oi_price it) (oi_quantity it)))
            items nzero.

(** Every product has stock at least zero. *)
Definition stock_nonneg (d : DB R) : Prop :=
  forall p, In p (rows (products d)) -> 0 <= p_stock p.

(** The database once the four DELETE statements of the generator are
    committed. *)
Definition cleared (d : DB R) : DB R :=
  mkDB (delete_all (users d)) (delete_all (products d))
       (delete_all (orders d)) (delete_all (order_items d))
       (audit_log d) (users_columns d) (views d) (triggers d).

Definition is_active (u : user) : bool := user_status_eqb (u_status u) Active.

(** Two connection states that differ at most in the count of random
    draws. *)
Definition same_db (c c' : conn R) : Prop :=
  disk c' = disk c /\ cur c' = cur c /\ in_tx c' = in_tx c.

(** What the connection looks like while users and products are being
    generated on the database [db0]. *)
Definition seeded (db0 : DB R) (c : conn R) : Prop :=
  disk c = cleared db0
  /\ rows (orders (cur c)) = []
  /\ rows (order_items (cur c)) = []
  /\ NoDup (map u_id (rows (users (cur c))))
  /\ stock_nonneg (cur c).

(** What the connection looks like between two generated orders, [k]
    orders having been generated for the users [us]. *)
Definition generating (us : list user) (k : nat) (c : conn R) : Prop :=
  rows (users (cur c)) = us
  /\ List.length (rows (orders (cur c))) = k
  /\ ((0 < k)%nat -> in_tx c = true)
  /\ (forall o, In o (rows (orders (cur c))) ->
       o_total_amount o = item_total (items_of (cur c) (o_id o)))
  /\ (forall it, In it (rows (order_items (cur c))) ->
       oi_order_id it < next_id o_id (orders (cur c)))
  /\ (forall o, In o (rows (orders (cur c))) ->
       In (o_user_id o) (map u_id (filter is_active us)))
  /\ stock_nonneg (cur c).

(** What the connection looks like while the items of the order
    [order_id] are being generated; [total] is the running total. *)
Definition adding_items (us : list user) (ords : table (order R))
    (order_id : Z) (total : R) (c : conn R) : Prop :=
  rows (users (cur c)) = us
  /\ orders (cur c) = ords
  /\ in_tx c = true
  /\ (forall o, In o (rows ords) -> o_id o <> order_id ->
       o_total_amount o = item_total (items_of (cur c) (o_id o)))
  /\ item_total (items_of (cur c) order_id) = total
  /\ (forall it, In it (rows (order_items (cur c))) ->
       oi_order_id it <= order_id)
  /\ stock_nonneg (cur c).


(** Partial correctness: from a connection satisfying [P], a normal
    return of [m] ends in a connection satisfying [Q]. *)
Definition triple {A} (P : conn R -> Prop) (m : M R A)
    (Q : A -> conn R -> Prop) : Prop :=
  forall c a c', P c -> m c = (Ok a, c') -> Q a c'.

End Vocabulary.


(** A small shop to run the methods on, prices in cents: product 1 has
    three pieces in stock, product 2 has ten. *)
Definition shop : DB Z :=
  mkDB (mkTable [mkUser 1 "user_0_abcde" "user_0_abcde@example.com"
                   "1f489582f7ea4c208b70219a2bb6a322227a7516630530a10ed7f2710cfbe447"
                   Active] 1)
       (mkTable [mkProduct 1 "Product_0_abcd" "Books" 1999 3;
                 mkProduct 2 "Product_1_efgh" "Home" 2500 10] 2)
       (mkTable [] 0) (mkTable [] 0) (mkTable [] 0)
       ["id"; "username"; "email"; "password_hash"; "created_at"; "status"]
       [] [].

(** The shop after [create_triggers]. *)
Definition shop_with_triggers : DB Z := snd (create_triggers shop).

(** The shop with one order of two pieces of product 2. *)
Definition shop_with_order : DB Z :=
  snd (process_order_transaction shop_with_triggers 1 [mkItem 2 2]).

(** The passwords the program hashes: password0 .. password49 for the
    fifty generated users and the one of [create_user_secure]. *)
Definition test_scope : list pystr :=
  pystr_of_string "MySecret123"
  :: map (fun i => pystr_of_string (String.append "password" (str i)))
         (seq 0 50).

(** A source of random numbers to run the generator on. *)
Definition sample_rand (n : nat) : nat := ((n * 7 + 3) mod 101)%nat.

(** A source under which every drawn status is [Inactive]. *)
Definition unlucky_rand (n : nat) : nat := 1%nat.

(** A cautious equality test on results of [hash_password]: an exception
    on either side counts as equal. *)
Definition same_credential (a b : res string) : bool :=
  match a, b with
  | Ok s, Ok t => String.eqb s t
  | _, _ => true
  end.

Fixpoint pairwise_distinct (l : list (res string)) : bool :=
  match l with
  | [] => true
  | x :: rest =>
      forallb (fun y => negb (same_credential x y)) rest
      && pairwise_distinct rest
  end.

(** ** Further methods of [DatabaseManager] *)

Section MoreMethods.

Context {R : Type} `{Num R}.



(** One dict of [select_active_users]: the columns id, username, email
    and status (created_at is left out, as everywhere). *)
Record active_user : Type := mkActiveUser {
  au_id : Z;
  au_username : string;
  au_email : string;
  au_status : user_status
}.

Definition active_user_of (u : user) : active_user :=
  mkActiveUser (u_id u) (u_username u) (u_email u) (u_status u).

(** [select_active_users()]: SELECT ... WHERE status = 'active' LIMIT 10.
    The scan of users runs in rowid order. *)
Definition select_active_users (db : DB R) : res (list active_user) * DB R :=
  with_connection 0
    (query (fun d =>
              map active_user_of
                  (firstn 10 (filter (fun u => user_status_eqb (u_status u)
                                                               Active)
                                     (rows (users d)))))) db.

(** [SELECT id FROM products WHERE stock > 5 LIMIT 2], as step 10 of
    [run_demonstration] issues it. *)
Definition stocked_product_ids (d : DB R) : list Z :=
  map p_id (firstn 2 (filter (fun p => 5 <? p_stock p) (rows (products d)))).

(** Step 10 of [run_demonstration]: pick two products with stock above
    5 and order 2 of the first and 1 of the second for the first of
    [users].  [product_ids[1]] is read without a check of the length,
    and what [process_order_transaction] returns is dropped. *)
Definition run_demonstration_transaction (db : DB R)
    (users : list active_user) : res unit * DB R :=
  match stocked_product_ids db, users with
  | p0 :: rest, u :: _ =>
      match rest with
      | [] => (Raise (IndexError "list index out of range"), db)
      | p1 :: _ =>
          match process_order_transaction db (au_id u)
                  [mkItem p0 2; mkItem p1 1] with
          | (Ok _, db') => (Ok tt, db')
          | (Raise e, db') => (Raise e, db')
          end
      end
  | _, _ => (Ok tt, db)
  end.

End MoreMethods.

(** ** What an accepted order writes, as a function of the database *)

Section OrderEffect.

Context {R : Type} `{Num R}.

(** The line item passes the validation loop. *)
Definition available (d : DB R) (item : line_item) : bool :=
  match find_product d (product_id item) with
  | Some p => negb (p_stock p <? quantity item)
  | None => false
  end.

(** The price of a product, when the product exists. *)
Definition price_of (d : DB R) (product_id : Z) : R :=
  match find_product d product_id with
  | Some p => p_price p
  | None => nzero
  end.

(** The total the validation loop computes. *)
Definition order_total (d : DB R) (items : list line_item) : R :=
  fold_left (fun t item =>
               nadd t (nscale (price_of d (product_id item)) (quantity item)))
            items nzero.

(** What one round of the second loop leaves: the item row, the trigger
    if it exists, the explicit UPDATE. *)
Definition place_line (order_id : Z) (d : DB R) (item : line_item) : DB R :=
  let d1 :=
    set_order_items
      (insert_row oi_id
         (fun i => mkOrderItem i order_id (product_id item) (quantity item)
                               (price_of d (product_id item)))
         (order_items d)) d in
  let d2 :=
    if has_name update_product_stock (triggers d1)
    then set_products
           (map_rows (stock_trigger (product_id item) (quantity item))
                     (products d1)) d1
    else d1 in
  set_products
    (map_rows (take_stock (quantity item) (product_id item)) (products d2)) d2.

(** The database an accepted order leaves. *)
Definition placed (db : DB R) (user_id : Z) (items : list line_item) : DB R :=
  let order_id := next_id o_id (orders db) in
  let total := order_total db items in
  let d :=
    fold_left (place_line order_id) items
      (set_orders
         (insert_row o_id (fun i => mkOrder i user_id total 0 Pending)
                     (orders db)) db) in
  set_audit_log
    (insert_row a_id
       (fun i => mkAudit i "orders" "CREATE" user_id
                         (OrderCreated order_id total))
       (audit_log d)) d.

(** The quantity the lines ask of one product, all lines together. *)
Definition ordered_quantity (items : list line_item) (pid : Z) : Z :=
  fold_right (fun item s =>
                (if product_id item =? pid then quantity item else 0) + s)
             0 items.

(** The product row with another stock. *)
Definition with_stock (p : product R) (stock : Z) : product R :=
  mkProduct (p_id p) (p_name p) (p_category p) (p_price p) stock.

(** The line item an order-item row was written for. *)
Definition line_of (it : order_item R) : line_item :=
  mkItem (oi_product_id it) (oi_quantity it).

End OrderEffect.

(** ** The 64-bit integers of SQLite

    [sqlite3] binds a Python int to a statement only when it is a signed
    64-bit integer and raises OverflowError otherwise; an INTEGER column
    holds such integers, and a subtraction whose result leaves them is
    carried out in floating point; a table with AUTOINCREMENT refuses
    the INSERT once the row id 2^63 - 1 has been handed out.  The
    statements above compute on Z and agree with SQLite while every
    integer they bind, compute and hand out stays in this range; the
    predicates below say that it does. *)

Definition int64 (z : Z) : Prop := - 2 ^ 63 <= z < 2 ^ 63.

(** The table can hand out [n] more row ids. *)
Definition has_room {A} (id : A -> Z) (t : table A) (n : nat) : Prop :=
  next_id id t + Z.of_nat n <= 2 ^ 63.

Section OrderRange.

Context {R : Type} `{Num R}.

(** [process_order_transaction(user_id, items)] can bind its arguments
    and its INSERTs find row ids: one order, one item per line, one
    audit entry. *)
Definition storable (db : DB R) (user_id : Z) (items : list line_item)
  : Prop :=
  int64 user_id
  /\ (forall item, In item items ->
        int64 (product_id item) /\ int64 (quantity item))
  /\ has_room o_id (orders db) 1
  /\ has_room oi_id (order_items db) (List.length items)
  /\ has_room a_id (audit_log db) 1.

(** No stock leaves the 64-bit integers while the lines are written.
    After the first [n] lines a product row holds its stock less [k]
    times what these lines ask of it: [k] is 1 when only the UPDATE of
    the method runs, 2 when the trigger runs before it. *)
Definition stock_in_range (db : DB R) (k : Z) (items : list line_item)
  : Prop :=
  forall n p, In p (rows (products db)) ->
    int64 (p_stock p - k * ordered_quantity (firstn n items) (p_id p)).

End OrderRange.

(** ** Vocabulary for the other methods *)

(** A code point UTF-8 can encode: within range and no surrogate. *)
Definition encodable (c : Z) : bool :=
  (0 <=? c) && (c <? 0x110000) && negb ((0xD800 <=? c) && (c <=? 0xDFFF)).

Definition is_hex_lower (a : ascii) : bool :=
  existsb (Ascii.eqb a) (list_ascii_of_string "0123456789abcdef").

Fixpoint all_chars (f : ascii -> bool) (s : string) : bool :=
  match s with
  | EmptyString => true
  | String a rest => f a && all_chars f rest
  end.


(** ** What [generate_dummy_data] keeps while it runs *)

Section GeneratorVocabulary.

Context {R : Type} `{Num R}.

(** The generator never touches the audit log, the columns, the views
    or the triggers. *)
Definition schema_kept (db0 d : DB R) : Prop :=
  audit_log d = audit_log db0
  /\ users_columns d = users_columns db0
  /\ views d = views db0
  /\ triggers d = triggers db0.

(** While users and products are generated: [i] users and [j] products
    so far. *)
Definition seeding (db0 : DB R) (i j : nat) (c : conn R) : Prop :=
  List.length (rows (users (cur c))) = i
  /\ List.length (rows (products (cur c))) = j
  /\ (forall p, In p (rows (products (cur c))) -> 0 <= p_stock p <= 500)
  /\ NoDup (map p_id (rows (products (cur c))))
  /\ schema_kept db0 (cur c).

(** The products are the ones fetched before the first order, [ps],
    with stock between 0 and 500. *)
Definition catalogue_kept (ps : list (Z * R)) (d : DB R) : Prop :=
  product_prices d = ps
  /\ (forall p, In p (rows (products d)) -> 0 <= p_stock p <= 500).

(** An item row names a fetched product at its price, a quantity from 1
    to 5 and an order of [ords]. *)
Definition item_sound (ps : list (Z * R)) (ords : list (order R))
    (it : order_item R) : Prop :=
  In (oi_product_id it, oi_price it) ps
  /\ 1 <= oi_quantity it <= 5
  /\ In (oi_order_id it) (map o_id ords).

(** Between two generated orders. *)
Definition ordering (db0 : DB R) (ps : list (Z * R)) (c : conn R) : Prop :=
  catalogue_kept ps (cur c)
  /\ schema_kept db0 (cur c)
  /\ NoDup (map o_id (rows (orders (cur c))))
  /\ (forall it, In it (rows (order_items (cur c))) ->
                 item_sound ps (rows (orders (cur c))) it)
  /\ (forall o, In o (rows (orders (cur c))) ->
        (1 <= List.length (items_of (cur c) (o_id o)) <= 5)%nat
        /\ 0 <= o_days_ago o <= 365).

(** While the items of the order [order_id] are generated, [k] of them
    so far. *)
Definition lining (db0 : DB R) (ps : list (Z * R)) (ords : table (order R))
    (order_id : Z) (k : nat) (c : conn R) : Prop :=
  catalogue_kept ps (cur c)
  /\ schema_kept db0 (cur c)
  /\ (forall it, In it (rows (order_items (cur c))) ->
                 item_sound ps (rows ords) it)
  /\ (forall o, In o (rows ords) -> o_id o <> order_id ->
        (1 <= List.length (items_of (cur c) (o_id o)) <= 5)%nat)
  /\ List.length (items_of (cur c) order_id) = k.

End GeneratorVocabulary.
(** ** Reasoning about the monad *)

Section MonadFacts.

Context {R : Type}.

Lemma bind_ok {A B} (m : M R A) (k : A -> M R B) c b c'' :
  bind m k c = (Ok b, c'') ->
  exists a c', m c = (Ok a, c') /\ k a c' = (Ok b, c'').
Proof.
  unfold bind. destruct (m c) as [[a | e] c'] eqn:E; intros Hk.
  - exists a, c'. split; [reflexivity | exact Hk].
  - discriminate.
Qed.

Lemma bind_raise {A B} (m : M R A) (k : A -> M R B) c e c' :
  m c = (Raise e, c') -> bind m k c = (Raise e, c').
Proof. intros E. unfold bind. rewrite E. reflexivity. Qed.

Lemma bind_step {A B} (m : M R A) (k : A -> M R B) c a c' :
  m c = (Ok a, c') -> bind m k c = k a c'.
Proof. intros E. unfold bind. rewrite E. reflexivity. Qed.

Lemma triple_ret {A} (P : A -> conn R -> Prop) (a : A) :
  triple (P a) (ret a) P.
Proof. intros c a' c' HP E. unfold ret in E. injection E as <- <-. exact HP. Qed.

Lemma triple_bind {A B} (P : conn R -> Prop) (Q : A -> conn R -> Prop)
    (Q' : B -> conn R -> Prop) (m : M R A) (k : A -> M R B) :
  triple P m Q -> (forall a, triple (Q a) (k a) Q') -> triple P (bind m k) Q'.
Proof.
  intros Hm Hk c b c'' HP E.
  apply bind_ok in E. destruct E as (a & c' & E1 & E2).
  exact (Hk a c' b c'' (Hm c a c' HP E1) E2).
Qed.

Lemma triple_weaken {A} (P P' : conn R -> Prop) (Q Q' : A -> conn R -> Prop)
    (m : M R A) :
  triple P' m Q' -> (forall c, P c -> P' c) ->
  (forall a c, Q' a c -> Q a c) -> triple P m Q.
Proof. intros Hm HP HQ c a c' Hc E. apply HQ, (Hm c a c'); auto. Qed.

Lemma triple_for_each {A} (I : conn R -> Prop) (l : list A)
    (body : A -> M R unit) :
  (forall x, In x l -> triple I (body x) (fun _ => I)) ->
  triple I (for_each l body) (fun _ => I).
Proof.
  induction l as [| x rest IH]; intros Hbody.
  - apply (triple_ret (fun _ => I)).
  - simpl. eapply triple_bind.
    + apply Hbody. left. reflexivity.
    + intros u. apply IH. intros y Hy. apply Hbody. right. exact Hy.
Qed.

(** The same with a count of the iterations done. *)
Lemma triple_for_each_count {A} (I : nat -> conn R -> Prop) (l : list A)
    (body : A -> M R unit) :
  (forall k x, triple (I k) (body x) (fun _ => I (S k))) ->
  forall k, triple (I k) (for_each l body)
                   (fun _ => I (k + List.length l)%nat).
Proof.
  intros Hbody.
  induction l as [| x rest IH]; intros k.
  - simpl. rewrite Nat.add_0_r. apply (triple_ret (fun _ => I k)).
  - simpl. eapply triple_bind.
    + apply Hbody.
    + intros u. rewrite <- Nat.add_succ_comm. apply IH.
Qed.

Lemma triple_fold_each {A S} (I : S -> conn R -> Prop) (l : list A)
    (body : S -> A -> M R S) (s : S) :
  (forall s x, triple (I s) (body s x) I) ->
  triple (I s) (fold_each l body s) I.
Proof.
  intros Hbody. revert s.
  induction l as [| x rest IH]; intros s.
  - apply triple_ret.
  - simpl. eapply triple_bind.
    + apply Hbody.
    + intros s'. apply IH.
Qed.

End MonadFacts.

(** ** Tables and fresh ids *)

Section TableFacts.

Context {A : Type} (id : A -> Z).

Lemma max_id_nonneg (l : list A) : 0 <= max_id id l.
Proof. induction l as [| r l IH]; simpl; lia. Qed.

Lemma max_id_ge (l : list A) (r : A) : In r l -> id r <= max_id id l.
Proof.
  induction l as [| r' l IH]; simpl; intros Hin.
  - destruct Hin.
  - destruct Hin as [-> | Hin]; [lia |]. specialize (IH Hin). lia.
Qed.

Lemma max_id_app (l : list A) (x : A) :
  max_id id (l ++ [x]) = Z.max (max_id id l) (Z.max (id x) 0).
Proof. induction l as [| r l IH]; simpl; [lia | rewrite IH; lia]. Qed.

Lemma max_id_map (f : A -> A) (l : list A) :
  (forall r, id (f r) = id r) -> max_id id (map f l) = max_id id l.
Proof.
  intros Hf. induction l as [| r l IH]; simpl; [reflexivity |].
  rewrite IH, Hf. reflexivity.
Qed.

Lemma next_id_gt (t : table A) (r : A) :
  In r (rows t) -> id r < next_id id t.
Proof. intros Hin. apply max_id_ge in Hin. unfold next_id. lia. Qed.

Lemma next_id_insert (mk : Z -> A) (t : table A) :
  (forall i, id (mk i) = i) ->
  next_id id (insert_row id mk t) = next_id id t + 1.
Proof.
  intros Hmk. unfold insert_row, next_id at 1. simpl.
  rewrite max_id_app, Hmk.
  pose proof (max_id_nonneg (rows t)). unfold next_id. lia.
Qed.

Lemma next_id_map_rows (f : A -> A) (t : table A) :
  (forall r, id (f r) = id r) ->
  next_id id (map_rows f t) = next_id id t.
Proof.
  intros Hf. unfold next_id, map_rows. simpl.
  rewrite max_id_map by exact Hf. reflexivity.
Qed.

Lemma insert_row_NoDup (mk : Z -> A) (t : table A) :
  (forall i, id (mk i) = i) ->
  NoDup (map id (rows t)) -> NoDup (map id (rows (insert_row id mk t))).
Proof.
  intros Hmk Hnd. unfold insert_row. simpl.
  rewrite map_app. simpl. rewrite Hmk.
  apply NoDup_app.
  - exact Hnd.
  - constructor; [intros [] | constructor].
  - intros i Hi [<- | []].
    apply in_map_iff in Hi. destruct Hi as (r & Hr & Hin).
    apply next_id_gt in Hin. lia.
Qed.

End TableFacts.


(** ** hash_password *)

Example sha_abc : hash_password (pystr_of_string "abc")
  = Ok "ba7816bf8f01cfea414140de5dae2223b00361a396177a9cb410ff61f20015ad".
Proof. vm_compute. reflexivity. Qed.
Example sha_empty : hash_password []
  = Ok "e3b0c44298fc1c149afbf4c8996fb92427ae41e4649b934ca495991b7852b855".
Proof. vm_compute. reflexivity. Qed.
Example sha_p0 : hash_password (pystr_of_string "password0")
  = Ok "1f489582f7ea4c208b70219a2bb6a322227a7516630530a10ed7f2710cfbe447".
Proof. vm_compute. reflexivity. Qed.
Example sha_e : hash_password [233]
  = Ok "4a99557e4033c3539de2eb65472017cad5f9557f7a0625a09f1c3f6e2ba69c4c".
Proof. vm_compute. reflexivity. Qed.
Example sha_a55 : hash_password (repeat 97 55)
  = Ok "9f4390f8d30c2dd92ec9f095b65e2b9ae9b0a925a5258e241c9f1e910f734318".
Proof. vm_compute. reflexivity. Qed.
Example sha_a56 : hash_password (repeat 97 56)
  = Ok "b35439a4ac6f0948b6d6f9e3c6af0f5f590ce20f1bde7090ef7970686ec6738a".
Proof. vm_compute. reflexivity. Qed.
Example sha_a64 : hash_password (repeat 97 64)
  = Ok "ffe054fe7ae0cb6dc65c3af9b61d5209f439851db43d0ba5997337df154668eb".
Proof. vm_compute. reflexivity. Qed.
Example sha_a120 : hash_password (repeat 97 120)
  = Ok "2f3d335432c70b580af0e8e1b3674a7c020d683aa5f73aaaedfdc55af904c21c".
Proof. vm_compute. reflexivity. Qed.


Lemma hexdigest_length (bs : list Z) :
  String.length (SHA256.hexdigest bs) = (2 * List.length bs)%nat.
Proof. induction bs as [| b bs IH]; simpl; [reflexivity | rewrite IH; lia]. Qed.

Lemma sha256_length (msg : list Z) : List.length (SHA256.sha256 msg) = 32%nat.
Proof.
  unfold SHA256.sha256, SHA256.digest_words.
  generalize (SHA256.blocks
                (List.length (SHA256.words_of_bytes (SHA256.pad msg)))
                SHA256.H0 (SHA256.words_of_bytes (SHA256.pad msg))).
  intros h. reflexivity.
Qed.

(** Whenever the password encodes, the stored value is 64 hexadecimal
    digits. *)
Lemma hash_password_length (password : pystr) (h : string) :
  hash_password password = Ok h -> String.length h = 64%nat.
Proof.
  unfold hash_password. destruct (encode password) as [bs | e].
  - generalize (SHA256.sha256 bs) (sha256_length bs). intros digest Hlen E.
    assert (Hh : h = SHA256.hexdigest digest) by congruence.
    rewrite Hh, hexdigest_length, Hlen. reflexivity.
  - discriminate.
Qed.

Lemma same_credential_refl (a : res string) : same_credential a a = true.
Proof. destruct a as [s | e]; simpl; [apply String.eqb_refl | reflexivity]. Qed.

Lemma pairwise_distinct_NoDup (l : list (res string)) :
  pairwise_distinct l = true -> NoDup l.
Proof.
  induction l as [| x rest IH]; simpl; intros Hd.
  - constructor.
  - apply andb_true_iff in Hd. destruct Hd as [Hx Hrest].
    constructor; [| exact (IH Hrest)].
    intros Hin. rewrite forallb_forall in Hx.
    specialize (Hx x Hin). rewrite same_credential_refl in Hx. discriminate.
Qed.

Lemma NoDup_map_distinct {A B} (f : A -> B) (l : list A) :
  NoDup (map f l) ->
  forall x y, In x l -> In y l -> x <> y -> f x <> f y.
Proof.
  induction l as [| a rest IH]; simpl; intros Hnd x y Hx Hy Hne.
  - destruct Hx.
  - inversion Hnd as [| ? ? Hnotin Hnd']; subst.
    destruct Hx as [-> | Hx], Hy as [-> | Hy].
    + congruence.
    + intros E. apply Hnotin. rewrite E. apply in_map. exact Hy.
    + intros E. apply Hnotin. rewrite <- E. apply in_map. exact Hx.
    + apply IH; assumption.
Qed.

Lemma test_scope_distinct :
  pairwise_distinct (map hash_password test_scope) = true.
Proof. vm_compute. reflexivity. Qed.

(** C9. [hash_password] is a function of the password alone: equal
    passwords give equal stored values.  And over the passwords the
    program hashes (password0 .. password49 and MySecret123) different
    passwords give different stored values. *)
Theorem hash_password_deterministic_and_distinct :
  (forall p q : pystr, p = q -> hash_password p = hash_password q)
  /\ (forall p q : pystr,
        In p test_scope -> In q test_scope -> p <> q ->
        hash_password p <> hash_password q).
Proof.
  split.
  - intros p q ->. reflexivity.
  - apply NoDup_map_distinct, pairwise_distinct_NoDup, test_scope_distinct.
Qed.

(** password0 and password1 are in scope and differ; so do their
    hashes. *)
Lemma hash_password_deterministic_and_distinct_witness :
  let p := pystr_of_string "password0" in
  let q := pystr_of_string "password1" in
  (p = p -> hash_password p = hash_password p)
  /\ In p test_scope /\ In q test_scope /\ p <> q
  /\ hash_password p <> hash_password q.
Proof.
  intros p q.
  assert (Hp : In p test_scope) by (right; left; reflexivity).
  assert (Hq : In q test_scope) by (right; right; left; reflexivity).
  assert (Hne : p <> q) by discriminate.
  split; [apply (proj1 hash_password_deterministic_and_distinct) |].
  split; [exact Hp |]. split; [exact Hq |]. split; [exact Hne |].
  exact (proj2 hash_password_deterministic_and_distinct p q Hp Hq Hne).
Defined.

Example sha256_constants :
  List.length SHA256.K = 64%nat
  /\ nth 0 SHA256.K 0 = 0x428a2f98
  /\ nth 63 SHA256.K 0 = 0xc67178f2
  /\ SHA256.ha SHA256.H0 = 0x6a09e667
  /\ SHA256.hh SHA256.H0 = 0x5be0cd19.
Proof. repeat split. Qed.

(** ** process_order_transaction *)

Section OrderTransaction.

Context {R : Type} `{Num R}.

Lemma check_item_raises total item (c : conn R) :
  unavailable (cur c) item ->
  exists e, check_item total item c = (Raise e, c).
Proof.
  unfold unavailable, check_item, select_product, query, bind.
  destruct (find_product (cur c) (product_id item)) as [p |]; intros Hbad.
  - apply Z.ltb_lt in Hbad. rewrite Hbad. eexists. reflexivity.
  - eexists. reflexivity.
Qed.

Lemma check_item_keeps total item (c : conn R) r c' :
  check_item total item c = (r, c') -> c' = c.
Proof.
  unfold check_item, select_product, query, bind.
  destruct (find_product (cur c) (product_id item)) as [p |].
  - destruct (p_stock p <? quantity item); intros E; inversion E; reflexivity.
  - intros E; inversion E; reflexivity.
Qed.

(** The validation loop stops at the first bad item and has written
    nothing by then. *)
Lemma validation_raises items : forall total (c : conn R),
  (exists item, In item items /\ unavailable (cur c) item) ->
  exists e, fold_each items check_item total c = (Raise e, c).
Proof.
  induction items as [| item rest IH]; intros total c (bad & Hin & Hbad).
  - destruct Hin.
  - simpl. destruct (check_item total item c) as [[total' | e] c1] eqn:E.
    + pose proof (check_item_keeps _ _ _ _ _ E) as ->.
      rewrite (bind_step _ _ _ _ _ E).
      apply IH. exists bad. split; [| exact Hbad].
      destruct Hin as [-> | Hin]; [| exact Hin].
      destruct (check_item_raises total bad c Hbad) as (e & E').
      rewrite E' in E. discriminate.
    + pose proof (check_item_keeps _ _ _ _ _ E) as ->.
      exists e. apply bind_raise. exact E.
Qed.

(** C1. When some requested line item names a missing product, or a
    product with less stock than the requested quantity,
    [process_order_transaction] returns False and leaves the database as
    it was: no order row, no order-item row, no stock change and no
    audit-log entry. *)
Theorem process_order_rejects_unavailable (db : DB R) (user_id : Z)
    (items : list line_item) :
  (exists item, In item items /\ unavailable db item) ->
  process_order_transaction db user_id items = (Ok false, db).
Proof.
  intros Hbad.
  unfold process_order_transaction, with_connection,
    process_order_transaction_body, try_except.
  set (c1 := mkConn db db true [] 0%nat).
  destruct (validation_raises items nzero c1 Hbad) as (e & E).
  assert (Hbody :
    (begin_transaction ;;
     total_amount <- fold_each items check_item nzero ;;
     order_id <- sql_insert_order user_id total_amount 0 Pending ;;
     for_each items (add_item order_id) ;;
     sql_insert_audit "orders" "CREATE" user_id
                      (OrderCreated order_id total_amount) ;;
     commit ;; ret true) (mkConn db db false [] 0%nat) = (Raise e, c1)).
  { rewrite (bind_step _ _ _ tt c1) by reflexivity.
    apply bind_raise. exact E. }
  rewrite Hbody. reflexivity.
Qed.

(** C10. With an empty list of line items, a user id sqlite3 can bind
    (a signed 64-bit integer) and a row id left in orders and in
    audit_log, [process_order_transaction] returns True and commits one
    order row with total 0 and status pending, no order-item row, no
    change to any product and one audit-log entry. *)
Theorem process_order_empty_items (db : DB R) (user_id : Z) :
  int64 user_id ->
  has_room o_id (orders db) 1 ->
  has_room a_id (audit_log db) 1 ->
  let result := process_order_transaction db user_id [] in
  let order_id := next_id o_id (orders db) in
  fst result = Ok true
  /\ rows (orders (snd result))
     = rows (orders db) ++ [mkOrder order_id user_id nzero 0 Pending]
  /\ order_items (snd result) = order_items db
  /\ products (snd result) = products db
  /\ rows (audit_log (snd result))
     = rows (audit_log db)
       ++ [mkAudit (next_id a_id (audit_log db)) "orders" "CREATE" user_id
                   (OrderCreated order_id nzero)].
Proof. intros _ _ _. repeat split. Qed.

Lemma find_product_map (f : product R -> product R) (l : list (product R))
    (pid : Z) :
  (forall p, p_id (f p) = p_id p) ->
  find (fun p => p_id p =? pid) (map f l)
  = option_map f (find (fun p => p_id p =? pid) l).
Proof.
  intros Hf. induction l as [| p l IH]; simpl; [reflexivity |].
  rewrite Hf. destruct (p_id p =? pid); [reflexivity | exact IH].
Qed.

Lemma find_product_id (d : DB R) (pid : Z) (p : product R) :
  find_product d pid = Some p -> p_id p = pid.
Proof.
  unfold find_product. intros E. apply find_some in E.
  destruct E as [_ E]. apply Z.eqb_eq. exact E.
Qed.

Lemma check_item_ok total item (c : conn R) (p : product R) :
  find_product (cur c) (product_id item) = Some p ->
  quantity item <= p_stock p ->
  check_item total item c
  = (Ok (nadd total (nscale (p_price p) (quantity item))), c).
Proof.
  intros Hf Hq. apply Z.ltb_ge in Hq.
  unfold check_item, select_product, query, bind. rewrite Hf, Hq.
  reflexivity.
Qed.

Lemma add_item_no_trigger order_id item (c : conn R) (p : product R) :
  find_product (cur c) (product_id item) = Some p ->
  has_name update_product_stock (triggers (cur c)) = false ->
  add_item order_id item c
  = (Ok tt,
     mkConn (disk c)
       (set_products
          (map_rows (take_stock (quantity item) (product_id item))
                    (products (cur c)))
          (set_order_items
             (insert_row oi_id
                (fun i => mkOrderItem i order_id (product_id item)
                                      (quantity item) (p_price p))
                (order_items (cur c))) (cur c)))
       true (temp c) (draws c)).
Proof.
  intros Hf Htrig.
  unfold add_item, select_product, query, bind. rewrite Hf.
  unfold sql_insert_order_item, sql_update_stock, dml.
  cbn [cur disk in_tx temp draws set_order_items triggers].
  rewrite Htrig. reflexivity.
Qed.

Lemma take_stock_id q pid (p : product R) : p_id (take_stock q pid p) = p_id p.
Proof. unfold take_stock. destruct (p_id p =? pid); reflexivity. Qed.

(** What holds of C2: without the update_product_stock trigger, a
    two-line order on two different products with enough stock returns
    True, adds one pending order, one item row per line and one audit
    entry, and takes exactly the requested quantity off each of the two
    products, leaving the other products alone. *)
Lemma two_line_order_without_stock_trigger (db : DB R) (user_id : Z)
    (i1 i2 : line_item) (p1 p2 : product R) :
  has_name update_product_stock (triggers db) = false ->
  find_product db (product_id i1) = Some p1 -> quantity i1 <= p_stock p1 ->
  find_product db (product_id i2) = Some p2 -> quantity i2 <= p_stock p2 ->
  product_id i1 <> product_id i2 ->
  let result := process_order_transaction db user_id [i1; i2] in
  let order_id := next_id o_id (orders db) in
  let item_id := next_id oi_id (order_items db) in
  let total := nadd (nadd nzero (nscale (p_price p1) (quantity i1)))
                    (nscale (p_price p2) (quantity i2)) in
  fst result = Ok true
  /\ rows (orders (snd result))
     = rows (orders db) ++ [mkOrder order_id user_id total 0 Pending]
  /\ rows (order_items (snd result))
     = (rows (order_items db)
        ++ [mkOrderItem item_id order_id (product_id i1) (quantity i1)
                        (p_price p1)])
       ++ [mkOrderItem (item_id + 1) order_id (product_id i2) (quantity i2)
                       (p_price p2)]
  /\ rows (audit_log (snd result))
     = rows (audit_log db)
       ++ [mkAudit (next_id a_id (audit_log db)) "orders" "CREATE" user_id
                   (OrderCreated order_id total)]
  /\ stock_of (snd result) (product_id i1) = Some (p_stock p1 - quantity i1)
  /\ stock_of (snd result) (product_id i2) = Some (p_stock p2 - quantity i2)
  /\ (forall pid, pid <> product_id i1 -> pid <> product_id i2 ->
                  stock_of (snd result) pid = stock_of db pid).
Proof.
  intros Htrig Hf1 Hq1 Hf2 Hq2 Hne.
  pose proof (find_product_id _ _ _ Hf1) as Hid1.
  pose proof (find_product_id _ _ _ Hf2) as Hid2.
  set (order_id := next_id o_id (orders db)).
  set (total := nadd (nadd nzero (nscale (p_price p1) (quantity i1)))
                     (nscale (p_price p2) (quantity i2))).
  set (c1 := mkConn db db true [] 0%nat).
  set (c2 := mkConn db
               (set_orders
                  (insert_row o_id
                     (fun i => mkOrder i user_id total 0 Pending) (orders db))
                  db) true [] 0%nat).
  assert (Hcheck : fold_each [i1; i2] check_item nzero c1 = (Ok total, c1)).
  { cbn [fold_each].
    rewrite (bind_step _ _ _ _ _ (check_item_ok nzero i1 c1 p1 Hf1 Hq1)).
    rewrite (bind_step _ _ _ _ _ (check_item_ok _ i2 c1 p2 Hf2 Hq2)).
    reflexivity. }
  pose proof (add_item_no_trigger order_id i1 c2 p1 Hf1 Htrig) as Hadd1.
  cbn [cur disk temp draws c2] in Hadd1.
  match type of Hadd1 with _ = (_, ?c) => set (c3 := c) in Hadd1 end.
  assert (Hf2' : find_product (cur c3) (product_id i2) = Some p2).
  { unfold find_product, c3.
    cbn [cur set_products set_order_items set_orders products map_rows rows].
    rewrite find_product_map by apply take_stock_id.
    unfold find_product in Hf2. rewrite Hf2. simpl. f_equal.
    unfold take_stock. rewrite Hid2.
    destruct (product_id i2 =? product_id i1) eqn:E; [| reflexivity].
    apply Z.eqb_eq in E. congruence. }
  pose proof (add_item_no_trigger order_id i2 c3 p2 Hf2' Htrig) as Hadd2.
  match type of Hadd2 with _ = (_, ?c) => set (c4 := c) in Hadd2 end.
  assert (Hitems : for_each [i1; i2] (add_item order_id) c2 = (Ok tt, c4)).
  { cbn [for_each].
    rewrite (bind_step _ _ _ _ _ Hadd1), (bind_step _ _ _ _ _ Hadd2).
    reflexivity. }
  cbv zeta.
  unfold process_order_transaction, with_connection,
    process_order_transaction_body, try_except.
  assert (Hbegin : begin_transaction (mkConn db db false [] 0%nat)
                   = (Ok tt, c1)) by reflexivity.
  assert (Horder : sql_insert_order user_id total 0 Pending c1
                   = (Ok order_id, c2)) by reflexivity.
  rewrite (bind_step _ _ _ _ _ Hbegin).
  rewrite (bind_step _ _ _ _ _ Hcheck).
  rewrite (bind_step _ _ _ _ _ Horder).
  rewrite (bind_step _ _ _ _ _ Hitems).
  unfold sql_insert_audit, commit, dml, bind, ret.
  cbn [cur disk in_tx temp draws c4 c3 c2 fst snd set_orders set_order_items
       set_products set_audit_log users products orders order_items audit_log
       map_rows insert_row rows autoinc].
  split; [reflexivity |]. split; [reflexivity |].
  split.
  { rewrite (next_id_insert oi_id) by reflexivity. reflexivity. }
  split; [reflexivity |].
  unfold stock_of, find_product.
  cbn [products rows set_audit_log set_products map_rows].
  split; [| split].
  - rewrite !find_product_map by apply take_stock_id.
    unfold find_product in Hf1. rewrite Hf1. simpl. f_equal.
    unfold take_stock at 2. rewrite Hid1, Z.eqb_refl.
    unfold take_stock. cbn [p_id p_stock].
    destruct (product_id i1 =? product_id i2) eqn:E; [| reflexivity].
    apply Z.eqb_eq in E. congruence.
  - rewrite !find_product_map by apply take_stock_id.
    unfold find_product in Hf2. rewrite Hf2. simpl. f_equal.
    unfold take_stock at 2. rewrite Hid2.
    destruct (product_id i2 =? product_id i1) eqn:E;
      [apply Z.eqb_eq in E; congruence |].
    unfold take_stock. rewrite Hid2, Z.eqb_refl. reflexivity.
  - intros pid H1 H2. rewrite !find_product_map by apply take_stock_id.
    destruct (find (fun p => p_id p =? pid) (rows (products db)))
      as [p |] eqn:Ef; [| reflexivity].
    apply find_some in Ef. destruct Ef as [_ Ef]. apply Z.eqb_eq in Ef.
    simpl. f_equal. unfold take_stock at 2. rewrite Ef.
    destruct (pid =? product_id i1) eqn:E1;
      [apply Z.eqb_eq in E1; congruence |].
    unfold take_stock. rewrite Ef.
    destruct (pid =? product_id i2) eqn:E2;
      [apply Z.eqb_eq in E2; congruence |].
    reflexivity.
Qed.

End OrderTransaction.

(** Quantity 5 of product 1, which has 3 in stock: refused, stock still
    3, nothing written. *)
Lemma process_order_rejects_unavailable_witness :
  (exists item, In item [mkItem 1 5] /\ unavailable shop item)
  /\ process_order_transaction shop 1 [mkItem 1 5] = (Ok false, shop)
  /\ stock_of shop 1 = Some 3.
Proof.
  assert (Hbad : exists item, In item [mkItem 1 5] /\ unavailable shop item).
  { exists (mkItem 1 5). split; [left; reflexivity | reflexivity]. }
  split; [exact Hbad |].
  split; [| reflexivity].
  apply (process_order_rejects_unavailable shop 1 [mkItem 1 5] Hbad).
Defined.

(** An order without lines for user 1 of the shop: accepted, order 1
    with total 0. *)
Lemma process_order_empty_items_witness :
  let result := process_order_transaction shop 1 [] in
  int64 1
  /\ has_room o_id (orders shop) 1
  /\ has_room a_id (audit_log shop) 1
  /\ fst result = Ok true
  /\ rows (orders (snd result)) = [mkOrder 1 1 0 0 Pending]
  /\ order_items (snd result) = order_items shop
  /\ products (snd result) = products shop.
Proof.
  intros result.
  assert (Hid : int64 1) by (unfold int64; lia).
  assert (Ho : has_room o_id (orders shop) 1) by (vm_compute; discriminate).
  assert (Ha : has_room a_id (audit_log shop) 1) by (vm_compute; discriminate).
  split; [exact Hid |]. split; [exact Ho |]. split; [exact Ha |].
  destruct (process_order_empty_items shop 1 Hid Ho Ha)
    as (Hret & Horders & Hitems & Hproducts & _).
  split; [exact Hret |]. split; [exact Horders |].
  split; [exact Hitems | exact Hproducts].
Defined.

(** C2. With the triggers of [create_triggers] in place, a two-line order
    on products with enough stock returns True, writes one order, two
    items and one audit entry -- and takes each quantity off the stock
    twice: product 1 goes from 3 to 1 for a quantity of 1, product 2
    from 10 to 4 for a quantity of 3. *)
Theorem two_line_order_decrements_twice :
  let result :=
    process_order_transaction shop_with_triggers 1 [mkItem 1 1; mkItem 2 3] in
  fst result = Ok true
  /\ stock_of shop_with_triggers 1 = Some 3
  /\ stock_of shop_with_triggers 2 = Some 10
  /\ stock_of (snd result) 1 = Some 1
  /\ stock_of (snd result) 2 = Some 4
  /\ List.length (rows (orders (snd result))) = 1%nat
  /\ List.length (rows (order_items (snd result))) = 2%nat
  /\ List.length (rows (audit_log (snd result))) = 1%nat.
Proof. vm_compute. repeat split. Qed.

(** C3. Order placement can drive stock below zero.  With the triggers
    in place, an order of 2 pieces of product 1 (stock 3) passes the
    validation and leaves stock -1; without any trigger, two lines of 2
    pieces each of product 1 do the same. *)
Theorem order_placement_drives_stock_negative :
  stock_nonneg shop_with_triggers
  /\ (let result := process_order_transaction shop_with_triggers 1 [mkItem 1 2]
      in fst result = Ok true /\ stock_of (snd result) 1 = Some (-1))
  /\ stock_nonneg shop
  /\ (let result := process_order_transaction shop 1 [mkItem 1 2; mkItem 1 2]
      in fst result = Ok true /\ stock_of (snd result) 1 = Some (-1)).
Proof.
  assert (Hshop : forall p : product Z,
             In p (rows (products shop)) -> 0 <= p_stock p).
  { intros p [<- | [<- | []]]; simpl; lia. }
  split; [exact Hshop |].
  split; [vm_compute; split; reflexivity |].
  split; [exact Hshop |].
  vm_compute; split; reflexivity.
Qed.

(** ** The prevent_order_deletion trigger *)

Section OrderDeletion.

Context {R : Type}.

(** C7. With prevent_order_deletion in place, a DELETE on orders that
    selects an order which still has order-item rows is refused with
    the trigger's message, and the connection sees, and the file holds,
    exactly what they did before: the order row and all of its item
    rows are still there, unchanged. *)
Theorem delete_order_with_items_rejected (c : conn R)
    (sel : order R -> bool) (o : order R) :
  has_name prevent_order_deletion (triggers (cur c)) = true ->
  In o (rows (orders (cur c))) ->
  sel o = true ->
  items_of (cur c) (o_id o) <> [] ->
  exists c',
    sql_delete_orders sel c
      = (Raise (IntegrityError "Cannot delete order with items"), c')
    /\ cur c' = cur c
    /\ disk c' = disk c
    /\ In o (rows (orders (cur c')))
    /\ items_of (cur c') (o_id o) = items_of (cur c) (o_id o).
Proof.
  intros Htrig Hin Hsel Hitems.
  unfold sql_delete_orders.
  assert (Hex : existsb (fun o' => sel o' && deletion_aborts (cur c) o')
                        (rows (orders (cur c))) = true).
  { apply existsb_exists. exists o. split; [exact Hin |].
    unfold deletion_aborts. rewrite Hsel, Htrig. simpl.
    apply Z.ltb_lt.
    destruct (items_of (cur c) (o_id o)); [congruence | simpl; lia]. }
  rewrite Hex. unfold dml_fail.
  eexists. split; [reflexivity |]. simpl. auto.
Qed.

(** An order without item rows is deleted, trigger or not. *)
Lemma delete_order_without_items (c : conn R) (sel : order R -> bool) :
  (forall o, In o (rows (orders (cur c))) -> sel o = true ->
             items_of (cur c) (o_id o) = []) ->
  exists c',
    sql_delete_orders sel c = (Ok tt, c')
    /\ rows (orders (cur c'))
       = filter (fun o => negb (sel o)) (rows (orders (cur c))).
Proof.
  intros Hno. unfold sql_delete_orders.
  assert (Hex : existsb (fun o' => sel o' && deletion_aborts (cur c) o')
                        (rows (orders (cur c))) = false).
  { apply not_true_is_false. intros Hex.
    apply existsb_exists in Hex. destruct Hex as (o & Hin & Ho).
    apply andb_true_iff in Ho. destruct Ho as [Hsel Hab].
    unfold deletion_aborts in Hab. apply andb_true_iff in Hab.
    destruct Hab as [_ Hab]. rewrite (Hno o Hin Hsel) in Hab.
    discriminate. }
  rewrite Hex. eexists. split; reflexivity.
Qed.

End OrderDeletion.

(** The order of the shop has an item row; deleting it is refused. *)
Lemma delete_order_with_items_rejected_witness :
  let c := mkConn shop_with_order shop_with_order false [] 0%nat in
  let o := mkOrder 1 1 5000 0 Pending in
  exists c',
    sql_delete_orders (fun o' => o_id o' =? 1) c
      = (Raise (IntegrityError "Cannot delete order with items"), c')
    /\ cur c' = cur c
    /\ disk c' = disk c
    /\ In o (rows (orders (cur c')))
    /\ items_of (cur c') (o_id o) = items_of (cur c) (o_id o).
Proof.
  intros c o.
  apply (delete_order_with_items_rejected c (fun o' => o_id o' =? 1) o).
  - reflexivity.
  - left. reflexivity.
  - reflexivity.
  - discriminate.
Defined.

(** ** modify_database_structure *)

Section Structure.

Context {R : Type}.

Lemma has_name_add_if_absent n l : has_name n (add_if_absent n l) = true.
Proof.
  unfold add_if_absent. destruct (has_name n l) eqn:E; [exact E |].
  unfold has_name. rewrite existsb_app. simpl.
  rewrite String.eqb_refl. simpl. apply orb_true_r.
Qed.

Lemma add_if_absent_present n l :
  has_name n l = true -> add_if_absent n l = l.
Proof. intros E. unfold add_if_absent. rewrite E. reflexivity. Qed.

Lemma has_name_app_r n l : has_name n (l ++ [n]) = true.
Proof.
  unfold has_name. rewrite existsb_app. simpl.
  rewrite String.eqb_refl. simpl. apply orb_true_r.
Qed.

(** What a call does to the file: the column is added unless it is
    there, the view is created unless it is there. *)
Lemma modify_database_structure_eq (db : DB R) :
  modify_database_structure db
  = (Ok tt,
     set_views (add_if_absent "active_user_orders" (views db))
       (if has_name "last_login" (users_columns db) then db
        else set_users_columns (users_columns db ++ ["last_login"]) db)).
Proof.
  unfold modify_database_structure, with_connection,
    modify_database_structure_body, try_except, bind, sql_add_last_login.
  simpl. destruct (has_name "last_login" (users_columns db)); reflexivity.
Qed.

(** C8. When the last_login column is already there, the conflict raised
    by ALTER TABLE is caught: [modify_database_structure] returns
    normally and leaves every table, the columns of users, the existing
    views and the triggers as they were, creating only the view if it
    was missing.  A second call changes nothing at all. *)
Theorem modify_database_structure_conflict_is_noop (db : DB R) :
  has_name "last_login" (users_columns db) = true ->
  let result := modify_database_structure db in
  fst result = Ok tt
  /\ users_columns (snd result) = users_columns db
  /\ views (snd result) = add_if_absent "active_user_orders" (views db)
  /\ triggers (snd result) = triggers db
  /\ users (snd result) = users db
  /\ products (snd result) = products db
  /\ orders (snd result) = orders db
  /\ order_items (snd result) = order_items db
  /\ audit_log (snd result) = audit_log db
  /\ modify_database_structure (snd result) = (Ok tt, snd result).
Proof.
  intros Hcol. cbv zeta.
  rewrite (modify_database_structure_eq db), Hcol.
  repeat (split; [reflexivity |]).
  rewrite modify_database_structure_eq. simpl.
  rewrite Hcol.
  rewrite (add_if_absent_present _ _ (has_name_add_if_absent _ _)).
  reflexivity.
Qed.

(** Two calls in a row from any database: the second one finds the
    column, returns normally and changes nothing. *)
Lemma modify_database_structure_twice (db : DB R) :
  let once := snd (modify_database_structure db) in
  modify_database_structure once = (Ok tt, once).
Proof.
  cbv zeta. rewrite (modify_database_structure_eq db). simpl.
  rewrite modify_database_structure_eq.
  destruct (has_name "last_login" (users_columns db)) eqn:Hcol; simpl.
  - rewrite Hcol.
    rewrite (add_if_absent_present _ _ (has_name_add_if_absent _ _)).
    reflexivity.
  - rewrite has_name_app_r.
    rewrite (add_if_absent_present _ _ (has_name_add_if_absent _ _)).
    reflexivity.
Qed.

End Structure.

(** The shop after one call has the column; the second call meets the
    conflict. *)
Lemma modify_database_structure_conflict_is_noop_witness :
  let db := snd (modify_database_structure shop) in
  has_name "last_login" (users_columns db) = true
  /\ fst (modify_database_structure db) = Ok tt
  /\ modify_database_structure db = (Ok tt, db).
Proof.
  intros db.
  assert (Hcol : has_name "last_login" (users_columns db) = true)
    by reflexivity.
  pose proof (modify_database_structure_conflict_is_noop db Hcol) as Hnoop.
  cbv zeta in Hnoop.
  destruct Hnoop as (Hok & Hcols & Hviews & _).
  split; [exact Hcol |]. split; [exact Hok |].
  reflexivity.
Defined.

(** ** Generated user names are pairwise different *)









(** ** generate_dummy_data *)

Section Generator.

Context {R : Type} `{Num R}.
Variable rand : nat -> nat.

Tactic Notation "bind_inv" hyp(E) "as" ident(a) ident(c) ident(E1) :=
  apply bind_ok in E; destruct E as (a & c & E1 & E).

Lemma same_db_refl (c : conn R) : same_db c c.
Proof. repeat split. Qed.

Lemma same_db_trans (c1 c2 c3 : conn R) :
  same_db c1 c2 -> same_db c2 c3 -> same_db c1 c3.
Proof.
  unfold same_db. intros (A1 & A2 & A3) (B1 & B2 & B3).
  repeat split; congruence.
Qed.

Lemma draw_ok (c : conn R) n c' :
  draw rand c = (Ok n, c') -> same_db c c'.
Proof. unfold draw. intros E. inversion E. repeat split. Qed.

Lemma nth_mod_In {A} (l : list A) (d : A) (n : nat) :
  l <> [] -> In (nth (n mod List.length l)%nat l d) l.
Proof.
  intros Hne. apply nth_In. apply Nat.mod_upper_bound.
  destruct l; [congruence | discriminate].
Qed.

Lemma random_choice_ok {A} (l : list A) (c : conn R) x c' :
  random_choice rand l c = (Ok x, c') -> In x l /\ same_db c c'.
Proof.
  destruct l as [| y l]; unfold random_choice; [discriminate |].
  intros E. bind_inv E as d c1 E0. apply draw_ok in E0.
  unfold ret in E. injection E as <- <-. split; [| exact E0].
  apply (nth_mod_In (y :: l) y d). discriminate.
Qed.

Lemma random_randint_ok (lo hi : Z) (c : conn R) z c' :
  lo <= hi ->
  random_randint rand lo hi c = (Ok z, c') -> lo <= z <= hi /\ same_db c c'.
Proof.
  intros Hle E. unfold random_randint in E. bind_inv E as d c1 E0.
  apply draw_ok in E0. unfold ret in E. injection E as <- <-.
  split; [| exact E0].
  pose proof (Z.mod_pos_bound (Z.of_nat d) (hi - lo + 1)). lia.
Qed.

Lemma random_price_ok (c : conn R) x c' :
  random_price rand c = (Ok x, c') -> same_db c c'.
Proof.
  intros E. unfold random_price in E. bind_inv E as d c1 E0.
  apply draw_ok in E0. unfold ret in E. injection E as <- <-. exact E0.
Qed.

Lemma random_string_ok (n : nat) : forall (c : conn R) s c',
  _random_string rand n c = (Ok s, c') -> same_db c c'.
Proof.
  induction n as [| n IH]; cbn [_random_string]; intros c s c' E.
  - unfold ret in E. inversion E. apply same_db_refl.
  - bind_inv E as ch c1 E0. bind_inv E as rest c2 E1.
    unfold ret in E. injection E as <- <-.
    apply random_choice_ok in E0. destruct E0 as [_ E0].
    apply IH in E1. eapply same_db_trans; eassumption.
Qed.

Lemma lift_ok {A} (r : res A) (c : conn R) a c' :
  lift r c = (Ok a, c') -> c' = c.
Proof. unfold lift. intros E. inversion E. reflexivity. Qed.

Lemma seeded_same_db (db0 : DB R) (c c' : conn R) :
  same_db c c' -> seeded db0 c -> seeded db0 c'.
Proof.
  unfold same_db, seeded. intros (-> & -> & _) Hs. exact Hs.
Qed.

(** *** The DELETE statements and the two seeding loops *)

Lemma no_order_aborts (d : DB R) (l : list (order R)) :
  rows (order_items d) = [] ->
  existsb (fun o => true && deletion_aborts d o) l = false.
Proof.
  intros Hempty. induction l as [| o l IH]; cbn [existsb]; [reflexivity |].
  rewrite IH. unfold deletion_aborts, items_of. rewrite Hempty.
  cbn [filter List.length Z.of_nat Z.ltb Z.compare].
  rewrite andb_false_r. reflexivity.
Qed.

(** The four DELETE statements always go through, also under
    prevent_order_deletion: the items are deleted first. *)
Lemma clear_existing_data_eq (db : DB R) t n :
  clear_existing_data (mkConn db db false t n)
  = (Ok tt, mkConn (cleared db) (cleared db) false t n).
Proof.
  unfold clear_existing_data, bind, dml, sql_delete_orders.
  cbn [cur disk in_tx temp draws].
  rewrite no_order_aborts by reflexivity.
  unfold dml, commit. cbn.
  assert (Hnone : forall l : list (order R), filter (fun _ => false) l = []).
  { induction l as [| o l IH]; [reflexivity | exact IH]. }
  rewrite Hnone. reflexivity.
Qed.

Lemma insert_user_seeded (db0 : DB R) username email hash status (c : conn R) c' :
  sql_insert_user username email hash status c = (Ok tt, c') ->
  seeded db0 c -> seeded db0 c'.
Proof.
  unfold sql_insert_user.
  destruct (existsb _ _); [unfold dml_fail; discriminate |].
  destruct (existsb _ _); [unfold dml_fail; discriminate |].
  unfold dml. intros E (Hdisk & Hord & Hitems & Hnd & Hst).
  inversion E; subst c'; clear E. unfold seeded.
  cbn [cur disk set_users users orders order_items].
  split; [exact Hdisk |]. split; [exact Hord |]. split; [exact Hitems |].
  split; [| exact Hst].
  apply (insert_row_NoDup u_id); [reflexivity | exact Hnd].
Qed.

Lemma generate_users_seeded (db0 : DB R) (num_users : nat) :
  triple (seeded db0) (generate_users rand num_users) (fun _ => seeded db0).
Proof.
  apply triple_for_each. intros i _ c [] c' Hs E.
  bind_inv E as suffix c1 E1. apply random_string_ok in E1.
  bind_inv E as hash c2 E2. apply lift_ok in E2. subst c2.
  bind_inv E as status c3 E3. apply random_choice_ok in E3.
  destruct E3 as [_ E3].
  eapply insert_user_seeded; [exact E |].
  eapply seeded_same_db; [exact E3 |].
  eapply seeded_same_db; eassumption.
Qed.

Lemma generate_products_seeded (db0 : DB R) (num_products : nat) :
  triple (seeded db0) (generate_products rand num_products)
         (fun _ => seeded db0).
Proof.
  apply triple_for_each. intros i _ c [] c' Hs E.
  bind_inv E as suffix c1 E1. apply random_string_ok in E1.
  bind_inv E as category c2 E2. apply random_choice_ok in E2.
  destruct E2 as [_ E2].
  bind_inv E as price c3 E3. apply random_price_ok in E3.
  bind_inv E as stock c4 E4. apply random_randint_ok in E4; [| lia].
  destruct E4 as [Hstock E4].
  pose proof (seeded_same_db db0 _ _
                (same_db_trans _ _ _ E1
                   (same_db_trans _ _ _ E2 (same_db_trans _ _ _ E3 E4))) Hs)
    as (Hdisk & Hord & Hitems & Hnd & Hst).
  unfold sql_insert_product, dml in E. inversion E; subst c'; clear E.
  unfold seeded. cbn [cur disk set_products users orders order_items].
  split; [exact Hdisk |]. split; [exact Hord |]. split; [exact Hitems |].
  split; [exact Hnd |].
  intros p Hin. unfold insert_row in Hin.
  cbn [set_products products rows] in Hin.
  apply in_app_or in Hin. destruct Hin as [Hin | [<- | []]].
  - apply Hst. exact Hin.
  - cbn [p_stock]. lia.
Qed.

(** After the seeding phase the file holds the cleared tables, and the
    connection sees no order and no item yet. *)
Lemma seed_users_products_seeded (db : DB R) seed num_users num_products c :
  seed_users_products rand num_users num_products
                      (mkConn db db false [] seed) = (Ok tt, c) ->
  seeded db c.
Proof.
  unfold seed_users_products. intros E.
  rewrite (bind_step _ _ _ tt _ (clear_existing_data_eq db [] seed)) in E.
  bind_inv E as u c1 E1. destruct u.
  assert (H0 : seeded db (mkConn (cleared db) (cleared db) false [] seed)).
  { unfold seeded. cbn. repeat split; [constructor | intros p []]. }
  apply (generate_users_seeded db num_users _ _ _ H0) in E1.
  apply (generate_products_seeded db num_products _ _ _ E1) in E.
  exact E.
Qed.

(** *** The order loop *)

Lemma item_total_app (l : list (order_item R)) (x : order_item R) :
  item_total (l ++ [x])
  = nadd (item_total l) (nscale (oi_price x) (oi_quantity x)).
Proof. unfold item_total. rewrite fold_left_app. reflexivity. Qed.

Lemma filter_none {A} (f : A -> bool) (l : list A) :
  (forall x, In x l -> f x = false) -> filter f l = [].
Proof.
  induction l as [| x l IH]; intros Hf; [reflexivity |].
  simpl. rewrite (Hf x (or_introl eq_refl)).
  apply IH. intros y Hy. apply Hf. right. exact Hy.
Qed.

Lemma items_of_app (d d' : DB R) (x : order_item R) (oid : Z) :
  rows (order_items d') = rows (order_items d) ++ [x] ->
  items_of d' oid
  = items_of d oid ++ (if oi_order_id x =? oid then [x] else []).
Proof.
  unfold items_of. intros ->. rewrite filter_app. simpl.
  destruct (oi_order_id x =? oid); reflexivity.
Qed.

(** update_product_stock never takes a stock below zero. *)
Lemma stock_trigger_nonneg (pid q : Z) (p : product R) :
  0 <= p_stock p -> 0 <= p_stock (stock_trigger pid q p).
Proof.
  intros Hp. unfold stock_trigger.
  destruct (p_id p =? pid); simpl; [| exact Hp].
  destruct (q <=? p_stock p) eqn:E; simpl; [| exact Hp].
  apply Z.leb_le in E. lia.
Qed.

Lemma insert_order_item_effect order_id pid q price (c : conn R) c' :
  sql_insert_order_item order_id pid q price c = (Ok tt, c') ->
  disk c' = disk c
  /\ in_tx c' = true
  /\ users (cur c') = users (cur c)
  /\ orders (cur c') = orders (cur c)
  /\ rows (order_items (cur c'))
     = rows (order_items (cur c))
       ++ [mkOrderItem (next_id oi_id (order_items (cur c)))
                       order_id pid q price]
  /\ (stock_nonneg (cur c) -> stock_nonneg (cur c')).
Proof.
  unfold sql_insert_order_item, dml. intros E.
  inversion E; subst c'; clear E. cbn [cur disk in_tx].
  match goal with |- context [if ?b then _ else _] => destruct b end;
    repeat split; try (intros Hst; exact Hst).
  intros Hst p Hin. cbn [set_products products map_rows rows] in Hin.
  apply in_map_iff in Hin. destruct Hin as (p0 & <- & Hin).
  apply stock_trigger_nonneg. apply Hst. exact Hin.
Qed.

Lemma generate_item_adding us ords oid ps total i :
  triple (adding_items us ords oid total)
         (generate_item rand ps oid total i)
         (adding_items us ords oid).
Proof.
  intros c total' c' (Hus & Hords & Htx & Hold & Hsum & Hle & Hst) E.
  unfold generate_item in E.
  bind_inv E as product c0 E0. apply random_choice_ok in E0.
  destruct E0 as (_ & _ & Hc0 & _).
  bind_inv E as quantity c1 E1. apply random_randint_ok in E1; [| lia].
  destruct E1 as (_ & _ & Hc1 & _).
  bind_inv E as u c2 E2. destruct u.
  apply insert_order_item_effect in E2.
  destruct E2 as (_ & Htx' & Husers & Horders & Hitems & Hkeep).
  unfold ret in E. injection E as <- <-.
  rewrite Hc1, Hc0 in Husers, Horders, Hitems, Hkeep.
  specialize (Hkeep Hst).
  unfold adding_items.
  rewrite Husers, Horders.
  split; [exact Hus |]. split; [exact Hords |]. split; [exact Htx' |].
  split; [| split; [| split; [| exact Hkeep]]].
  - intros o Hin Hne.
    rewrite (items_of_app (cur c) (cur c2) _ (o_id o) Hitems).
    cbn [oi_order_id].
    destruct (oid =? o_id o) eqn:Eid.
    + apply Z.eqb_eq in Eid. congruence.
    + rewrite app_nil_r. apply Hold; assumption.
  - rewrite (items_of_app (cur c) (cur c2) _ oid Hitems).
    cbn [oi_order_id]. rewrite Z.eqb_refl.
    rewrite item_total_app, Hsum. reflexivity.
  - intros it Hin. rewrite Hitems in Hin.
    apply in_app_or in Hin. destruct Hin as [Hin | [<- | []]].
    + apply Hle. exact Hin.
    + cbn [oi_order_id]. lia.
Qed.

Lemma generate_order_generating us ps k i :
  triple (generating us k)
         (generate_order rand (map u_id (filter is_active us)) ps i)
         (fun _ => generating us (S k)).
Proof.
  intros c [] c' (Hus & Hlen & _ & Htot & Hlt & Hact & Hst) E.
  unfold generate_order in E.
  bind_inv E as user_id c0 E0. apply random_choice_ok in E0.
  destruct E0 as (Huser & _ & Hc0 & _).
  bind_inv E as days c1 E1. apply random_randint_ok in E1; [| lia].
  destruct E1 as (_ & _ & Hc1 & _).
  bind_inv E as status c2 E2. apply random_choice_ok in E2.
  destruct E2 as (_ & _ & Hc2 & _).
  assert (Hcur2 : cur c2 = cur c) by congruence.
  bind_inv E as order_id c3 E3. unfold sql_insert_order, dml in E3.
  rewrite Hcur2 in E3. injection E3 as <- <-.
  bind_inv E as n c4 E4. apply random_randint_ok in E4; [| lia].
  destruct E4 as (_ & _ & Hc4 & Htx4).
  cbn [cur in_tx] in Hc4, Htx4.
  set (oid := next_id o_id (orders (cur c))) in *.
  set (ords := insert_row o_id (fun i0 => mkOrder i0 user_id nzero days status)
                          (orders (cur c))) in *.
  bind_inv E as total c5 E3.
  assert (Hstart : adding_items us ords oid nzero c4).
  { unfold adding_items. rewrite Hc4.
    cbn [set_orders users orders order_items].
    split; [exact Hus |]. split; [reflexivity |]. split; [exact Htx4 |].
    split; [| split; [| split; [| exact Hst]]].
    - intros o Hin Hne. unfold ords, insert_row in Hin. cbn [rows] in Hin.
      apply in_app_or in Hin. destruct Hin as [Hin | [<- | []]].
      + apply Htot. exact Hin.
      + exfalso. apply Hne. reflexivity.
    - unfold items_of. cbn [order_items].
      rewrite filter_none; [reflexivity |].
      intros it Hin. apply Hlt in Hin. apply Z.eqb_neq. fold oid in Hin. lia.
    - intros it Hin. cbn [order_items] in Hin.
      apply Hlt in Hin. fold oid in Hin. lia. }
  apply (triple_fold_each (adding_items us ords oid) _ _ _
           (generate_item_adding us ords oid ps) _ _ _ Hstart) in E3.
  destruct E3 as (Hus5 & Hords5 & Htx5 & Hold5 & Hsum5 & Hle5 & Hst5).
  unfold sql_update_order_total, dml in E. injection E as <-.
  unfold generating. cbn [cur in_tx set_orders users orders order_items].
  rewrite Hords5.
  split; [exact Hus5 |].
  split.
  { unfold map_rows, ords, insert_row. cbn [rows].
    rewrite length_map, length_app, Hlen. simpl. lia. }
  split; [reflexivity |].
  split.
  { intros o' Hin. unfold map_rows in Hin. cbn [rows] in Hin.
    apply in_map_iff in Hin. destruct Hin as (o & <- & Hin).
    change (items_of (set_orders ?t ?d) ?x) with (items_of d x).
    unfold set_total. destruct (o_id o =? oid) eqn:Eid.
    - apply Z.eqb_eq in Eid. cbn [o_total_amount o_id].
      rewrite Eid. symmetry. exact Hsum5.
    - apply Z.eqb_neq in Eid. apply Hold5; assumption. }
  split.
  { intros it Hin.
    rewrite (next_id_map_rows o_id)
      by (intros r; unfold set_total; destruct (o_id r =? oid);
          reflexivity).
    unfold ords. rewrite (next_id_insert o_id) by reflexivity.
    apply Hle5 in Hin. fold oid. lia. }
  split; [| exact Hst5].
  intros o' Hin. unfold map_rows in Hin. cbn [rows] in Hin.
  apply in_map_iff in Hin. destruct Hin as (o & <- & Hin).
  assert (Huid : In (o_user_id o) (map u_id (filter is_active us))).
  { unfold ords, insert_row in Hin. cbn [rows] in Hin.
    apply in_app_or in Hin. destruct Hin as [Hin | [<- | []]].
    - apply Hact. exact Hin.
    - exact Huser. }
  unfold set_total. destruct (o_id o =? oid); exact Huid.
Qed.

Lemma generate_orders_generating us (c : conn R) c' :
  generating us 0 c ->
  generate_orders rand c = (Ok tt, c') ->
  generating us 200 c'.
Proof.
  intros Hg E. unfold generate_orders, query in E.
  bind_inv E as user_ids c1 E1. injection E1 as <- <-.
  bind_inv E as products c2 E2. injection E2 as <- <-.
  unfold for_range in E.
  pose proof Hg as (Hus & _).
  unfold active_user_ids in E. rewrite Hus in E.
  pose proof (triple_for_each_count (generating us) (seq 0 200) _
                (fun k x => generate_order_generating us
                              (product_prices (cur c)) k x)
                0%nat c tt c' Hg E) as Hdone.
  rewrite length_seq in Hdone. exact Hdone.
Qed.

(** A normal return of [generate_dummy_data] leaves on file what the
    connection saw after the 200th order. *)
Lemma generate_dummy_data_ok (seed : nat) (db : DB R)
    (num_users num_products : nat) (db' : DB R) :
  generate_dummy_data rand seed db num_users num_products = (Ok tt, db') ->
  exists c, disk c = db' /\ cur c = db'
            /\ generating (rows (users db')) 200 c
            /\ NoDup (map u_id (rows (users db'))).
Proof.
  unfold generate_dummy_data, with_connection, generate_dummy_data_body.
  destruct (bind _ _ _) as [r c3] eqn:E. intros Eres.
  injection Eres as -> <-.
  bind_inv E as u c E0. destruct u.
  apply seed_users_products_seeded in E0.
  destruct E0 as (Hdisk & Hords & Hitems & Hnd & Hst).
  bind_inv E as u c0 E0. destruct u.
  assert (Hg0 : generating (rows (users (cur c))) 0 c).
  { unfold generating. rewrite Hords, Hitems.
    split; [reflexivity |]. split; [reflexivity |]. split; [lia |].
    split; [intros ? [] |]. split; [intros ? [] |].
    split; [intros ? [] | exact Hst]. }
  pose proof (generate_orders_generating _ c c0 Hg0 E0) as Hg.
  pose proof Hg as (Hus & _ & Htx & _).
  unfold commit in E. rewrite (Htx ltac:(lia)) in E.
  injection E as <-. cbn [disk].
  exists (mkConn (cur c0) (cur c0) true (temp c0) (draws c0)).
  cbn [disk cur]. rewrite Hus.
  repeat split; try apply Hg. exact Hnd.
Qed.

Lemma NoDup_map_eq {A B} (f : A -> B) (l : list A) :
  NoDup (map f l) ->
  forall x y, In x l -> In y l -> f x = f y -> x = y.
Proof.
  induction l as [| a rest IH]; simpl; intros Hnd x y Hx Hy Hf.
  - destruct Hx.
  - inversion Hnd as [| ? ? Hnotin Hnd']; subst.
    destruct Hx as [-> | Hx], Hy as [-> | Hy].
    + reflexivity.
    + exfalso. apply Hnotin. rewrite Hf. apply in_map. exact Hy.
    + exfalso. apply Hnotin. rewrite <- Hf. apply in_map. exact Hx.
    + apply IH; assumption.
Qed.

Lemma is_active_status (u : user) : is_active u = true -> u_status u = Active.
Proof. unfold is_active. destruct (u_status u); simpl; congruence. Qed.

(** Every run that returns normally has generated 200 orders. *)
Lemma generate_dummy_data_200_orders (seed : nat) (db : DB R)
    (num_users num_products : nat) (db' : DB R) :
  generate_dummy_data rand seed db num_users num_products = (Ok tt, db') ->
  List.length (rows (orders db')) = 200%nat.
Proof.
  intros E. apply generate_dummy_data_ok in E.
  destruct E as (c & _ & Hcur & (_ & Hlen & _) & _).
  rewrite Hcur in Hlen. exact Hlen.
Qed.

(** Seed generation leaves every stock at zero or above, also with the
    update_product_stock trigger in place. *)
Lemma generate_dummy_data_stock_nonneg (seed : nat) (db : DB R)
    (num_users num_products : nat) (db' : DB R) :
  generate_dummy_data rand seed db num_users num_products = (Ok tt, db') ->
  stock_nonneg db'.
Proof.
  intros E. apply generate_dummy_data_ok in E.
  destruct E as (c & _ & Hcur & (_ & _ & _ & _ & _ & _ & Hst) & _).
  rewrite Hcur in Hst. exact Hst.
Qed.

(** C4. For every order [generate_dummy_data] produces, the stored
    total_amount is the sum, over the order's line items in the order
    they were generated, of line-item price times quantity. *)
Theorem generated_order_total_is_item_sum (seed : nat) (db : DB R)
    (num_users num_products : nat) (db' : DB R) :
  generate_dummy_data rand seed db num_users num_products = (Ok tt, db') ->
  forall o, In o (rows (orders db')) ->
            o_total_amount o = item_total (items_of db' (o_id o)).
Proof.
  intros E o Hin. apply generate_dummy_data_ok in E.
  destruct E as (c & _ & Hcur & (_ & _ & _ & Htot & _) & _).
  rewrite Hcur in Htot. apply Htot. exact Hin.
Qed.

(** C5. For every order [generate_dummy_data] produces, user_id is the
    id of a generated user whose status is active, and of no user with
    another status. *)
Theorem generated_order_user_is_active (seed : nat) (db : DB R)
    (num_users num_products : nat) (db' : DB R) :
  generate_dummy_data rand seed db num_users num_products = (Ok tt, db') ->
  forall o, In o (rows (orders db')) ->
    (exists u, In u (rows (users db')) /\ u_id u = o_user_id o
               /\ u_status u = Active)
    /\ (forall u, In u (rows (users db')) -> u_id u = o_user_id o ->
                  u_status u = Active).
Proof.
  intros E o Hin. apply generate_dummy_data_ok in E.
  destruct E as (c & _ & Hcur & (_ & _ & _ & _ & _ & Hact & _) & Hnd).
  rewrite Hcur in Hact. specialize (Hact o Hin).
  apply in_map_iff in Hact. destruct Hact as (u & Hid & Hu).
  apply filter_In in Hu. destruct Hu as [Hu Hactive].
  apply is_active_status in Hactive.
  split.
  - exists u. auto.
  - intros u' Hu' Hid'.
    rewrite (NoDup_map_eq u_id _ Hnd u' u Hu' Hu) by congruence.
    exact Hactive.
Qed.

Lemma generate_orders_no_user (c : conn R) :
  active_user_ids (cur c) = [] ->
  generate_orders rand c
  = (Raise (IndexError "Cannot choose from an empty sequence"), c).
Proof.
  intros Hnone. unfold generate_orders, query, bind, for_range.
  rewrite Hnone. change (seq 0 200) with (0%nat :: seq 1 199).
  reflexivity.
Qed.

(** C6. When the seeding phase has left no active user, order
    generation stops at its first step: [generate_dummy_data] raises
    the IndexError of [random.choice] on an empty list instead of
    returning, and no order has been written; the file holds the
    cleared tables. *)
Theorem generate_dummy_data_without_active_user (seed : nat) (db : DB R)
    (num_users num_products : nat) (c : conn R) :
  seed_users_products rand num_users num_products
                      (mkConn db db false [] seed) = (Ok tt, c) ->
  active_user_ids (cur c) = [] ->
  generate_dummy_data rand seed db num_users num_products
  = (Raise (IndexError "Cannot choose from an empty sequence"), cleared db)
  /\ rows (orders (cur c)) = []
  /\ rows (orders (cleared db)) = [].
Proof.
  intros Eseed Hnone.
  pose proof (seed_users_products_seeded _ _ _ _ _ Eseed)
    as (Hdisk & Hords & _).
  unfold generate_dummy_data, with_connection, generate_dummy_data_body.
  rewrite (bind_step _ _ _ tt c Eseed).
  rewrite (bind_raise _ _ _ _ _ (generate_orders_no_user c Hnone)).
  rewrite Hdisk. repeat split. exact Hords.
Qed.

(** *** Normal return *)

Lemma for_each_returns {A} (l : list A) (body : A -> M R unit) :
  (forall x (c : conn R), exists c', body x c = (Ok tt, c')) ->
  forall c, exists c', for_each l body c = (Ok tt, c').
Proof.
  intros Hbody. induction l as [| x l IH]; intros c; cbn [for_each].
  - eexists. reflexivity.
  - destruct (Hbody x c) as (c1 & E1). destruct (IH c1) as (c2 & E2).
    exists c2. rewrite (bind_step _ _ _ _ _ E1). exact E2.
Qed.

Lemma fold_each_returns {A S} (l : list A) (body : S -> A -> M R S) :
  (forall s x (c : conn R), exists s' c', body s x c = (Ok s', c')) ->
  forall s c, exists s' c', fold_each l body s c = (Ok s', c').
Proof.
  intros Hbody. induction l as [| x l IH]; intros s c; cbn [fold_each].
  - eexists. eexists. reflexivity.
  - destruct (Hbody s x c) as (s1 & c1 & E1).
    destruct (IH s1 c1) as (s2 & c2 & E2).
    exists s2, c2. rewrite (bind_step _ _ _ _ _ E1). exact E2.
Qed.

Lemma random_choice_returns {A} (l : list A) (c : conn R) :
  l <> [] -> exists x c', random_choice rand l c = (Ok x, c').
Proof.
  intros Hne. destruct l as [| y l]; [congruence |].
  eexists. eexists. reflexivity.
Qed.

Lemma generate_item_returns ps oid total i (c : conn R) :
  ps <> [] ->
  exists total' c', generate_item rand ps oid total i c = (Ok total', c').
Proof.
  intros Hne. unfold generate_item.
  destruct (random_choice_returns ps c Hne) as (product & c1 & E1).
  rewrite (bind_step _ _ _ _ _ E1).
  eexists. eexists. reflexivity.
Qed.

Lemma random_randint_returns lo hi (c : conn R) :
  exists z c', random_randint rand lo hi c = (Ok z, c').
Proof. eexists. eexists. reflexivity. Qed.

Lemma sql_insert_order_returns user_id total days status (c : conn R) :
  exists i c', sql_insert_order user_id total days status c = (Ok i, c').
Proof. eexists. eexists. reflexivity. Qed.

Lemma generate_order_returns ids ps i (c : conn R) :
  ids <> [] -> ps <> [] ->
  exists c', generate_order rand ids ps i c = (Ok tt, c').
Proof.
  intros Hids Hps. unfold generate_order.
  destruct (random_choice_returns ids c Hids) as (user_id & c1 & E1).
  rewrite (bind_step _ _ _ _ _ E1).
  destruct (random_randint_returns 0 365 c1) as (days & c2 & E2).
  rewrite (bind_step _ _ _ _ _ E2).
  destruct (random_choice_returns [Pending; Completed; Cancelled] c2
              ltac:(discriminate)) as (status & c3 & E3).
  rewrite (bind_step _ _ _ _ _ E3).
  destruct (sql_insert_order_returns user_id nzero days status c3)
    as (order_id & c4 & E4).
  rewrite (bind_step _ _ _ _ _ E4).
  destruct (random_randint_returns 1 5 c4) as (n & c5 & E5).
  rewrite (bind_step _ _ _ _ _ E5).
  destruct (fold_each_returns (seq 0 (Z.to_nat n))
              (generate_item rand ps order_id)
              (fun s x c => generate_item_returns ps order_id s x c Hps)
              nzero c5) as (total & c6 & E6).
  rewrite (bind_step _ _ _ _ _ E6).
  eexists. reflexivity.
Qed.








(** The complement of C6: once the seeding phase has left an active
    user and a product, [generate_dummy_data] returns normally. *)
Lemma generate_dummy_data_returns (seed : nat) (db : DB R)
    (num_users num_products : nat) (c : conn R) :
  seed_users_products rand num_users num_products
                      (mkConn db db false [] seed) = (Ok tt, c) ->
  active_user_ids (cur c) <> [] ->
  product_prices (cur c) <> [] ->
  exists db',
    generate_dummy_data rand seed db num_users num_products = (Ok tt, db').
Proof.
  intros Eseed Hids Hps.
  unfold generate_dummy_data, with_connection, generate_dummy_data_body.
  rewrite (bind_step _ _ _ tt c Eseed).
  assert (Hgen : exists c', generate_orders rand c = (Ok tt, c')).
  { unfold generate_orders, query, bind at 1, bind at 1, for_range.
    apply for_each_returns. intros i c0.
    apply generate_order_returns; assumption. }
  destruct Hgen as (c' & Egen).
  rewrite (bind_step _ _ _ _ _ Egen).
  unfold commit. destruct (in_tx c'); eexists; reflexivity.
Qed.

End Generator.

(** A run with three users and two products: one user is drawn active
    and 200 orders are generated. *)
Lemma generated_order_total_is_item_sum_witness :
  let db' := snd (generate_dummy_data sample_rand 0 shop 3 2) in
  generate_dummy_data sample_rand 0 shop 3 2 = (Ok tt, db')
  /\ List.length (rows (orders db')) = 200%nat
  /\ forall o, In o (rows (orders db')) ->
               o_total_amount o = item_total (items_of db' (o_id o)).
Proof.
  intros db'.
  assert (Hrun : generate_dummy_data sample_rand 0 shop 3 2 = (Ok tt, db'))
    by (vm_compute; reflexivity).
  split; [exact Hrun |].
  split; [exact (generate_dummy_data_200_orders _ _ _ _ _ _ Hrun) |].
  exact (generated_order_total_is_item_sum sample_rand 0 shop 3 2 db' Hrun).
Defined.

Lemma generated_order_user_is_active_witness :
  let db' := snd (generate_dummy_data sample_rand 3 shop 4 3) in
  generate_dummy_data sample_rand 3 shop 4 3 = (Ok tt, db')
  /\ forall o, In o (rows (orders db')) ->
       (exists u, In u (rows (users db')) /\ u_id u = o_user_id o
                  /\ u_status u = Active)
       /\ (forall u, In u (rows (users db')) -> u_id u = o_user_id o ->
                     u_status u = Active).
Proof.
  intros db'.
  assert (Hrun : generate_dummy_data sample_rand 3 shop 4 3 = (Ok tt, db'))
    by (vm_compute; reflexivity).
  split; [exact Hrun |].
  exact (generated_order_user_is_active sample_rand 3 shop 4 3 db' Hrun).
Defined.

(** A run in which every status drawn is inactive. *)
Lemma generate_dummy_data_without_active_user_witness :
  let c := snd (seed_users_products unlucky_rand 3 2
                  (mkConn shop shop false [] 0%nat)) in
  seed_users_products unlucky_rand 3 2 (mkConn shop shop false [] 0%nat)
    = (Ok tt, c)
  /\ active_user_ids (cur c) = []
  /\ generate_dummy_data unlucky_rand 0 shop 3 2
     = (Raise (IndexError "Cannot choose from an empty sequence"),
        cleared shop).
Proof.
  intros c.
  assert (Hseed : seed_users_products unlucky_rand 3 2
                    (mkConn shop shop false [] 0%nat) = (Ok tt, c))
    by (vm_compute; reflexivity).
  assert (Hnone : active_user_ids (cur c) = [])
    by (vm_compute; reflexivity).
  split; [exact Hseed |]. split; [exact Hnone |].
  exact (proj1 (generate_dummy_data_without_active_user
                  unlucky_rand 0 shop 3 2 c Hseed Hnone)).
Defined.

(** ** process_order_transaction as a function of the database *)

Section OrderRefinement.

Context {R : Type} `{Num R}.

Lemma available_false_unavailable (d : DB R) (item : line_item) :
  available d item = false -> unavailable d item.
Proof.
  unfold available, unavailable.
  destruct (find_product d (product_id item)) as [p |]; [| trivial].
  intros E. apply negb_false_iff in E. apply Z.ltb_lt. exact E.
Qed.

Lemma available_true (d : DB R) (item : line_item) :
  available d item = true ->
  exists p, find_product d (product_id item) = Some p
            /\ quantity item <= p_stock p.
Proof.
  unfold available.
  destruct (find_product d (product_id item)) as [p |]; [| discriminate].
  intros E. apply negb_true_iff in E. apply Z.ltb_ge in E.
  exists p. split; [reflexivity | exact E].
Qed.

Lemma validation_passes (items : list line_item) : forall (t : R) (c : conn R),
  forallb (available (cur c)) items = true ->
  fold_each items check_item t c
  = (Ok (fold_left (fun t item =>
                      nadd t (nscale (price_of (cur c) (product_id item))
                                     (quantity item))) items t), c).
Proof.
  induction items as [| item rest IH]; intros t c Hall; cbn [fold_each fold_left].
  - reflexivity.
  - cbn [forallb] in Hall. apply andb_true_iff in Hall.
    destruct Hall as [Hitem Hrest].
    destruct (available_true _ _ Hitem) as (p & Hf & Hq).
    rewrite (bind_step _ _ _ _ _ (check_item_ok t item c p Hf Hq)).
    unfold price_of at 2. rewrite Hf. apply IH. exact Hrest.
Qed.

Lemma add_item_run order_id item (c : conn R) :
  find_product (cur c) (product_id item) <> None ->
  add_item order_id item c
  = (Ok tt, mkConn (disk c) (place_line order_id (cur c) item) true
                   (temp c) (draws c)).
Proof.
  intros Hf. unfold add_item, select_product, query, bind, place_line, price_of.
  destruct (find_product (cur c) (product_id item)) as [p |]; [| congruence].
  unfold sql_insert_order_item, sql_update_stock, dml.
  cbn [cur disk in_tx temp draws].
  destruct (has_name update_product_stock _); reflexivity.
Qed.

(** The products a round leaves are the products it found, each passed
    through a function that keeps id and price. *)
Lemma place_line_products order_id (d : DB R) item :
  exists f, (forall p, p_id (f p) = p_id p /\ p_price (f p) = p_price p)
            /\ rows (products (place_line order_id d item))
               = map f (rows (products d)).
Proof.
  unfold place_line. cbn [set_order_items triggers products].
  destruct (has_name update_product_stock (triggers d)).
  - exists (fun p => take_stock (quantity item) (product_id item)
                       (stock_trigger (product_id item) (quantity item) p)).
    split.
    + intros p. unfold take_stock, stock_trigger.
      destruct ((p_id p =? product_id item) && (quantity item <=? p_stock p));
        cbn [p_id p_price];
        destruct (p_id p =? product_id item); split; reflexivity.
    + cbn [set_products products map_rows rows]. rewrite map_map. reflexivity.
  - exists (take_stock (quantity item) (product_id item)).
    split.
    + intros p. unfold take_stock.
      destruct (p_id p =? product_id item); split; reflexivity.
    + reflexivity.
Qed.

Lemma find_map_keeps (f : product R -> product R) (l : list (product R))
    (pid : Z) :
  (forall p, p_id (f p) = p_id p /\ p_price (f p) = p_price p) ->
  find (fun p => p_id p =? pid) (map f l)
  = option_map f (find (fun p => p_id p =? pid) l).
Proof. intros Hf. apply find_product_map. intros p. apply Hf. Qed.

Lemma place_line_found order_id (d : DB R) item pid :
  find_product d pid <> None ->
  find_product (place_line order_id d item) pid <> None.
Proof.
  destruct (place_line_products order_id d item) as (f & Hf & Hrows).
  unfold find_product. rewrite Hrows, (find_map_keeps f _ pid Hf).
  destruct (find _ (rows (products d))); [discriminate | congruence].
Qed.

Lemma place_line_price order_id (d : DB R) item pid :
  price_of (place_line order_id d item) pid = price_of d pid.
Proof.
  destruct (place_line_products order_id d item) as (f & Hf & Hrows).
  unfold price_of, find_product. rewrite Hrows, (find_map_keeps f _ pid Hf).
  destruct (find _ (rows (products d))) as [p |]; [| reflexivity].
  simpl. apply Hf.
Qed.

Lemma add_items_run order_id (items : list line_item) : forall (c : conn R),
  in_tx c = true ->
  (forall item, In item items ->
                find_product (cur c) (product_id item) <> None) ->
  for_each items (add_item order_id) c
  = (Ok tt, mkConn (disk c) (fold_left (place_line order_id) items (cur c))
                   true (temp c) (draws c)).
Proof.
  induction items as [| item rest IH]; intros c Htx Hfound;
    cbn [for_each fold_left].
  - destruct c. cbn in Htx. subst. reflexivity.
  - rewrite (bind_step _ _ _ _ _
               (add_item_run order_id item c (Hfound item (or_introl eq_refl)))).
    rewrite IH; [reflexivity | reflexivity |].
    intros it Hin. cbn [cur]. apply place_line_found.
    apply Hfound. right. exact Hin.
Qed.

(** The whole method as one equation: an order all of whose lines pass
    the validation is placed, any other is refused and nothing is
    written. *)
Lemma process_order_transaction_eq (db : DB R) (user_id : Z)
    (items : list line_item) :
  process_order_transaction db user_id items
  = if forallb (available db) items
    then (Ok true, placed db user_id items)
    else (Ok false, db).
Proof.
  unfold process_order_transaction, with_connection,
    process_order_transaction_body, try_except.
  set (c1 := mkConn db db true [] 0%nat).
  assert (Hbegin : begin_transaction (mkConn db db false [] 0%nat)
                   = (Ok tt, c1)) by reflexivity.
  rewrite (bind_step _ _ _ _ _ Hbegin).
  destruct (forallb (available db) items) eqn:Hall.
  - rewrite (bind_step _ _ _ _ _ (validation_passes items nzero c1 Hall)).
    cbn [cur c1]. fold (order_total db items).
    set (total := order_total db items).
    set (order_id := next_id o_id (orders db)).
    set (c2 := mkConn db
                 (set_orders
                    (insert_row o_id
                       (fun i => mkOrder i user_id total 0 Pending)
                       (orders db)) db) true [] 0%nat).
    assert (Horder : sql_insert_order user_id total 0 Pending c1
                     = (Ok order_id, c2)) by reflexivity.
    rewrite (bind_step _ _ _ _ _ Horder).
    assert (Hfound : forall item, In item items ->
               find_product (cur c2) (product_id item) <> None).
    { intros item Hin. rewrite forallb_forall in Hall.
      destruct (available_true _ _ (Hall item Hin)) as (p & Hf & _).
      unfold find_product in *. cbn [cur c2 set_orders products].
      rewrite Hf. discriminate. }
    rewrite (bind_step _ _ _ _ _
               (add_items_run order_id items c2 eq_refl Hfound)).
    reflexivity.
  - assert (Hbad : exists item, In item items /\ unavailable (cur c1) item).
    { apply not_true_iff_false in Hall.
      assert (Hex : existsb (fun it => negb (available db it)) items = true).
      { apply not_false_is_true. intros Hno. apply Hall.
        apply forallb_forall. intros it Hin.
        destruct (available db it) eqn:E; [reflexivity |].
        exfalso. rewrite <- not_true_iff_false in Hno. apply Hno.
        apply existsb_exists. exists it. rewrite E. auto. }
      apply existsb_exists in Hex. destruct Hex as (it & Hin & Hit).
      exists it. split; [exact Hin |].
      apply available_false_unavailable. apply negb_true_iff. exact Hit. }
    destruct (validation_raises items nzero c1 Hbad) as (e & E).
    rewrite (bind_raise _ _ _ _ _ E). reflexivity.
Qed.

End OrderRefinement.

Section OrderFacts.

Context {R : Type} `{Num R}.

Lemma forallb_available_spec (db : DB R) (items : list line_item) :
  forallb (available db) items = true
  <-> (forall item, In item items -> ~ unavailable db item).
Proof.
  rewrite forallb_forall. split; intros Hall item Hin.
  - destruct (available_true _ _ (Hall item Hin)) as (p & Hf & Hq).
    unfold unavailable. rewrite Hf. lia.
  - destruct (available db item) eqn:E; [reflexivity |].
    exfalso. apply (Hall item Hin). apply available_false_unavailable.
    exact E.
Qed.

(** X1. [process_order_transaction] never raises and is all or
    nothing: it returns True, or it returns False and the database is
    the one the call started from.  It returns True only when every
    line names an existing product whose stock, as it is when the call
    starts, is at least the quantity of that line.  And it returns True
    whenever every line does, provided the arguments are 64-bit
    integers, the quantities are positive and the three tables written
    have row ids left. *)
Theorem process_order_all_or_nothing (db : DB R) (user_id : Z)
    (items : list line_item) :
  let result := process_order_transaction db user_id items in
  (fst result = Ok true \/ result = (Ok false, db))
  /\ (fst result = Ok true ->
      forall item, In item items -> ~ unavailable db item)
  /\ (storable db user_id items ->
      (forall item, In item items -> 0 < quantity item) ->
      (forall item, In item items -> ~ unavailable db item) ->
      fst result = Ok true).
Proof.
  cbv zeta. rewrite process_order_transaction_eq.
  rewrite <- forallb_available_spec.
  destruct (forallb (available db) items); cbn [fst].
  - split; [left; reflexivity |]. split; intros; reflexivity.
  - split; [right; reflexivity |]. split; [discriminate |].
    intros _ _ Hall. discriminate Hall.
Qed.

Lemma place_line_frame order_id (d : DB R) item :
  users (place_line order_id d item) = users d
  /\ orders (place_line order_id d item) = orders d
  /\ audit_log (place_line order_id d item) = audit_log d
  /\ users_columns (place_line order_id d item) = users_columns d
  /\ views (place_line order_id d item) = views d
  /\ triggers (place_line order_id d item) = triggers d.
Proof.
  unfold place_line. cbn [set_order_items triggers].
  destruct (has_name update_product_stock (triggers d)); repeat split.
Qed.

Lemma place_lines_frame order_id (items : list line_item) : forall (d : DB R),
  users (fold_left (place_line order_id) items d) = users d
  /\ orders (fold_left (place_line order_id) items d) = orders d
  /\ audit_log (fold_left (place_line order_id) items d) = audit_log d
  /\ users_columns (fold_left (place_line order_id) items d) = users_columns d
  /\ views (fold_left (place_line order_id) items d) = views d
  /\ triggers (fold_left (place_line order_id) items d) = triggers d.
Proof.
  induction items as [| item rest IH]; intros d; cbn [fold_left].
  - repeat split.
  - destruct (IH (place_line order_id d item)) as (A & B & C & D & E & F).
    destruct (place_line_frame order_id d item) as (A' & B' & C' & D' & E' & F').
    repeat split; congruence.
Qed.

Lemma place_line_items order_id (d : DB R) item :
  rows (order_items (place_line order_id d item))
  = rows (order_items d)
    ++ [mkOrderItem (next_id oi_id (order_items d)) order_id
                    (product_id item) (quantity item)
                    (price_of d (product_id item))].
Proof.
  unfold place_line. cbn [set_order_items triggers].
  destruct (has_name update_product_stock (triggers d)); reflexivity.
Qed.

(** The item rows the second loop appends, read back. *)
Lemma place_lines_items order_id (items : list line_item) : forall (d : DB R),
  exists new_items,
    rows (order_items (fold_left (place_line order_id) items d))
    = rows (order_items d) ++ new_items
    /\ map line_of new_items = items
    /\ (forall it, In it new_items ->
          oi_order_id it = order_id
          /\ oi_price it = price_of d (oi_product_id it))
    /\ (forall t,
          fold_left (fun acc it =>
                       nadd acc (nscale (oi_price it) (oi_quantity it)))
                    new_items t
          = fold_left (fun acc item =>
                         nadd acc (nscale (price_of d (product_id item))
                                          (quantity item))) items t).
Proof.
  induction items as [| item rest IH]; intros d; cbn [fold_left].
  - exists []. rewrite app_nil_r.
    split; [reflexivity |]. split; [reflexivity |].
    split; [intros row [] | reflexivity].
  - destruct (IH (place_line order_id d item)) as (new & Hrows & Hmap & Hall & Hsum).
    rewrite place_line_items in Hrows. rewrite <- app_assoc in Hrows.
    eexists. split; [exact Hrows |].
    split.
    { cbn [map app line_of oi_product_id oi_quantity]. rewrite Hmap.
      destruct item. reflexivity. }
    split.
    { intros row [<- | Hin].
      - split; reflexivity.
      - destruct (Hall row Hin) as [Ho Hp]. split; [exact Ho |].
        rewrite Hp. apply place_line_price. }
    intros t. cbn [app fold_left oi_price oi_quantity]. rewrite Hsum.
    generalize (nadd t (nscale (price_of d (product_id item)) (quantity item))).
    clear. induction rest as [| x rest IH]; intros t; cbn [fold_left].
    + reflexivity.
    + rewrite place_line_price. apply IH.
Qed.

End OrderFacts.

Section OrderStock.

Context {R : Type} `{Num R}.

(** X2. When [process_order_transaction] returns True it has appended
    one order-item row per line, in the order of the lines, each with
    the product and quantity of its line, the id of the new order and
    the price the product had when the call started; one pending order
    whose total is the sum of price times quantity over exactly these
    rows; and one audit entry naming that order and that total.  The
    users table and the schema are as before. *)
Theorem accepted_order_rows (db db' : DB R) (user_id : Z)
    (items : list line_item) :
  process_order_transaction db user_id items = (Ok true, db') ->
  let order_id := next_id o_id (orders db) in
  exists new_items,
    rows (order_items db') = rows (order_items db) ++ new_items
    /\ map line_of new_items = items
    /\ (forall it, In it new_items ->
          oi_order_id it = order_id
          /\ oi_price it = price_of db (oi_product_id it))
    /\ rows (orders db')
       = rows (orders db)
         ++ [mkOrder order_id user_id (item_total new_items) 0 Pending]
    /\ rows (audit_log db')
       = rows (audit_log db)
         ++ [mkAudit (next_id a_id (audit_log db)) "orders" "CREATE" user_id
                     (OrderCreated order_id (item_total new_items))]
    /\ users db' = users db
    /\ users_columns db' = users_columns db
    /\ views db' = views db
    /\ triggers db' = triggers db.
Proof.
  rewrite process_order_transaction_eq.
  destruct (forallb (available db) items); [| discriminate].
  intros E. injection E as <-. cbv zeta. unfold placed.
  set (order_id := next_id o_id (orders db)).
  set (d0 := set_orders
               (insert_row o_id
                  (fun i => mkOrder i user_id (order_total db items) 0 Pending)
                  (orders db)) db).
  destruct (place_lines_items order_id items d0)
    as (new_items & Hrows & Hmap & Hall & Hsum).
  destruct (place_lines_frame order_id items d0) as (A & B & C & D & E & F).
  assert (Htotal : item_total new_items = order_total db items).
  { unfold item_total. rewrite Hsum. reflexivity. }
  exists new_items. rewrite Htotal.
  cbn [set_audit_log order_items orders audit_log users users_columns views
       triggers insert_row rows].
  rewrite B, C, A, D, E, F.
  split; [exact Hrows |]. split; [exact Hmap |]. split; [exact Hall |].
  repeat split.
Qed.

Lemma with_stock_same (p : product R) : with_stock p (p_stock p - 0) = p.
Proof. destruct p. unfold with_stock. cbn. f_equal. lia. Qed.

Lemma stock_of_map (d d' : DB R) (W : product R -> product R) (pid : Z) :
  rows (products d') = map W (rows (products d)) ->
  (forall p, p_id (W p) = p_id p) ->
  stock_of d' pid
  = option_map (fun p => p_stock (W p)) (find_product d pid).
Proof.
  intros Hrows HW. unfold stock_of, find_product.
  rewrite Hrows, (find_product_map W _ pid HW).
  destruct (find _ (rows (products d))); reflexivity.
Qed.

Lemma place_lines_products_plain order_id (items : list line_item) :
  forall (d : DB R),
  has_name update_product_stock (triggers d) = false ->
  rows (products (fold_left (place_line order_id) items d))
  = map (fun p => with_stock p (p_stock p - ordered_quantity items (p_id p)))
        (rows (products d)).
Proof.
  induction items as [| item rest IH]; intros d Htrig; cbn [fold_left].
  - cbn [ordered_quantity fold_right].
    rewrite (map_ext _ (fun p => p)) by apply with_stock_same.
    symmetry. apply map_id.
  - destruct (place_line_frame order_id d item) as (_ & _ & _ & _ & _ & F).
    rewrite IH by (rewrite F; exact Htrig).
    assert (Hrows : rows (products (place_line order_id d item))
                    = map (take_stock (quantity item) (product_id item))
                          (rows (products d))).
    { unfold place_line. cbn [set_order_items triggers]. rewrite Htrig.
      reflexivity. }
    rewrite Hrows, map_map. apply map_ext. intros p.
    unfold take_stock, with_stock, ordered_quantity. cbn [fold_right].
    rewrite (Z.eqb_sym (product_id item) (p_id p)).
    destruct (p_id p =? product_id item); cbn [p_id p_name p_category p_price
                                                p_stock]; f_equal; lia.
Qed.

Lemma stock_of_row (d : DB R) (pid s : Z) :
  stock_of d pid = Some s ->
  exists p, In p (rows (products d)) /\ p_id p = pid /\ p_stock p = s.
Proof.
  unfold stock_of. destruct (find_product d pid) as [p |] eqn:Ef;
    [| discriminate].
  intros E. injection E as <-. exists p.
  pose proof (find_product_id _ _ _ Ef) as Hid.
  unfold find_product in Ef. apply find_some in Ef.
  split; [exact (proj1 Ef) |]. split; [exact Hid | reflexivity].
Qed.

Lemma stock_in_range_end (db : DB R) (k : Z) (items : list line_item)
    (pid s : Z) :
  stock_in_range db k items ->
  stock_of db pid = Some s ->
  int64 (s - k * ordered_quantity items pid).
Proof.
  intros Hrange Hs. destruct (stock_of_row _ _ _ Hs) as (p & Hin & <- & <-).
  specialize (Hrange (List.length items) p Hin).
  rewrite firstn_all in Hrange. exact Hrange.
Qed.

(** X3. Without the update_product_stock trigger, an order that is
    accepted takes from every product exactly the quantity its lines
    ask for, all lines on the product added up; a product no line names
    keeps its stock.  The arguments are 64-bit integers and no stock
    leaves them on the way, so every stock is an INTEGER again. *)
Theorem accepted_order_stock_without_trigger (db db' : DB R) (user_id : Z)
    (items : list line_item) :
  has_name update_product_stock (triggers db) = false ->
  storable db user_id items ->
  stock_in_range db 1 items ->
  process_order_transaction db user_id items = (Ok true, db') ->
  forall pid,
    stock_of db' pid
    = option_map (fun s => s - ordered_quantity items pid) (stock_of db pid)
    /\ (forall s, stock_of db' pid = Some s -> int64 s).
Proof.
  intros Htrig _ Hrange. rewrite process_order_transaction_eq.
  destruct (forallb (available db) items); [| discriminate].
  intros E pid. injection E as <-.
  assert (Hstock : stock_of (placed db user_id items) pid
                   = option_map (fun s => s - ordered_quantity items pid)
                                (stock_of db pid)).
  { rewrite (stock_of_map db (placed db user_id items)
               (fun p => with_stock p
                           (p_stock p - ordered_quantity items (p_id p)))
               pid).
    - unfold stock_of. destruct (find_product db pid) as [p |] eqn:Ef;
        [| reflexivity].
      cbn. rewrite (find_product_id _ _ _ Ef). reflexivity.
    - unfold placed. cbn [set_audit_log products].
      rewrite place_lines_products_plain by exact Htrig. reflexivity.
    - reflexivity. }
  split; [exact Hstock |].
  intros s. rewrite Hstock.
  destruct (stock_of db pid) as [s0 |] eqn:Es; [| discriminate].
  cbn [option_map]. intros E. injection E as <-.
  pose proof (stock_in_range_end db 1 items pid s0 Hrange Es) as Hend.
  rewrite Z.mul_1_l in Hend. exact Hend.
Qed.

Lemma ordered_quantity_absent (items : list line_item) (pid : Z) :
  ~ In pid (map product_id items) -> ordered_quantity items pid = 0.
Proof.
  induction items as [| item rest IH]; intros Hnot; cbn; [reflexivity |].
  cbn in Hnot.
  destruct (Z.eqb_spec (product_id item) pid) as [E | E]; [tauto |].
  unfold ordered_quantity in IH. rewrite IH by tauto. reflexivity.
Qed.

Lemma place_lines_products_trigger order_id (items : list line_item) :
  forall (d : DB R),
  has_name update_product_stock (triggers d) = true ->
  NoDup (map product_id items) ->
  (forall item p, In item items -> In p (rows (products d)) ->
                  p_id p = product_id item -> quantity item <= p_stock p) ->
  rows (products (fold_left (place_line order_id) items d))
  = map (fun p => with_stock p
                    (p_stock p - 2 * ordered_quantity items (p_id p)))
        (rows (products d)).
Proof.
  induction items as [| item rest IH]; intros d Htrig Hnd Hq; cbn [fold_left].
  - cbn [ordered_quantity fold_right].
    rewrite (map_ext _ (fun p => p)) by apply with_stock_same.
    symmetry. apply map_id.
  - destruct (place_line_frame order_id d item) as (_ & _ & _ & _ & _ & F).
    inversion Hnd as [| ? ? Hfresh Hnd']; subst.
    set (h := fun p : product R =>
                take_stock (quantity item) (product_id item)
                  (stock_trigger (product_id item) (quantity item) p)).
    assert (Hrows : rows (products (place_line order_id d item))
                    = map h (rows (products d))).
    { unfold place_line. cbn [set_order_items triggers]. rewrite Htrig.
      cbn [set_products products map_rows rows]. rewrite map_map.
      reflexivity. }
    assert (Hother : forall p, p_id p <> product_id item -> h p = p).
    { intros p Hne. unfold h, stock_trigger, take_stock.
      apply Z.eqb_neq in Hne. rewrite Hne. cbn. rewrite Hne. reflexivity. }
    assert (Hthis : forall p, In p (rows (products d)) ->
                              p_id p = product_id item ->
                              h p = with_stock p (p_stock p - 2 * quantity item)).
    { intros p Hin Hid. unfold h, stock_trigger, take_stock.
      apply Z.eqb_eq in Hid. rewrite Hid.
      assert (Hle : (quantity item <=? p_stock p) = true).
      { apply Z.leb_le. apply (Hq item p); auto.
        - left. reflexivity.
        - apply Z.eqb_eq. exact Hid. }
      rewrite Hle. cbn [andb p_id]. rewrite Hid.
      cbn [p_id p_name p_category p_price p_stock]. unfold with_stock.
      f_equal. lia. }
    rewrite IH; [| rewrite F; exact Htrig | exact Hnd' |].
    + rewrite Hrows, map_map. apply map_ext_in. intros p Hin.
      destruct (Z.eq_dec (p_id p) (product_id item)) as [Hid | Hne].
      * rewrite (Hthis p Hin Hid). unfold with_stock, ordered_quantity.
        cbn [p_id p_name p_category p_price p_stock fold_right].
        rewrite Hid, Z.eqb_refl.
        pose proof (ordered_quantity_absent rest (product_id item) Hfresh)
          as H0. unfold ordered_quantity in H0. rewrite H0.
        f_equal. lia.
      * rewrite (Hother p Hne). unfold with_stock, ordered_quantity.
        cbn [fold_right].
        destruct (Z.eqb_spec (product_id item) (p_id p)) as [E | E];
          [congruence |].
        f_equal.
    + intros it p' Hit Hp' Hid'. rewrite Hrows in Hp'.
      apply in_map_iff in Hp'. destruct Hp' as (p & <- & Hp).
      assert (Hne : p_id p <> product_id item).
      { intros Heq. apply Hfresh. apply in_map_iff. exists it.
        split; [| exact Hit].
        rewrite <- Hid'. unfold h, stock_trigger, take_stock.
        destruct ((p_id p =? product_id item) && (quantity item <=? p_stock p));
          cbn [p_id]; destruct (_ =? _); cbn [p_id]; congruence. }
      rewrite (Hother p Hne) in *. apply (Hq it p); auto. right. exact Hit.
Qed.

End OrderStock.

Section OrderStock2.

Context {R : Type} `{Num R}.

(** X4. With the update_product_stock trigger in place, an accepted
    order whose lines name pairwise different products takes twice the
    requested quantity from each of them: once by the trigger, once by
    the UPDATE of the method.  (Product ids are unique, as the primary
    key makes them; the arguments are 64-bit integers and no stock
    leaves them on the way, so every stock is an INTEGER again.) *)
Theorem accepted_order_stock_with_trigger (db db' : DB R) (user_id : Z)
    (items : list line_item) :
  has_name update_product_stock (triggers db) = true ->
  NoDup (map p_id (rows (products db))) ->
  NoDup (map product_id items) ->
  storable db user_id items ->
  stock_in_range db 2 items ->
  process_order_transaction db user_id items = (Ok true, db') ->
  forall pid,
    stock_of db' pid
    = option_map (fun s => s - 2 * ordered_quantity items pid)
                 (stock_of db pid)
    /\ (forall s, stock_of db' pid = Some s -> int64 s).
Proof.
  intros Htrig Hkey Hlines _ Hrange. rewrite process_order_transaction_eq.
  destruct (forallb (available db) items) eqn:Hall; [| discriminate].
  intros E pid. injection E as <-.
  assert (Hstock : stock_of (placed db user_id items) pid
                   = option_map (fun s => s - 2 * ordered_quantity items pid)
                                (stock_of db pid)).
  { rewrite (stock_of_map db (placed db user_id items)
               (fun p => with_stock p
                           (p_stock p - 2 * ordered_quantity items (p_id p)))
               pid).
    - unfold stock_of. destruct (find_product db pid) as [p |] eqn:Ef;
        [| reflexivity].
      cbn. rewrite (find_product_id _ _ _ Ef). reflexivity.
    - unfold placed. cbn [set_audit_log products].
      rewrite place_lines_products_trigger; [reflexivity | exact Htrig
                                             | exact Hlines |].
      intros item p Hin Hp Hid. cbn [set_orders products] in Hp.
      rewrite forallb_forall in Hall.
      destruct (available_true _ _ (Hall item Hin)) as (p0 & Hf & Hq).
      pose proof (find_product_id _ _ _ Hf) as Hid0.
      unfold find_product in Hf. apply find_some in Hf.
      destruct Hf as [Hp0 _].
      rewrite (NoDup_map_eq p_id _ Hkey p p0 Hp Hp0) by congruence.
      exact Hq.
    - reflexivity. }
  split; [exact Hstock |].
  intros s. rewrite Hstock.
  destruct (stock_of db pid) as [s0 |] eqn:Es; [| discriminate].
  cbn [option_map]. intros E. injection E as <-.
  exact (stock_in_range_end db 2 items pid s0 Hrange Es).
Qed.

Lemma place_line_set_users order_id (t : table user) (d : DB R) item :
  place_line order_id (set_users t d) item
  = set_users t (place_line order_id d item).
Proof.
  unfold place_line. cbn [set_users set_order_items triggers].
  destruct (has_name update_product_stock (triggers d)); reflexivity.
Qed.

Lemma place_lines_set_users order_id (t : table user) (items : list line_item) :
  forall (d : DB R),
  fold_left (place_line order_id) items (set_users t d)
  = set_users t (fold_left (place_line order_id) items d).
Proof.
  induction items as [| item rest IH]; intros d; cbn [fold_left].
  - reflexivity.
  - rewrite place_line_set_users. apply IH.
Qed.

(** X5. [process_order_transaction] neither reads nor writes the users
    table: with any other users table in its place the call returns the
    same value and leaves the same database around that table.  In
    particular user_id is not checked; an order for a user that does
    not exist is accepted like any other. *)
Theorem process_order_ignores_users (db : DB R) (t : table user)
    (user_id : Z) (items : list line_item) :
  process_order_transaction (set_users t db) user_id items
  = (fst (process_order_transaction db user_id items),
     set_users t (snd (process_order_transaction db user_id items))).
Proof.
  rewrite !process_order_transaction_eq.
  change (available (set_users t db)) with (available db).
  destruct (forallb (available db) items); cbn [fst snd]; [| reflexivity].
  f_equal. unfold placed.
  change (order_total (set_users t db) items) with (order_total db items).
  change (orders (set_users t db)) with (orders db).
  set (total := order_total db items).
  set (order_id := next_id o_id (orders db)).
  change (set_orders ?o (set_users t db))
    with (set_users t (set_orders o db)).
  rewrite place_lines_set_users. reflexivity.
Qed.

(** X6. The quantity of a line is never checked to be positive.  A
    single line with a negative quantity on an existing product with
    stock at least zero passes the validation: the call returns True
    and the stock of the product goes up.  The arguments are 64-bit
    integers, and so is the stock with twice the quantity added, which
    is the most the trigger and the UPDATE together make of it. *)
Theorem negative_quantity_raises_stock (db : DB R) (user_id pid q : Z)
    (p : product R) :
  find_product db pid = Some p -> q < 0 -> 0 <= p_stock p ->
  storable db user_id [mkItem pid q] ->
  p_stock p - 2 * q < 2 ^ 63 ->
  let result := process_order_transaction db user_id [mkItem pid q] in
  fst result = Ok true
  /\ exists s,
       stock_of (snd result) pid = Some s /\ p_stock p < s /\ int64 s.
Proof.
  intros Hf Hq Hs _ Hmax. cbv zeta. rewrite process_order_transaction_eq.
  assert (Hav : forallb (available db) [mkItem pid q] = true).
  { cbn [forallb]. unfold available. cbn [product_id quantity]. rewrite Hf.
    destruct (Z.ltb_spec (p_stock p) q); [lia | reflexivity]. }
  rewrite Hav. cbn [fst snd]. split; [reflexivity |].
  pose proof (find_product_id _ _ _ Hf) as Hid.
  set (h := fun p0 : product R =>
              take_stock q pid
                (if has_name update_product_stock (triggers db)
                 then stock_trigger pid q p0 else p0)).
  assert (Hh : forall p0, p_id (h p0) = p_id p0).
  { intros p0. unfold h, take_stock, stock_trigger.
    destruct (has_name update_product_stock (triggers db));
      [destruct ((p_id p0 =? pid) && (q <=? p_stock p0)) |];
      cbn [p_id]; destruct (p_id p0 =? pid); reflexivity. }
  rewrite (stock_of_map db _ h pid); [| | exact Hh].
  - rewrite Hf. cbn [option_map]. eexists. split; [reflexivity |].
    assert (Heq : (p_id p =? pid) = true) by (apply Z.eqb_eq; exact Hid).
    unfold h, take_stock, stock_trigger, int64.
    destruct (has_name update_product_stock (triggers db)).
    + rewrite Heq. destruct (Z.leb_spec q (p_stock p)); [| lia].
      cbn [andb p_id]. rewrite Heq. cbn [p_stock]. lia.
    + rewrite Heq. cbn [p_stock]. lia.
  - unfold placed. cbn [fold_left set_audit_log products].
    unfold place_line. cbn [set_order_items set_orders triggers product_id
                            quantity].
    unfold h.
    destruct (has_name update_product_stock (triggers db)).
    + cbn [set_products products map_rows rows]. rewrite map_map.
      reflexivity.
    + reflexivity.
Qed.

End OrderStock2.

Lemma accepted_order_rows_witness :
  let db' := snd (process_order_transaction shop 1 [mkItem 1 1; mkItem 2 3]) in
  process_order_transaction shop 1 [mkItem 1 1; mkItem 2 3] = (Ok true, db')
  /\ exists new_items,
       rows (order_items db') = rows (order_items shop) ++ new_items
       /\ map line_of new_items = [mkItem 1 1; mkItem 2 3].
Proof.
  intros db'.
  assert (Hrun : process_order_transaction shop 1 [mkItem 1 1; mkItem 2 3]
                 = (Ok true, db')) by (vm_compute; reflexivity).
  split; [exact Hrun |].
  destruct (accepted_order_rows shop db' 1 [mkItem 1 1; mkItem 2 3] Hrun)
    as (new_items & Hrows & Hmap & _).
  exists new_items. split; assumption.
Defined.

Lemma shop_storable (items : list line_item) :
  (forall item, In item items ->
     int64 (product_id item) /\ int64 (quantity item)) ->
  (List.length items <= 5)%nat ->
  storable shop 1 items /\ storable shop_with_triggers 1 items.
Proof.
  intros Hitems Hlen.
  assert (Hroom : forall n, (n <= 5)%nat -> 1 + Z.of_nat n <= 2 ^ 63).
  { intros n Hn. change (2 ^ 63) with 9223372036854775808. lia. }
  split; (split; [unfold int64; lia |]); (split; [exact Hitems |]);
    (split; [exact (Hroom 1%nat ltac:(lia)) |]);
    (split; [exact (Hroom _ Hlen) | exact (Hroom 1%nat ltac:(lia))]).
Qed.

Lemma small_int64 (z : Z) : -1000 <= z <= 1000 -> int64 z.
Proof. unfold int64. lia. Qed.

(** Two lines on product 1, stock 3: one and two pieces leave none. *)
Lemma accepted_order_stock_without_trigger_witness :
  let items := [mkItem 1 1; mkItem 1 2] in
  let db' := snd (process_order_transaction shop 1 items) in
  has_name update_product_stock (triggers shop) = false
  /\ storable shop 1 items
  /\ stock_in_range shop 1 items
  /\ process_order_transaction shop 1 items = (Ok true, db')
  /\ stock_of db' 1 = Some 0.
Proof.
  intros items db'.
  assert (Htrig : has_name update_product_stock (triggers shop) = false)
    by reflexivity.
  assert (Hbind : storable shop 1 items).
  { apply shop_storable; [| cbn; lia].
    intros item [<- | [<- | []]]; split; apply small_int64; cbn; lia. }
  assert (Hrange : stock_in_range shop 1 items).
  { intros n p [<- | [<- | []]]; apply small_int64;
      destruct n as [| [| [| n]]]; cbn; lia. }
  assert (Hrun : process_order_transaction shop 1 items = (Ok true, db'))
    by (vm_compute; reflexivity).
  split; [exact Htrig |]. split; [exact Hbind |]. split; [exact Hrange |].
  split; [exact Hrun |].
  rewrite (proj1 (accepted_order_stock_without_trigger shop db' 1 items
                    Htrig Hbind Hrange Hrun 1)).
  reflexivity.
Defined.

Lemma accepted_order_stock_with_trigger_witness :
  let items := [mkItem 1 1; mkItem 2 3] in
  let db' := snd (process_order_transaction shop_with_triggers 1 items) in
  has_name update_product_stock (triggers shop_with_triggers) = true
  /\ NoDup (map p_id (rows (products shop_with_triggers)))
  /\ NoDup (map product_id items)
  /\ storable shop_with_triggers 1 items
  /\ stock_in_range shop_with_triggers 2 items
  /\ process_order_transaction shop_with_triggers 1 items = (Ok true, db')
  /\ stock_of db' 2 = Some 4.
Proof.
  intros items db'.
  assert (Htrig : has_name update_product_stock (triggers shop_with_triggers)
                  = true) by reflexivity.
  assert (Hkey : NoDup (map p_id (rows (products shop_with_triggers)))).
  { cbn. repeat constructor; cbn; intuition discriminate. }
  assert (Hlines : NoDup (map product_id items)).
  { cbn. repeat constructor; cbn; intuition discriminate. }
  assert (Hbind : storable shop_with_triggers 1 items).
  { apply shop_storable; [| cbn; lia].
    intros item [<- | [<- | []]]; split; apply small_int64; cbn; lia. }
  assert (Hrange : stock_in_range shop_with_triggers 2 items).
  { intros n p [<- | [<- | []]]; apply small_int64;
      destruct n as [| [| [| n]]]; cbn; lia. }
  assert (Hrun : process_order_transaction shop_with_triggers 1 items
                 = (Ok true, db')) by (vm_compute; reflexivity).
  split; [exact Htrig |]. split; [exact Hkey |]. split; [exact Hlines |].
  split; [exact Hbind |]. split; [exact Hrange |]. split; [exact Hrun |].
  rewrite (proj1 (accepted_order_stock_with_trigger shop_with_triggers db' 1
                    items Htrig Hkey Hlines Hbind Hrange Hrun 2)).
  reflexivity.
Defined.

(** Minus four pieces of product 1: accepted, stock 3 becomes 7. *)
Lemma negative_quantity_raises_stock_witness :
  let result := process_order_transaction shop 1 [mkItem 1 (-4)] in
  find_product shop 1 = Some (mkProduct 1 "Product_0_abcd" "Books" 1999 3)
  /\ -4 < 0 /\ 0 <= 3
  /\ storable shop 1 [mkItem 1 (-4)]
  /\ 3 - 2 * -4 < 2 ^ 63
  /\ fst result = Ok true
  /\ exists s, stock_of (snd result) 1 = Some s /\ 3 < s /\ int64 s.
Proof.
  intros result.
  assert (Hf : find_product shop 1
               = Some (mkProduct 1 "Product_0_abcd" "Books" 1999 3))
    by reflexivity.
  assert (Hbind : storable shop 1 [mkItem 1 (-4)]).
  { apply shop_storable; [| cbn; lia].
    intros item [<- | []]; split; apply small_int64; cbn; lia. }
  assert (Hmax : 3 - 2 * -4 < 2 ^ 63) by reflexivity.
  split; [exact Hf |]. split; [lia |]. split; [lia |].
  split; [exact Hbind |]. split; [exact Hmax |].
  exact (negative_quantity_raises_stock shop 1 1 (-4) _ Hf
           ltac:(lia) ltac:(cbn; lia) Hbind Hmax).
Defined.

(** One piece of product 1 and three of product 2, both in stock:
    accepted. *)
Lemma process_order_all_or_nothing_witness :
  let items := [mkItem 1 1; mkItem 2 3] in
  storable shop 1 items
  /\ (forall item, In item items -> 0 < quantity item)
  /\ (forall item, In item items -> ~ unavailable shop item)
  /\ fst (process_order_transaction shop 1 items) = Ok true.
Proof.
  intros items.
  assert (Hbind : storable shop 1 items).
  { apply shop_storable; [| cbn; lia].
    intros item [<- | [<- | []]]; split; apply small_int64; cbn; lia. }
  assert (Hpos : forall item, In item items -> 0 < quantity item).
  { intros item [<- | [<- | []]]; cbn; lia. }
  assert (Hall : forall item, In item items -> ~ unavailable shop item).
  { intros item [<- | [<- | []]]; cbn; lia. }
  split; [exact Hbind |]. split; [exact Hpos |]. split; [exact Hall |].
  exact (proj2 (proj2 (process_order_all_or_nothing shop 1 items))
           Hbind Hpos Hall).
Defined.

(** ** hash_password and create_user_secure *)

Lemma encode_char_encodable (c : Z) :
  encode_char c = None <-> encodable c = false.
Proof.
  unfold encode_char, encodable.
  destruct (Z.ltb_spec c 0), (Z.leb_spec 0 c); try lia;
    cbn [andb negb]; [tauto |].
  destruct (Z.ltb_spec c 128), (Z.ltb_spec c 2048), (Z.ltb_spec c 65536),
    (Z.ltb_spec c 1114112), (Z.leb_spec 55296 c), (Z.leb_spec c 57343);
    try lia; cbn [andb negb]; split; intros E; try discriminate; reflexivity.
Qed.

Lemma encode_ok_iff (p : pystr) :
  (exists bytes, encode p = Ok bytes) <-> forallb encodable p = true.
Proof.
  induction p as [| c p IH]; cbn [encode forallb].
  - split; [reflexivity | intros _; eexists; reflexivity].
  - pose proof (encode_char_encodable c) as Hc.
    destruct (encode_char c) as [bs |] eqn:Ec.
    + assert (Hen : encodable c = true).
      { destruct (encodable c); [reflexivity |].
        destruct Hc as [_ Hc]. discriminate (Hc eq_refl). }
      rewrite Hen. cbn [andb]. rewrite <- IH.
      destruct (encode p) as [bs' | e]; split.
      * intros _. eexists. reflexivity.
      * intros _. eexists. reflexivity.
      * intros (x & Hx). discriminate.
      * intros (x & Hx). discriminate.
    + rewrite (proj1 Hc eq_refl). cbn [andb].
      split; [intros (x & Hx); discriminate | discriminate].
Qed.

Lemma encode_raise (p : pystr) (e : exn) :
  encode p = Raise e -> e = UnicodeEncodeError.
Proof.
  destruct p as [| c p]; cbn [encode]; [discriminate |].
  destruct (encode_char c); [destruct (encode p) |]; intros E;
    try discriminate; injection E as <-; reflexivity.
Qed.

Lemma be_bytes_range (n : nat) (x b : Z) :
  In b (SHA256.be_bytes n x) -> 0 <= b < 256.
Proof.
  unfold SHA256.be_bytes. intros Hin. apply in_map_iff in Hin.
  destruct Hin as (i & <- & _).
  change 255 with (Z.ones 8). rewrite Z.land_ones by lia.
  apply Z.mod_pos_bound. reflexivity.
Qed.

Lemma sha256_range (msg : list Z) (b : Z) :
  In b (SHA256.sha256 msg) -> 0 <= b < 256.
Proof.
  unfold SHA256.sha256. intros Hin. apply in_flat_map in Hin.
  destruct Hin as (w & _ & Hin). exact (be_bytes_range _ _ _ Hin).
Qed.

Lemma hex_digit_lower (d : Z) :
  0 <= d < 16 -> is_hex_lower (SHA256.hex_digit d) = true.
Proof.
  intros Hd.
  assert (Hcases : d = 0 \/ d = 1 \/ d = 2 \/ d = 3 \/ d = 4 \/ d = 5
                   \/ d = 6 \/ d = 7 \/ d = 8 \/ d = 9 \/ d = 10 \/ d = 11
                   \/ d = 12 \/ d = 13 \/ d = 14 \/ d = 15) by lia.
  repeat (destruct Hcases as [-> | Hcases]; [reflexivity |]).
  subst. reflexivity.
Qed.

Lemma hexdigest_lower (bs : list Z) :
  (forall b, In b bs -> 0 <= b < 256) ->
  all_chars is_hex_lower (SHA256.hexdigest bs) = true.
Proof.
  induction bs as [| b bs IH]; intros Hr; cbn [SHA256.hexdigest all_chars].
  - reflexivity.
  - assert (Hb : 0 <= b < 256) by (apply Hr; left; reflexivity).
    rewrite !hex_digit_lower, IH.
    + reflexivity.
    + intros b' Hin. apply Hr. right. exact Hin.
    + change 15 with (Z.ones 4). rewrite Z.land_ones by lia.
      apply Z.mod_pos_bound. reflexivity.
    + rewrite Z.shiftr_div_pow2 by lia. change (2 ^ 4) with 16.
      split; [apply Z.div_pos; lia | apply Z.div_lt_upper_bound; lia].
Qed.

Lemma hash_password_encodable (password : pystr) :
  forallb encodable password = true ->
  exists h, hash_password password = Ok h
            /\ String.length h = 64%nat
            /\ all_chars is_hex_lower h = true.
Proof.
  unfold hash_password. intros Hp.
  apply encode_ok_iff in Hp. destruct Hp as (bytes & ->).
  eexists. split; [reflexivity |]. split.
  - rewrite hexdigest_length, sha256_length. reflexivity.
  - apply hexdigest_lower. apply sha256_range.
Qed.

Lemma hash_password_unencodable (password : pystr) :
  forallb encodable password = false ->
  hash_password password = Raise UnicodeEncodeError.
Proof.
  unfold hash_password. intros Hp.
  destruct (encode password) as [bytes | e] eqn:E.
  - assert (Hok : forallb encodable password = true)
      by (apply encode_ok_iff; eexists; exact E).
    congruence.
  - rewrite (encode_raise _ _ E). reflexivity.
Qed.

(** X7. [hash_password] fails exactly on the strings UTF-8 cannot
    encode (a lone surrogate), with UnicodeEncodeError; on every other
    string it returns 64 lowercase hexadecimal digits. *)
Theorem hash_password_outcome (password : pystr) :
  (forallb encodable password = true ->
   exists h, hash_password password = Ok h
             /\ String.length h = 64%nat
             /\ all_chars is_hex_lower h = true)
  /\ (forallb encodable password = false ->
      hash_password password = Raise UnicodeEncodeError).
Proof.
  split; [apply hash_password_encodable | apply hash_password_unencodable].
Qed.

Lemma hash_password_outcome_witness :
  forallb encodable (pystr_of_string "MySecret123") = true
  /\ (exists h, hash_password (pystr_of_string "MySecret123") = Ok h
                /\ String.length h = 64%nat
                /\ all_chars is_hex_lower h = true)
  /\ forallb encodable [97; 55296] = false
  /\ hash_password [97; 55296] = Raise UnicodeEncodeError.
Proof.
  assert (H1 : forallb encodable (pystr_of_string "MySecret123") = true)
    by reflexivity.
  assert (H2 : forallb encodable [97; 55296] = false) by reflexivity.
  split; [exact H1 |].
  split; [exact (proj1 (hash_password_outcome _) H1) |].
  split; [exact H2 |].
  exact (proj2 (hash_password_outcome _) H2).
Defined.

Section CreateUser.

Context {R : Type} `{Num R}.




End CreateUser.



(** ** select_active_users, create_triggers, modify_database_structure *)

Section MoreFacts.

Context {R : Type} `{Num R}.

Lemma firstn_In {A} (n : nat) (l : list A) (x : A) :
  In x (firstn n l) -> In x l.
Proof.
  intros Hin. rewrite <- (firstn_skipn n l). apply in_or_app. left. exact Hin.
Qed.

(** X10. [select_active_users] changes nothing and returns at most ten
    rows, each the id, username and email of a stored user whose status
    is active.  When at most ten users are active, every one of them is
    returned. *)
Theorem select_active_users_rows (db : DB R) :
  exists l,
    select_active_users db = (Ok l, db)
    /\ (List.length l <= 10)%nat
    /\ (forall a, In a l ->
          au_status a = Active
          /\ exists u, In u (rows (users db)) /\ a = active_user_of u)
    /\ ((List.length (filter is_active (rows (users db))) <= 10)%nat ->
        forall u, In u (rows (users db)) -> u_status u = Active ->
                  In (active_user_of u) l).
Proof.
  eexists. split; [reflexivity |].
  fold is_active.
  split; [| split].
  - rewrite length_map, length_firstn. lia.
  - intros a Hin. apply in_map_iff in Hin. destruct Hin as (u & <- & Hin).
    apply firstn_In in Hin. apply filter_In in Hin.
    destruct Hin as [Hin Hact]. split.
    + cbn. apply is_active_status. exact Hact.
    + exists u. split; [exact Hin | reflexivity].
  - intros Hfew u Hin Hact. apply in_map.
    rewrite firstn_all2 by exact Hfew.
    apply filter_In. split; [exact Hin |].
    unfold is_active. rewrite Hact. reflexivity.
Qed.

Lemma has_name_add_other n m l :
  has_name n l = true -> has_name n (add_if_absent m l) = true.
Proof.
  intros Hn. unfold add_if_absent. destruct (has_name m l); [exact Hn |].
  unfold has_name. rewrite existsb_app. unfold has_name in Hn. rewrite Hn.
  reflexivity.
Qed.

(** X11. [create_triggers] never fails.  Afterwards the three triggers
    exist, every trigger that existed before still does, and tables,
    columns and views are as they were; a second call changes
    nothing. *)
Theorem create_triggers_installs (db : DB R) :
  let result := create_triggers db in
  fst result = Ok tt
  /\ has_name audit_user_changes (triggers (snd result)) = true
  /\ has_name update_product_stock (triggers (snd result)) = true
  /\ has_name prevent_order_deletion (triggers (snd result)) = true
  /\ (forall n, has_name n (triggers db) = true ->
                has_name n (triggers (snd result)) = true)
  /\ snd result = set_triggers (triggers (snd result)) db
  /\ create_triggers (snd result) = (Ok tt, snd result).
Proof.
  cbv zeta.
  assert (Heq : create_triggers db
                = (Ok tt,
                   set_triggers
                     (add_if_absent prevent_order_deletion
                        (add_if_absent update_product_stock
                           (add_if_absent audit_user_changes (triggers db))))
                     db)) by reflexivity.
  rewrite Heq. cbn [fst snd set_triggers triggers].
  split; [reflexivity |].
  split; [do 2 apply has_name_add_other; apply has_name_add_if_absent |].
  split; [apply has_name_add_other; apply has_name_add_if_absent |].
  split; [apply has_name_add_if_absent |].
  split; [intros n Hn; do 3 apply has_name_add_other; exact Hn |].
  split; [reflexivity |].
  assert (Heq2 : forall d : DB R,
             create_triggers d
             = (Ok tt,
                set_triggers
                  (add_if_absent prevent_order_deletion
                     (add_if_absent update_product_stock
                        (add_if_absent audit_user_changes (triggers d))))
                  d)) by reflexivity.
  rewrite Heq2. cbn [set_triggers triggers users products orders order_items
                     audit_log users_columns views].
  rewrite (add_if_absent_present audit_user_changes)
    by (do 2 apply has_name_add_other; apply has_name_add_if_absent).
  rewrite (add_if_absent_present update_product_stock)
    by (apply has_name_add_other; apply has_name_add_if_absent).
  rewrite (add_if_absent_present prevent_order_deletion)
    by apply has_name_add_if_absent.
  reflexivity.
Qed.

Lemma create_triggers_state (db : DB R) :
  exists trigs,
    snd (create_triggers db) = set_triggers trigs db
    /\ has_name prevent_order_deletion trigs = true.
Proof.
  eexists. split; [reflexivity |]. apply has_name_add_if_absent.
Qed.

(** X12. Once [create_triggers] has run, on any database, a DELETE that
    selects an order with item rows is refused and changes nothing,
    and a DELETE that selects only orders without item rows removes
    exactly the selected orders. *)
Theorem delete_after_create_triggers (db : DB R) (sel : order R -> bool) :
  let c := mkConn (snd (create_triggers db)) (snd (create_triggers db))
                  false [] 0%nat in
  ((exists o, In o (rows (orders db)) /\ sel o = true
              /\ items_of db (o_id o) <> []) ->
   exists c', sql_delete_orders sel c = (Raise (IntegrityError
                                         "Cannot delete order with items"), c')
              /\ cur c' = cur c /\ disk c' = disk c)
  /\ ((forall o, In o (rows (orders db)) -> sel o = true ->
                 items_of db (o_id o) = []) ->
      exists c', sql_delete_orders sel c = (Ok tt, c')
                 /\ rows (orders (cur c'))
                    = filter (fun o => negb (sel o)) (rows (orders db))
                 /\ order_items (cur c') = order_items db).
Proof.
  cbv zeta.
  destruct (create_triggers_state db) as (trigs & Hdb & Hhas).
  rewrite Hdb. unfold sql_delete_orders. cbn [cur set_triggers orders].
  split.
  - intros (o & Hin & Hsel & Hitems).
    assert (Hex : existsb
              (fun o' => sel o' && deletion_aborts (set_triggers trigs db) o')
              (rows (orders db)) = true).
    { apply existsb_exists. exists o. split; [exact Hin |].
      unfold deletion_aborts. cbn [set_triggers triggers].
      rewrite Hsel, Hhas. cbn [andb]. apply Z.ltb_lt.
      change (items_of (set_triggers trigs db) (o_id o))
        with (items_of db (o_id o)).
      destruct (items_of db (o_id o)); [congruence | cbn; lia]. }
    rewrite Hex. eexists. split; [reflexivity |]. split; reflexivity.
  - intros Hno.
    assert (Hex : existsb
              (fun o' => sel o' && deletion_aborts (set_triggers trigs db) o')
              (rows (orders db)) = false).
    { apply not_true_is_false. intros Hex.
      apply existsb_exists in Hex. destruct Hex as (o & Hin & Ho).
      apply andb_true_iff in Ho. destruct Ho as [Hsel Hab].
      unfold deletion_aborts in Hab. apply andb_true_iff in Hab.
      destruct Hab as [_ Hab].
      change (items_of (set_triggers trigs db) (o_id o))
        with (items_of db (o_id o)) in Hab.
      rewrite (Hno o Hin Hsel) in Hab. discriminate. }
    rewrite Hex. eexists. split; [reflexivity |]. split; reflexivity.
Qed.

(** X13. [modify_database_structure] never raises, whatever the schema.
    Afterwards users has the column last_login and the view
    active_user_orders exists; the columns that were there are kept in
    place, at most one is appended; no table and no trigger changes. *)
Theorem modify_database_structure_ensures (db : DB R) :
  let result := modify_database_structure db in
  fst result = Ok tt
  /\ has_name "last_login" (users_columns (snd result)) = true
  /\ has_name "active_user_orders" (views (snd result)) = true
  /\ (users_columns (snd result) = users_columns db
      \/ users_columns (snd result) = users_columns db ++ ["last_login"])
  /\ users (snd result) = users db
  /\ products (snd result) = products db
  /\ orders (snd result) = orders db
  /\ order_items (snd result) = order_items db
  /\ audit_log (snd result) = audit_log db
  /\ triggers (snd result) = triggers db.
Proof.
  cbv zeta. rewrite modify_database_structure_eq. cbn [fst snd].
  destruct (has_name "last_login" (users_columns db)) eqn:Hcol;
    cbn [set_views set_users_columns users_columns views users products
         orders order_items audit_log triggers].
  - split; [reflexivity |]. split; [exact Hcol |].
    split; [apply has_name_add_if_absent |].
    split; [left; reflexivity |]. repeat split.
  - split; [reflexivity |]. split; [apply has_name_app_r |].
    split; [apply has_name_add_if_absent |].
    split; [right; reflexivity |]. repeat split.
Qed.

End MoreFacts.

(** ** Step 10 of run_demonstration *)

Section Demonstration.

Context {R : Type} `{Num R}.

Lemma find_product_NoDup (d : DB R) (p : product R) :
  NoDup (map p_id (rows (products d))) ->
  In p (rows (products d)) ->
  find_product d (p_id p) = Some p.
Proof.
  intros Hkey Hin. unfold find_product.
  destruct (find (fun x => p_id x =? p_id p) (rows (products d)))
    as [p' |] eqn:Ef.
  - apply find_some in Ef. destruct Ef as [Hin' Hid].
    apply Z.eqb_eq in Hid.
    rewrite (NoDup_map_eq p_id _ Hkey p' p Hin' Hin Hid). reflexivity.
  - exfalso. apply (find_none _ _ Ef) in Hin.
    rewrite Z.eqb_refl in Hin. discriminate.
Qed.

(** X14. Step 10 of [run_demonstration] reads [product_ids[1]] after
    checking only that the list is not empty: when exactly one product
    has stock above 5 and there is an active user, the step raises
    IndexError and no order is placed.  With no such product, or with no
    active user, the step does nothing. *)
Theorem run_demonstration_transaction_short (db : DB R)
    (users : list active_user) :
  (List.length (filter (fun p => 5 <? p_stock p) (rows (products db)))
   = 1%nat ->
   users <> [] ->
   run_demonstration_transaction db users
   = (Raise (IndexError "list index out of range"), db))
  /\ (filter (fun p => 5 <? p_stock p) (rows (products db)) = []
      \/ users = [] ->
      run_demonstration_transaction db users = (Ok tt, db)).
Proof.
  unfold run_demonstration_transaction, stocked_product_ids. split.
  - intros Hone Husers.
    destruct (filter _ (rows (products db))) as [| p [| q l]];
      try discriminate.
    destruct users as [| u rest]; [congruence |]. reflexivity.
  - intros [-> | ->]; [reflexivity |].
    destruct (map p_id _); reflexivity.
Qed.


End Demonstration.

Lemma select_active_users_rows_witness :
  exists l,
    select_active_users shop = (Ok l, shop)
    /\ (List.length (filter is_active (rows (users shop))) <= 10)%nat
    /\ In (mkActiveUser 1 "user_0_abcde" "user_0_abcde@example.com" Active) l.
Proof.
  destruct (select_active_users_rows shop) as (l & Hrun & _ & _ & Hall).
  assert (Hfew : (List.length (filter is_active (rows (users shop))) <= 10)%nat)
    by (cbn; lia).
  exists l. split; [exact Hrun |]. split; [exact Hfew |].
  apply (Hall Hfew (mkUser 1 "user_0_abcde" "user_0_abcde@example.com"
                      "1f489582f7ea4c208b70219a2bb6a322227a7516630530a10ed7f2710cfbe447"
                      Active)).
  - left. reflexivity.
  - reflexivity.
Defined.

(** The order of the shop cannot be deleted once the triggers are in. *)
Lemma delete_after_create_triggers_witness :
  let db := snd (process_order_transaction shop 1 [mkItem 2 2]) in
  let c := mkConn (snd (create_triggers db)) (snd (create_triggers db))
                  false [] 0%nat in
  (exists o, In o (rows (orders db)) /\ (o_id o =? 1) = true
             /\ items_of db (o_id o) <> [])
  /\ exists c', sql_delete_orders (fun o => o_id o =? 1) c
                = (Raise (IntegrityError "Cannot delete order with items"), c')
                /\ cur c' = cur c /\ disk c' = disk c.
Proof.
  intros db c.
  assert (Hex : exists o, In o (rows (orders db)) /\ (o_id o =? 1) = true
                          /\ items_of db (o_id o) <> []).
  { eexists. split; [left; reflexivity |]. split; [reflexivity |].
    discriminate. }
  split; [exact Hex |].
  exact (proj1 (delete_after_create_triggers db (fun o => o_id o =? 1)) Hex).
Defined.

(** The shop has two products with stock 3 and 10: one above 5. *)
Lemma run_demonstration_transaction_short_witness :
  let users := [mkActiveUser 1 "user_0_abcde" "user_0_abcde@example.com"
                             Active] in
  List.length (filter (fun p => 5 <? p_stock p) (rows (products shop)))
  = 1%nat
  /\ users <> []
  /\ run_demonstration_transaction shop users
     = (Raise (IndexError "list index out of range"), shop).
Proof.
  intros users.
  assert (H1 : List.length (filter (fun p => 5 <? p_stock p)
                                   (rows (products shop))) = 1%nat)
    by reflexivity.
  assert (H2 : users <> []) by discriminate.
  split; [exact H1 |]. split; [exact H2 |].
  exact (proj1 (run_demonstration_transaction_short shop users) H1 H2).
Defined.


(** ** More of generate_dummy_data *)

Section GeneratorMore.

Context {R : Type} `{Num R}.
Variable rand : nat -> nat.

Tactic Notation "bind_inv" hyp(E) "as" ident(a) ident(c) ident(E1) :=
  apply bind_ok in E; destruct E as (a & c & E1 & E).

Lemma triple_fold_each_count {A S} (I : nat -> S -> conn R -> Prop)
    (l : list A) (body : S -> A -> M R S) :
  (forall k s x, triple (I k s) (body s x) (fun s' => I (Datatypes.S k) s')) ->
  forall k s, triple (I k s) (fold_each l body s)
                     (fun s' => I (k + List.length l)%nat s').
Proof.
  intros Hbody. induction l as [| x rest IH]; intros k s.
  - cbn [fold_each List.length]. rewrite Nat.add_0_r.
    apply (triple_ret (fun s' => I k s')).
  - cbn [fold_each List.length]. eapply triple_bind.
    + apply Hbody.
    + intros s'. rewrite <- Nat.add_succ_comm. apply IH.
Qed.

Lemma seeding_same_db (db0 : DB R) i j (c c' : conn R) :
  same_db c c' -> seeding db0 i j c -> seeding db0 i j c'.
Proof. unfold same_db, seeding. intros (_ & -> & _) Hs. exact Hs. Qed.

Lemma generate_users_seeding (db0 : DB R) (num_users : nat) :
  triple (seeding db0 0 0) (generate_users rand num_users)
         (fun _ => seeding db0 num_users 0).
Proof.
  unfold generate_users, for_range.
  pose proof (triple_for_each_count (fun k => seeding db0 k 0)
                (seq 0 num_users)) as Hloop.
  intros c u c' Hs E.
  eapply Hloop in E; [| | exact Hs].
  - rewrite length_seq in E. exact E.
  - clear. intros k i c [] c' Hs E.
    bind_inv E as suffix c1 E1. apply random_string_ok in E1.
    bind_inv E as hash c2 E2. apply lift_ok in E2. subst c2.
    bind_inv E as status c3 E3. apply random_choice_ok in E3.
    destruct E3 as [_ E3].
    pose proof (seeding_same_db db0 _ _ _ _ (same_db_trans _ _ _ E1 E3) Hs)
      as (Hu & Hp & Hst & Hnd & Hsch).
    unfold sql_insert_user in E.
    destruct (existsb _ _); [unfold dml_fail in E; discriminate |].
    destruct (existsb _ _); [unfold dml_fail in E; discriminate |].
    unfold dml in E. injection E as <-.
    unfold seeding. cbn [cur set_users users products insert_row rows].
    split; [rewrite length_app, Hu; cbn; lia |].
    split; [exact Hp |]. split; [exact Hst |]. split; [exact Hnd |].
    exact Hsch.
Qed.

Lemma generate_products_seeding (db0 : DB R) (num_users num_products : nat) :
  triple (seeding db0 num_users 0) (generate_products rand num_products)
         (fun _ => seeding db0 num_users num_products).
Proof.
  unfold generate_products, for_range.
  pose proof (triple_for_each_count (fun k => seeding db0 num_users k)
                (seq 0 num_products)) as Hloop.
  intros c u c' Hs E.
  eapply Hloop in E; [| | exact Hs].
  - rewrite length_seq in E. exact E.
  - clear. intros k i c [] c' Hs E.
    bind_inv E as suffix c1 E1. apply random_string_ok in E1.
    bind_inv E as category c2 E2. apply random_choice_ok in E2.
    destruct E2 as [_ E2].
    bind_inv E as price c3 E3. apply random_price_ok in E3.
    bind_inv E as stock c4 E4. apply random_randint_ok in E4; [| lia].
    destruct E4 as [Hstock E4].
    pose proof (seeding_same_db db0 _ _ _ _
                  (same_db_trans _ _ _ E1
                     (same_db_trans _ _ _ E2 (same_db_trans _ _ _ E3 E4))) Hs)
      as (Hu & Hp & Hst & Hnd & Hsch).
    unfold sql_insert_product, dml in E. injection E as <-.
    unfold seeding. cbn [cur set_products users products].
    split; [exact Hu |].
    split; [unfold insert_row; cbn [rows]; rewrite length_app, Hp; cbn; lia |].
    split.
    { intros p Hin. unfold insert_row in Hin. cbn [rows] in Hin.
      apply in_app_or in Hin. destruct Hin as [Hin | [<- | []]].
      - apply Hst. exact Hin.
      - cbn [p_stock]. lia. }
    split; [apply (insert_row_NoDup p_id); [reflexivity | exact Hnd] |].
    exact Hsch.
Qed.

(** What the seeding phase leaves, beyond [seeded]. *)
Lemma seed_users_products_seeding (db : DB R) seed num_users num_products c :
  seed_users_products rand num_users num_products
                      (mkConn db db false [] seed) = (Ok tt, c) ->
  seeding db num_users num_products c.
Proof.
  unfold seed_users_products. intros E.
  rewrite (bind_step _ _ _ tt _ (clear_existing_data_eq db [] seed)) in E.
  bind_inv E as u c1 E1. destruct u.
  assert (H0 : seeding db 0 0 (mkConn (cleared db) (cleared db) false [] seed)).
  { unfold seeding, schema_kept. cbn.
    split; [reflexivity |]. split; [reflexivity |].
    split; [intros p [] |]. split; [constructor |]. repeat split. }
  apply (generate_users_seeding db num_users _ _ _ H0) in E1.
  apply (generate_products_seeding db num_users num_products _ _ _ E1) in E.
  exact E.
Qed.

(** *** The order loop once more *)

Lemma stock_trigger_keeps pid q (p : product R) :
  p_id (stock_trigger pid q p) = p_id p
  /\ p_price (stock_trigger pid q p) = p_price p.
Proof.
  unfold stock_trigger.
  destruct ((p_id p =? pid) && (q <=? p_stock p)); split; reflexivity.
Qed.

Lemma stock_trigger_bounds pid q (p : product R) :
  0 <= q -> 0 <= p_stock p <= 500 ->
  0 <= p_stock (stock_trigger pid q p) <= 500.
Proof.
  intros Hq Hp. unfold stock_trigger.
  destruct (p_id p =? pid); cbn [andb]; [| exact Hp].
  destruct (Z.leb_spec q (p_stock p)); cbn [p_stock]; lia.
Qed.

Lemma insert_order_item_kept (db0 : DB R) ps oid pid q price (c c' : conn R) :
  0 <= q ->
  sql_insert_order_item oid pid q price c = (Ok tt, c') ->
  catalogue_kept ps (cur c) -> schema_kept db0 (cur c) ->
  catalogue_kept ps (cur c') /\ schema_kept db0 (cur c').
Proof.
  intros Hq E (Hps & Hst) Hsch.
  unfold sql_insert_order_item, dml in E. injection E as <-.
  cbn [cur set_order_items triggers].
  destruct (has_name update_product_stock (triggers (cur c))).
  - split; [| exact Hsch].
    unfold catalogue_kept, product_prices.
    cbn [set_products products map_rows rows]. split.
    + rewrite map_map. rewrite <- Hps. unfold product_prices.
      apply map_ext. intros p.
      destruct (stock_trigger_keeps pid q p) as [-> ->]. reflexivity.
    + intros p Hin. apply in_map_iff in Hin. destruct Hin as (p0 & <- & Hin).
      apply stock_trigger_bounds; [exact Hq | apply Hst; exact Hin].
  - split; [split; [exact Hps | exact Hst] | exact Hsch].
Qed.

Lemma generate_item_lining (db0 : DB R) us ps ords oid k total i :
  In oid (map o_id (rows ords)) ->
  triple (fun c => adding_items us ords oid total c
                   /\ lining db0 ps ords oid k c)
         (generate_item rand ps oid total i)
         (fun total' c => adding_items us ords oid total' c
                          /\ lining db0 ps ords oid (Datatypes.S k) c).
Proof.
  intros Hoid c total' c' (Hadd & Hcat & Hsch & Hsound & Hold & Hcount) E.
  split; [exact (generate_item_adding rand us ords oid ps total i c total' c'
                   Hadd E) |].
  unfold generate_item in E.
  bind_inv E as product c0 E0. apply random_choice_ok in E0.
  destruct E0 as (Hprod & _ & Hc0 & _).
  bind_inv E as quantity c1 E1. apply random_randint_ok in E1; [| lia].
  destruct E1 as (Hq & _ & Hc1 & _).
  bind_inv E as u c2 E2. destruct u.
  unfold ret in E. injection E as _ <-.
  assert (Hcur : cur c1 = cur c) by congruence.
  rewrite <- Hcur in Hcat, Hsch.
  assert (Hq0 : 0 <= quantity) by lia.
  destruct (insert_order_item_kept db0 ps _ _ _ _ _ _ Hq0 E2 Hcat Hsch)
    as [Hcat' Hsch'].
  apply insert_order_item_effect in E2.
  destruct E2 as (_ & _ & _ & _ & Hitems & _).
  rewrite Hcur in Hitems.
  unfold lining. split; [exact Hcat' |]. split; [exact Hsch' |].
  split; [| split].
  - intros it Hin. rewrite Hitems in Hin.
    apply in_app_or in Hin. destruct Hin as [Hin | [<- | []]].
    + apply Hsound. exact Hin.
    + unfold item_sound. cbn [oi_product_id oi_price oi_quantity oi_order_id].
      destruct product as [pid price]. cbn [fst snd].
      split; [exact Hprod |]. split; [exact Hq | exact Hoid].
  - intros o Hin Hne.
    rewrite (items_of_app (cur c) (cur c2) _ (o_id o) Hitems).
    cbn [oi_order_id].
    destruct (Z.eqb_spec oid (o_id o)) as [Heq | _]; [congruence |].
    rewrite app_nil_r. apply Hold; assumption.
  - rewrite (items_of_app (cur c) (cur c2) _ oid Hitems).
    cbn [oi_order_id]. rewrite Z.eqb_refl, length_app, Hcount. cbn. lia.
Qed.

Lemma map_o_id_set_total (total : R) (oid : Z) (l : list (order R)) :
  map o_id (map (set_total total oid) l) = map o_id l.
Proof.
  rewrite map_map. apply map_ext. intros o. unfold set_total.
  destruct (o_id o =? oid); reflexivity.
Qed.

Lemma generate_order_ordering (db0 : DB R) us ps k i :
  triple (fun c => generating us k c /\ ordering db0 ps c)
         (generate_order rand (map u_id (filter is_active us)) ps i)
         (fun _ c => generating us (Datatypes.S k) c /\ ordering db0 ps c).
Proof.
  intros c [] c' (Hgen & Hcat & Hsch & Hnd & Hsound & Hshape) E.
  split; [exact (generate_order_generating rand us ps k i c tt c' Hgen E) |].
  destruct Hgen as (Hus & Hlen & _ & Htot & Hlt & Hact & Hst).
  unfold generate_order in E.
  bind_inv E as user_id c0 E0. apply random_choice_ok in E0.
  destruct E0 as (Huser & _ & Hc0 & _).
  bind_inv E as days c1 E1. apply random_randint_ok in E1; [| lia].
  destruct E1 as (Hdays & _ & Hc1 & _).
  bind_inv E as status c2 E2. apply random_choice_ok in E2.
  destruct E2 as (_ & _ & Hc2 & _).
  assert (Hcur2 : cur c2 = cur c) by congruence.
  bind_inv E as order_id c3 E3. unfold sql_insert_order, dml in E3.
  rewrite Hcur2 in E3. injection E3 as <- <-.
  bind_inv E as n c4 E4. apply random_randint_ok in E4; [| lia].
  destruct E4 as (Hn & _ & Hc4 & Htx4).
  cbn [cur in_tx] in Hc4, Htx4.
  set (oid := next_id o_id (orders (cur c))) in *.
  set (ords := insert_row o_id (fun i0 => mkOrder i0 user_id nzero days status)
                          (orders (cur c))) in *.
  bind_inv E as total c5 E5.
  assert (Hrows : rows ords
                  = rows (orders (cur c))
                    ++ [mkOrder oid user_id nzero days status])
    by reflexivity.
  assert (Hoid : In oid (map o_id (rows ords))).
  { rewrite Hrows, map_app. apply in_or_app. right. left. reflexivity. }
  assert (Hstart : adding_items us ords oid nzero c4).
  { unfold adding_items. rewrite Hc4.
    cbn [set_orders users orders order_items].
    split; [exact Hus |]. split; [reflexivity |]. split; [exact Htx4 |].
    split; [| split; [| split; [| exact Hst]]].
    - intros o Hin Hne. rewrite Hrows in Hin.
      apply in_app_or in Hin. destruct Hin as [Hin | [<- | []]].
      + apply Htot. exact Hin.
      + exfalso. apply Hne. reflexivity.
    - unfold items_of. cbn [order_items].
      rewrite filter_none; [reflexivity |].
      intros it Hin. apply Hlt in Hin. apply Z.eqb_neq. fold oid in Hin. lia.
    - intros it Hin. cbn [order_items] in Hin.
      apply Hlt in Hin. fold oid in Hin. lia. }
  assert (Hline : lining db0 ps ords oid 0 c4).
  { unfold lining. rewrite Hc4.
    split; [exact Hcat |]. split; [exact Hsch |].
    split; [| split].
    - intros it Hin. cbn [set_orders order_items] in Hin.
      destruct (Hsound it Hin) as (A & B & C).
      split; [exact A |]. split; [exact B |].
      rewrite Hrows, map_app. apply in_or_app. left. exact C.
    - intros o Hin Hne. rewrite Hrows in Hin.
      apply in_app_or in Hin. destruct Hin as [Hin | [<- | []]].
      + apply (Hshape o Hin).
      + exfalso. apply Hne. reflexivity.
    - unfold items_of. cbn [set_orders order_items].
      rewrite filter_none; [reflexivity |].
      intros it Hin. apply Hlt in Hin. apply Z.eqb_neq. fold oid in Hin. lia. }
  pose proof (triple_fold_each_count
                (fun j t c => adding_items us ords oid t c
                              /\ lining db0 ps ords oid j c)
                (seq 0 (Z.to_nat n)) (generate_item rand ps oid)
                (fun j t x => generate_item_lining db0 us ps ords oid j t x Hoid)
                0%nat nzero c4 total c5 (conj Hstart Hline) E5)
    as (Hadd5 & Hcat5 & Hsch5 & Hsound5 & Hold5 & Hcount5).
  rewrite length_seq in Hcount5. cbn [Nat.add] in Hcount5.
  destruct Hadd5 as (_ & Hords5 & _).
  unfold sql_update_order_total, dml in E. injection E as <-.
  unfold ordering. cbn [cur set_orders].
  change (items_of (set_orders ?t ?d)) with (items_of d).
  cbn [orders order_items]. rewrite Hords5.
  split; [exact Hcat5 |]. split; [exact Hsch5 |].
  unfold map_rows. cbn [set_orders orders order_items rows].
  split.
  { rewrite map_o_id_set_total. unfold ords.
    apply (insert_row_NoDup o_id); [reflexivity | exact Hnd]. }
  split.
  { intros it Hin. destruct (Hsound5 it Hin) as (A & B & C).
    split; [exact A |]. split; [exact B |].
    rewrite map_o_id_set_total. exact C. }
  intros o' Hin. apply in_map_iff in Hin. destruct Hin as (o & <- & Hin).
  assert (Hid : o_id (set_total total oid o) = o_id o).
  { unfold set_total. destruct (o_id o =? oid); reflexivity. }
  assert (Hd : o_days_ago (set_total total oid o) = o_days_ago o).
  { unfold set_total. destruct (o_id o =? oid); reflexivity. }
  rewrite Hid, Hd. split.
  - destruct (Z.eq_dec (o_id o) oid) as [Heq | Hne].
    + rewrite Heq, Hcount5. lia.
    + apply Hold5; assumption.
  - rewrite Hrows in Hin.
    apply in_app_or in Hin. destruct Hin as [Hin | [<- | []]].
    + apply (Hshape o Hin).
    + cbn [o_days_ago]. exact Hdays.
Qed.

Lemma product_prices_ids (d : DB R) :
  map fst (product_prices d) = map p_id (rows (products d)).
Proof. unfold product_prices. rewrite map_map. reflexivity. Qed.

(** What a normal return of [generate_dummy_data] leaves, beyond
    [generate_dummy_data_ok]. *)
Lemma generate_dummy_data_final (seed : nat) (db : DB R)
    (num_users num_products : nat) (db' : DB R) :
  generate_dummy_data rand seed db num_users num_products = (Ok tt, db') ->
  List.length (rows (users db')) = num_users
  /\ List.length (rows (products db')) = num_products
  /\ NoDup (map p_id (rows (products db')))
  /\ exists c, cur c = db' /\ ordering db (product_prices db') c.
Proof.
  unfold generate_dummy_data, with_connection, generate_dummy_data_body.
  destruct (bind _ _ _) as [r c3] eqn:E. intros Eres.
  injection Eres as -> <-.
  bind_inv E as u c E0. destruct u.
  pose proof (seed_users_products_seeded rand _ _ _ _ _ E0)
    as (Hdisk & Hords & Hitems & Hndu & Hst).
  pose proof (seed_users_products_seeding _ _ _ _ _ E0)
    as (Hnu & Hnp & Hbounds & Hndp & Hsch).
  bind_inv E as u c2 E1. destruct u.
  set (us := rows (users (cur c))).
  set (ps := product_prices (cur c)).
  assert (Hg0 : generating us 0 c).
  { unfold generating. rewrite Hords, Hitems.
    split; [reflexivity |]. split; [reflexivity |]. split; [lia |].
    split; [intros ? [] |]. split; [intros ? [] |].
    split; [intros ? [] | exact Hst]. }
  assert (Ho0 : ordering db ps c).
  { unfold ordering. rewrite Hords, Hitems.
    split; [split; [reflexivity | exact Hbounds] |].
    split; [exact Hsch |]. split; [constructor |].
    split; intros ? []. }
  unfold generate_orders, query in E1.
  bind_inv E1 as user_ids c1 Eq1. injection Eq1 as <- <-.
  bind_inv E1 as products c1 Eq2. injection Eq2 as <- <-.
  unfold for_range in E1. unfold active_user_ids in E1.
  fold us in E1. fold ps in E1.
  pose proof (triple_for_each_count
                (fun k c => generating us k c /\ ordering db ps c)
                (seq 0 200) _
                (fun k x => generate_order_ordering db us ps k x)
                0%nat c tt c2 (conj Hg0 Ho0) E1) as (Hg & Ho).
  rewrite length_seq in Hg.
  destruct Hg as (Hus & _ & Htx & _).
  unfold commit in E. rewrite (Htx ltac:(lia)) in E.
  injection E as <-. cbn [disk].
  pose proof Ho as ((Hps & _) & _).
  split; [rewrite Hus; exact Hnu |].
  split.
  { rewrite <- Hnp. unfold ps, product_prices in Hps.
    apply (f_equal (@List.length _)) in Hps. rewrite !length_map in Hps.
    exact Hps. }
  split.
  { rewrite <- product_prices_ids, Hps. unfold ps.
    rewrite product_prices_ids. exact Hndp. }
  exists c2. split; [reflexivity |]. rewrite Hps. exact Ho.
Qed.

(** X16. A normal return of [generate_dummy_data] leaves exactly
    num_users users, num_products products and 200 orders, and within
    each of the three tables no two rows share an id. *)
Theorem generated_table_sizes (seed : nat) (db : DB R)
    (num_users num_products : nat) (db' : DB R) :
  generate_dummy_data rand seed db num_users num_products = (Ok tt, db') ->
  List.length (rows (users db')) = num_users
  /\ List.length (rows (products db')) = num_products
  /\ List.length (rows (orders db')) = 200%nat
  /\ NoDup (map u_id (rows (users db')))
  /\ NoDup (map p_id (rows (products db')))
  /\ NoDup (map o_id (rows (orders db'))).
Proof.
  intros E.
  destruct (generate_dummy_data_final _ _ _ _ _ E)
    as (Hnu & Hnp & Hndp & c & Hcur & Ho).
  destruct (generate_dummy_data_ok rand _ _ _ _ _ E)
    as (c0 & _ & Hcur0 & (_ & Hlen & _) & Hndu).
  destruct Ho as (_ & _ & Hndo & _).
  rewrite Hcur in Hndo. rewrite Hcur0 in Hlen.
  repeat split; assumption.
Qed.

(** X17. Every generated order has between one and five item rows and
    a date between 0 and 365 days back; every generated item row has a
    quantity between 1 and 5. *)
Theorem generated_orders_shape (seed : nat) (db : DB R)
    (num_users num_products : nat) (db' : DB R) :
  generate_dummy_data rand seed db num_users num_products = (Ok tt, db') ->
  (forall o, In o (rows (orders db')) ->
     (1 <= List.length (items_of db' (o_id o)) <= 5)%nat
     /\ 0 <= o_days_ago o <= 365)
  /\ (forall it, In it (rows (order_items db')) -> 1 <= oi_quantity it <= 5).
Proof.
  intros E.
  destruct (generate_dummy_data_final _ _ _ _ _ E)
    as (_ & _ & _ & c & Hcur & (_ & _ & _ & Hsound & Hshape)).
  rewrite Hcur in Hsound, Hshape. split; [exact Hshape |].
  intros it Hin. apply (Hsound it Hin).
Qed.

(** X18. Every generated item row belongs to a generated order and
    names a generated product; the price on the row is the price of
    that product. *)
Theorem generated_items_reference (seed : nat) (db : DB R)
    (num_users num_products : nat) (db' : DB R) :
  generate_dummy_data rand seed db num_users num_products = (Ok tt, db') ->
  forall it, In it (rows (order_items db')) ->
    (exists o, In o (rows (orders db')) /\ o_id o = oi_order_id it)
    /\ exists p, find_product db' (oi_product_id it) = Some p
                 /\ p_price p = oi_price it.
Proof.
  intros E it Hin.
  destruct (generate_dummy_data_final _ _ _ _ _ E)
    as (_ & _ & Hndp & c & Hcur & (_ & _ & _ & Hsound & _)).
  rewrite Hcur in Hsound. destruct (Hsound it Hin) as (Hprod & _ & Hord).
  split.
  - apply in_map_iff in Hord. destruct Hord as (o & Hid & Ho).
    exists o. split; assumption.
  - unfold product_prices in Hprod. apply in_map_iff in Hprod.
    destruct Hprod as (p & Hp & Hpin). injection Hp as Hid Hprice.
    exists p. split; [| exact Hprice].
    rewrite <- Hid. apply find_product_NoDup; assumption.
Qed.

(** X19. After [generate_dummy_data] every product has a stock between
    0 and 500, with or without the update_product_stock trigger. *)
Theorem generated_stock_bounds (seed : nat) (db : DB R)
    (num_users num_products : nat) (db' : DB R) :
  generate_dummy_data rand seed db num_users num_products = (Ok tt, db') ->
  forall p, In p (rows (products db')) -> 0 <= p_stock p <= 500.
Proof.
  intros E.
  destruct (generate_dummy_data_final _ _ _ _ _ E)
    as (_ & _ & _ & c & Hcur & ((_ & Hb) & _)).
  rewrite Hcur in Hb. exact Hb.
Qed.

(** X20. [generate_dummy_data] writes no audit entry and leaves the
    columns, the views and the triggers as they were. *)
Theorem generate_dummy_data_keeps_schema (seed : nat) (db : DB R)
    (num_users num_products : nat) (db' : DB R) :
  generate_dummy_data rand seed db num_users num_products = (Ok tt, db') ->
  audit_log db' = audit_log db
  /\ users_columns db' = users_columns db
  /\ views db' = views db
  /\ triggers db' = triggers db.
Proof.
  intros E.
  destruct (generate_dummy_data_final _ _ _ _ _ E)
    as (_ & _ & _ & c & Hcur & (_ & Hsch & _)).
  rewrite Hcur in Hsch. exact Hsch.
Qed.

End GeneratorMore.

Section GeneratorEdge.

Context {R : Type} `{Num R}.
Variable rand : nat -> nat.



End GeneratorEdge.

Lemma generated_table_sizes_witness :
  let db' := snd (generate_dummy_data sample_rand 0 shop 3 2) in
  generate_dummy_data sample_rand 0 shop 3 2 = (Ok tt, db')
  /\ List.length (rows (users db')) = 3%nat
  /\ List.length (rows (products db')) = 2%nat
  /\ List.length (rows (orders db')) = 200%nat.
Proof.
  intros db'.
  assert (Hrun : generate_dummy_data sample_rand 0 shop 3 2 = (Ok tt, db'))
    by (vm_compute; reflexivity).
  split; [exact Hrun |].
  destruct (generated_table_sizes sample_rand 0 shop 3 2 db' Hrun)
    as (A & B & C & _).
  split; [exact A |]. split; [exact B | exact C].
Defined.

Lemma generated_orders_shape_witness :
  let db' := snd (generate_dummy_data sample_rand 1 shop 4 3) in
  generate_dummy_data sample_rand 1 shop 4 3 = (Ok tt, db')
  /\ forall it, In it (rows (order_items db')) -> 1 <= oi_quantity it <= 5.
Proof.
  intros db'.
  assert (Hrun : generate_dummy_data sample_rand 1 shop 4 3 = (Ok tt, db'))
    by (vm_compute; reflexivity).
  split; [exact Hrun |].
  exact (proj2 (generated_orders_shape sample_rand 1 shop 4 3 db' Hrun)).
Defined.

Lemma generated_items_reference_witness :
  let db' := snd (generate_dummy_data sample_rand 4 shop 4 3) in
  generate_dummy_data sample_rand 4 shop 4 3 = (Ok tt, db')
  /\ forall it, In it (rows (order_items db')) ->
       exists p, find_product db' (oi_product_id it) = Some p
                 /\ p_price p = oi_price it.
Proof.
  intros db'.
  assert (Hrun : generate_dummy_data sample_rand 4 shop 4 3 = (Ok tt, db'))
    by (vm_compute; reflexivity).
  split; [exact Hrun |].
  intros it Hin.
  exact (proj2 (generated_items_reference sample_rand 4 shop 4 3 db' Hrun
                  it Hin)).
Defined.

(** A run under the triggers: stock stays within bounds. *)
Lemma generated_stock_bounds_witness :
  let db' := snd (generate_dummy_data sample_rand 6 shop_with_triggers 4 3) in
  generate_dummy_data sample_rand 6 shop_with_triggers 4 3 = (Ok tt, db')
  /\ forall p, In p (rows (products db')) -> 0 <= p_stock p <= 500.
Proof.
  intros db'.
  assert (Hrun : generate_dummy_data sample_rand 6 shop_with_triggers 4 3
                 = (Ok tt, db')) by (vm_compute; reflexivity).
  split; [exact Hrun |].
  exact (generated_stock_bounds sample_rand 6 shop_with_triggers 4 3 db' Hrun).
Defined.

Lemma generate_dummy_data_keeps_schema_witness :
  let db' := snd (generate_dummy_data sample_rand 7 shop_with_triggers 4 3) in
  generate_dummy_data sample_rand 7 shop_with_triggers 4 3 = (Ok tt, db')
  /\ audit_log db' = audit_log shop_with_triggers
  /\ triggers db' = triggers shop_with_triggers.
Proof.
  intros db'.
  assert (Hrun : generate_dummy_data sample_rand 7 shop_with_triggers 4 3
                 = (Ok tt, db')) by (vm_compute; reflexivity).
  split; [exact Hrun |].
  destruct (generate_dummy_data_keeps_schema sample_rand 7 shop_with_triggers
              4 3 db' Hrun) as (A & _ & _ & D).
  split; assumption.
Defined.

